(** * AWS install-config validation (pkg/asset/installconfig/aws/validation.go)

    A shallow embedding of the validators of [validation.go] and the
    properties of its diagnostics.

    Conventions of the embedding:
    - a Go [map[string]T] is a [gmap string T]; a [range] statement over a
      map visits the keys in an order the language leaves unspecified, so
      every function that ranges over a map takes the order of that visit
      as an explicit argument (a list of keys, see [ranges]);
    - a [sets.String] is a [gset string]; its [List()] is the sorted list;
    - a pointer that the code tests for nil, or sets to nil itself, is an
      [option]; dereferencing nil is the outcome [Panic];
    - a remote lookup [(value, error)] is a [lookup];
    - the Go standard library and the SDK functions the validators call
      are the members of the class [GoLib]. *)

From stdpp Require Import base option list sorting gmap strings pretty.
From Stdlib Require Import ZArith Lia Ascii.

Local Open Scope Z_scope.

(** ** Outcomes: a run either returns or panics (nil dereference) *)

Inductive outcome (A : Type) : Type :=
| Ret (a : A)
| Panic.
Arguments Ret {A} a.
Arguments Panic {A}.

Definition obind {A B} (m : outcome A) (k : A → outcome B) : outcome B :=
  match m with
  | Ret a => k a
  | Panic => Panic
  end.

Notation "'let!' x ':=' m 'in' k" := (obind m (λ x, k))
  (at level 10, x pattern, m at level 100, k at level 200).

(** [*p] for a pointer [p] *)
Definition deref {A} (p : option A) : outcome A :=
  match p with
  | Some a => Ret a
  | None => Panic
  end.

(** ** Remote lookups: [(value, error)] pairs of the inventory and DNS sources *)

Inductive lookup (A : Type) : Type :=
| Found (a : A)
| Failed (err : string).
Arguments Found {A} a.
Arguments Failed {A} err.

(** ** Strings *)

(** [strings.HasSuffix(s, suffix)]:
    [len(s) >= len(suffix) && s[len(s)-len(suffix):] == suffix] *)
Definition HasSuffix (s suffix : string) : bool :=
  (String.length suffix <=? String.length s)%nat
  && String.eqb
       (String.substring (String.length s - String.length suffix)
                         (String.length suffix) s)
       suffix.

(** [aws.StringValue(p)]: the empty string for a nil pointer *)
Definition StringValue (p : option string) : string := default "" p.

(** [strings.Join(elems, sep)] *)
Definition Join (elems : list string) (sep : string) : string :=
  String.concat sep elems.

(** [sort.Strings]: increasing byte-wise order *)
Definition sort_Strings (l : list string) : list string :=
  merge_sort String.le l.

(** [fmt.Sprintf("%s", l)] for a string slice [l]: [[a b c]] *)
Definition fmt_slice (l : list string) : string :=
  "[" +:+ Join l " " +:+ "]".

(** [sets.String.List()]: the members, sorted *)
Definition set_List (s : gset string) : list string :=
  sort_Strings (elements s).

(** ** Field paths and diagnostics (k8s.io/apimachinery field package) *)

Inductive PathElem : Type :=
| Name (name : string)
| Index (i : nat).

(** A [*field.Path], root first; the nil path is the empty list. *)
Definition Path : Type := list PathElem.

Definition NewPath (names : list string) : Path := Name <$> names.
Definition Child (p : Path) (names : list string) : Path :=
  p ++ (Name <$> names).
Definition PIndex (p : Path) (i : nat) : Path := p ++ [Index i].

Inductive ErrorType : Type :=
| ErrorTypeInvalid
| ErrorTypeRequired
| ErrorTypeInternal.

(** Modelled from the spec: a service-endpoint override of the platform
    settings, [awstypes.ServiceEndpoint]. *)
Record awstypes_ServiceEndpoint : Type := mk_awstypes_ServiceEndpoint {
  se_Name : string;
  se_URL : string
}.

(** The offending value of a diagnostic ([interface{}] in the source) *)
Inductive Value : Type :=
| VNil
| VString (s : string)
| VStrings (l : list string)
| VEndpoints (l : list awstypes_ServiceEndpoint).

Record FieldError : Type := mkFieldError {
  Type_ : ErrorType;
  Field : Path;
  BadValue : Value;
  Detail : string
}.

Definition ErrorList : Type := list FieldError.

Definition Invalid (p : Path) (v : Value) (detail : string) : FieldError :=
  mkFieldError ErrorTypeInvalid p v detail.
Definition Required (p : Path) (detail : string) : FieldError :=
  mkFieldError ErrorTypeRequired p VNil detail.
Definition InternalError (p : Path) (err : string) : FieldError :=
  mkFieldError ErrorTypeInternal p VNil err.

Global Instance PathElem_eq_dec : EqDecision PathElem.
Proof. solve_decision. Defined.
Global Instance ErrorType_eq_dec : EqDecision ErrorType.
Proof. solve_decision. Defined.
Global Instance awstypes_ServiceEndpoint_eq_dec :
  EqDecision awstypes_ServiceEndpoint.
Proof. solve_decision. Defined.
Global Instance Value_eq_dec : EqDecision Value.
Proof. solve_decision. Defined.
Global Instance FieldError_eq_dec : EqDecision FieldError.
Proof. solve_decision. Defined.

(** ** The libraries the validators call

    [net.ParseCIDR(s)] returns the address written in [s] and the network
    implied by that address and the prefix length; every failure is a
    [ParseError] of type "CIDR address" whose text is [s]. *)

Class GoLib : Type := {
  IP : Type;
  IPNet : Type;
  (** [net.ParseCIDR]: [None] is the parse error *)
  ParseCIDR : string → option (IP * IPNet);
  (** the method [Contains] of [net.IPNet] *)
  Contains : IPNet → IP → bool;
  (** the field [IP] of a [net.IPNet]: the network address *)
  NetworkIP : IPNet → IP;
  (** [net.IP.String] *)
  IPString : IP → string;
  (** the verb [%q] of fmt on a string *)
  Quote : string → string;
  (** [rhcos.AMIRegions(arch).Has(region)] *)
  AMIRegionsHas : string → string → bool;
  (** [endpoints.PartitionForRegion(endpoints.DefaultPartitions(), region)]:
      the id of the partition found *)
  PartitionForRegion : string → option string;
  (** whether [Regions()] of that partition has the region *)
  PartitionHasRegion : string → bool;
  (** [newAWSResolver(region, services).EndpointFor(service, region,
      endpoints.StrictMatchingOption)]: the error, if any *)
  EndpointFor : string → list awstypes_ServiceEndpoint → string → option string;
  (** [url.Parse]: the error, or [Hostname()] and [Port()] of the URL *)
  url_Parse : string → lookup (string * string);
  (** the method [Error] of a [field.Error] *)
  ErrorString : FieldError → string;
}.

(** the method [Error] of the [net.ParseError] that [ParseCIDR] returns *)
Definition ParseError_Error (text : string) : string :=
  "invalid CIDR address: " +:+ text.

(** [endpoints.AwsPartitionID] *)
Definition AwsPartitionID : string := "aws".

(** ** Data model *)

(** Modelled from the spec: the struct [Subnet] of the inventory (declared
    outside validation.go); the fields the validators read. *)
Record Subnet : Type := mkSubnet {
  Zone : string;
  CIDR : string
}.

(** The zero value that indexing a Go map yields for an absent key *)
Global Instance Subnet_inhabited : Inhabited Subnet := populate (mkSubnet "" "").

(** Modelled from the spec: the struct [InstanceType] of the inventory
    catalog; [int64] fields. *)
Record InstanceType : Type := mkInstanceType {
  DefaultVCpus : Z;
  MemInMiB : Z
}.

(** Modelled from the spec: the inventory source [Metadata]; each method is
    the memoized result [(value, error)] of its remote lookup. *)
Record Metadata : Type := mkMetadata {
  PrivateSubnets : lookup (gmap string Subnet);
  PublicSubnets : lookup (gmap string Subnet);
  AvailabilityZones : lookup (list string);
  InstanceTypes : lookup (gmap string InstanceType);
  VPC : lookup string
}.

Record resourceRequirements : Type := mkReq {
  minimumVCpus : Z;
  minimumMemory : Z
}.

Definition controlPlaneReq : resourceRequirements := mkReq 4 16384.
Definition computeReq : resourceRequirements := mkReq 2 8192.

(** Modelled from the spec: the configuration tree of package [awstypes]
    (machine-pool and platform settings); the fields the validators read,
    each under the name of its Go field after the record's prefix. *)
Record awstypes_MachinePool : Type := mk_awstypes_MachinePool {
  mp_Zones : list string;
  mp_InstanceType : string;
  mp_AMIID : string
}.

Record awstypes_Platform : Type := mk_awstypes_Platform {
  pf_AMIID : string;
  pf_Region : string;
  pf_Subnets : list string;
  pf_HostedZone : string;
  pf_ServiceEndpoints : list awstypes_ServiceEndpoint;
  pf_DefaultMachinePlatform : option awstypes_MachinePool
}.

(** [types.PublishingStrategy] is a string type. *)
Definition ExternalPublishingStrategy : string := "External".
Definition InternalPublishingStrategy : string := "Internal".

(** Modelled from the spec: the configuration tree of package [types]. The
    field [pool_AWS] is [Platform.AWS] of a machine pool; a machine-network
    entry is its field [CIDR], an [ipnet.IPNet]; [ic_ClusterDomain] is the
    result of the method [ClusterDomain]; [ic_AWS] is [Platform.AWS]. The
    validators never test the networking settings for nil: the configuration
    they receive has them set, and they are a record here. *)
Record types_MachinePool : Type := mk_types_MachinePool {
  pool_Replicas : option Z;
  pool_Architecture : string;
  pool_AWS : option awstypes_MachinePool
}.

Record types_Networking `{GoLib} : Type := mk_types_Networking {
  nw_MachineNetwork : list IPNet
}.

Record types_InstallConfig `{GoLib} : Type := mk_types_InstallConfig {
  ic_BaseDomain : string;
  ic_ClusterDomain : string;
  ic_Networking : types_Networking;
  ic_ControlPlane : option types_MachinePool;
  ic_Compute : list types_MachinePool;
  ic_AWS : option awstypes_Platform;
  ic_Publish : string
}.

(** Modelled from the spec: the DNS source, package [route53] of the SDK.
    A client answers [GetHostedZone] with an output or an error, and
    [ListResourceRecordSetsPages] with the pages it delivers and the error,
    if any, that ends the paging. *)
Record route53_HostedZone : Type := mk_route53_HostedZone {
  hz_Id : option string;
  hz_Name : option string
}.

Record route53_VPC : Type := mk_route53_VPC {
  vpc_VPCId : option string
}.

Record route53_GetHostedZoneOutput : Type := mk_route53_GetHostedZoneOutput {
  out_HostedZone : option route53_HostedZone;
  out_VPCs : list route53_VPC
}.

Record route53_ResourceRecordSet : Type := mk_route53_ResourceRecordSet {
  rrs_Name : option string;
  rrs_Type : option string
}.

Record route53_ListResourceRecordSetsOutput : Type := mk_route53_Page {
  page_ResourceRecordSets : list route53_ResourceRecordSet
}.

Record route53_Route53 : Type := mk_route53_Route53 {
  r53_GetHostedZone : string → lookup route53_GetHostedZoneOutput;
  r53_ListResourceRecordSetsPages :
    option string → list route53_ListResourceRecordSetsOutput * option string
}.

(** Modelled from the spec: a [session.Session] as the validators use it:
    the client [route53.New(session)] and the lookup
    [GetPublicZone(session, name)]. *)
Record Session : Type := mkSession {
  route53_New : route53_Route53;
  GetPublicZone : string → lookup route53_HostedZone
}.

(** A [range] statement over the map [m] visits its keys in the order [ks]:
    each key once, in an order that may change from one statement to the
    next. *)
Definition ranges {A} (m : gmap string A) (ks : list string) : Prop :=
  ks ≡ₚ (map_to_list m).*1.

(** The orders of the six [range] statements over a subnet map that one call
    of [validateSubnets] runs. *)
Record RangeOrders : Type := mkRangeOrders {
  cidr_private : list string;
  cidr_public : list string;
  dup_private : list string;
  dup_public : list string;
  zones_private : list string;
  zones_public : list string
}.

Definition ranges_ok (ro : RangeOrders)
    (privateSubnets publicSubnets : gmap string Subnet) : Prop :=
  ranges privateSubnets (cidr_private ro) ∧
  ranges publicSubnets (cidr_public ro) ∧
  ranges privateSubnets (dup_private ro) ∧
  ranges publicSubnets (dup_public ro) ∧
  ranges privateSubnets (zones_private ro) ∧
  ranges publicSubnets (zones_public ro).

(** The order a [range] statement uses when it follows the map's own
    enumeration *)
Definition keys_of {A} (m : gmap string A) : list string := (map_to_list m).*1.

Definition default_orders (priv pub : gmap string Subnet) : RangeOrders :=
  mkRangeOrders (keys_of priv) (keys_of pub) (keys_of priv) (keys_of pub)
                (keys_of priv) (keys_of pub).

(** The orders of all the [range] statements over a subnet map that one call
    of [Validate] runs: those of [validateSubnets], and the one of each call of
    [validateMachinePool], told by the path the pool is validated under. *)
Record Schedule : Type := mkSchedule {
  sch_subnets : RangeOrders;
  sch_pool : Path → list string
}.

(** Modelled from the spec: the network as the endpoint checks see it:
    [proxy.Dial] on a TCP address (the error, if any), and the endpoint of
    the EC2 client of a session opened for a region by
    [GetSessionWithOptions] (or the error of opening it). *)
Record Network : Type := mkNetwork {
  proxy_Dial : string → option string;
  ec2_Endpoint : string → lookup string
}.

(** The result of [Validate]: the error [errors.New(msg)] or the aggregate
    of the diagnostics *)
Inductive error : Type :=
| errors_New (msg : string)
| Aggregate (errs : list FieldError).

(** ** The validators *)

Section validators.
Context `{GoLib}.

(** [ErrorList.ToAggregate] of apimachinery v0.23.0: nil for the empty list,
    otherwise the errors in order, one per distinct message. *)
Definition ToAggregate (errs : ErrorList) : option (list FieldError) :=
  if decide (length errs = 0%nat) then None
  else
    Some (foldl (λ (st : list FieldError * gset string) err,
                   let msg := ErrorString err in
                   if decide (msg ∈ st.2) then st
                   else (st.1 ++ [err], {[msg]} ∪ st.2))
                ([], ∅) errs).1.

(** [utilerrors.NewAggregate(errs).Error()] for a non-empty [errs]: the one
    message, or the distinct messages between brackets *)
Definition Aggregate_Error (errs : list string) : string :=
  match errs with
  | [] => ""
  | [msg] => msg
  | _ =>
      let r :=
        foldl (λ (st : string * gset string) msg,
                 if decide (msg ∈ st.2) then st
                 else
                   let seenerrs := {[msg]} ∪ st.2 in
                   ((if decide (1 < size seenerrs)%nat then st.1 +:+ ", "
                     else st.1) +:+ msg,
                    seenerrs))
              ("", ∅) errs in
      if decide (size r.2 = 1%nat) then r.1 else "[" +:+ r.1 +:+ "]"
  end.

Fixpoint validateMachineNetworksContainIP (fldPath : Path)
    (networks : list IPNet) (subnetName : string) (ip : IP) : ErrorList :=
  match networks with
  | [] =>
      [Invalid fldPath (VString subnetName)
         ("subnet's CIDR range start " +:+ IPString ip +:+
          " is outside of the specified machine networks")]
  | network :: rest =>
      if Contains network ip then []
      else validateMachineNetworksContainIP fldPath rest subnetName ip
  end.

(** One iteration of the loop of [validateSubnetCIDR] *)
Definition validateSubnetCIDR_step (fldPath : Path)
    (subnets : gmap string Subnet) (idxMap : gmap string nat)
    (networks : list IPNet) (allErrs : ErrorList) (id : string) : ErrorList :=
  let v := subnets !!! id in
  let fp := PIndex fldPath (idxMap !!! id) in
  match ParseCIDR (CIDR v) with
  | None => allErrs ++ [Invalid fp (VString id) (ParseError_Error (CIDR v))]
  | Some (cidr, _) =>
      allErrs ++ validateMachineNetworksContainIP fp networks id cidr
  end.

Definition validateSubnetCIDR (fldPath : Path) (order : list string)
    (subnets : gmap string Subnet) (idxMap : gmap string nat)
    (networks : list IPNet) : ErrorList :=
  foldl (validateSubnetCIDR_step fldPath subnets idxMap networks) [] order.

(** One iteration of the second loop of [validateDuplicateSubnetZones]; the
    state is the pair of [allErrs] and [zones]. *)
Definition validateDuplicateSubnetZones_step (fldPath : Path)
    (subnets : gmap string Subnet) (idxMap : gmap string nat) (typ : string)
    (st : ErrorList * gmap string string) (id : string)
    : ErrorList * gmap string string :=
  let subnet := subnets !!! id in
  match st.2 !! Zone subnet with
  | Some conflictingSubnet =>
      let errMsg := typ +:+ " subnet " +:+ conflictingSubnet +:+
                    " is also in zone " +:+ Zone subnet in
      (st.1 ++ [Invalid (PIndex fldPath (idxMap !!! id)) (VString id) errMsg],
       st.2)
  | None => (st.1, <[Zone subnet := id]> st.2)
  end.

Definition validateDuplicateSubnetZones (fldPath : Path) (order : list string)
    (subnets : gmap string Subnet) (idxMap : gmap string nat) (typ : string)
    : ErrorList :=
  let keys := foldl (λ keys id, keys ++ [id]) [] order in
  let keys := sort_Strings keys in
  (foldl (validateDuplicateSubnetZones_step fldPath subnets idxMap typ)
         ([], ∅) keys).1.

(** The loops of [validateSubnets] that fill [privateSubnetsIdx] and
    [publicSubnetsIdx]: each declared id that the live map knows, with its
    position in the declared list (the last one, if it is declared twice). *)
Definition subnetsIdx (subnets : list string) (live : gmap string Subnet)
    : gmap string nat :=
  foldl (λ (idxMap : gmap string nat) (p : nat * string),
           if decide (is_Some (live !! p.2)) then <[p.2 := p.1]> idxMap
           else idxMap)
        ∅ (imap pair subnets).

(** The loops that insert the zone of every subnet of a tier into a set *)
Definition zonesOf (order : list string) (subnets : gmap string Subnet)
    : gset string :=
  foldl (λ (zs : gset string) id, {[Zone (subnets !!! id)]} ∪ zs) ∅ order.

Definition validateSubnets (ro : RangeOrders) (meta : Metadata)
    (fldPath : Path) (subnets : list string)
    (networking : types_Networking) (publish : string) : ErrorList :=
  let allErrs : ErrorList := [] in
  match PrivateSubnets meta with
  | Failed err => allErrs ++ [Invalid fldPath (VStrings subnets) err]
  | Found privateSubnets =>
    let privateSubnetsIdx := subnetsIdx subnets privateSubnets in
    let allErrs :=
      if decide (size privateSubnets = 0%nat)
      then allErrs ++ [Invalid fldPath (VStrings subnets)
                               "No private subnets found"]
      else allErrs in
    match PublicSubnets meta with
    | Failed err => allErrs ++ [Invalid fldPath (VStrings subnets) err]
    | Found publicSubnets =>
      let publicSubnetsIdx := subnetsIdx subnets publicSubnets in
      let allErrs := allErrs ++
        validateSubnetCIDR fldPath (cidr_private ro) privateSubnets
                           privateSubnetsIdx (nw_MachineNetwork networking) in
      let allErrs := allErrs ++
        validateSubnetCIDR fldPath (cidr_public ro) publicSubnets
                           publicSubnetsIdx (nw_MachineNetwork networking) in
      let allErrs := allErrs ++
        validateDuplicateSubnetZones fldPath (dup_private ro) privateSubnets
                                     privateSubnetsIdx "private" in
      let allErrs := allErrs ++
        validateDuplicateSubnetZones fldPath (dup_public ro) publicSubnets
                                     publicSubnetsIdx "public" in
      let privateZones := zonesOf (zones_private ro) privateSubnets in
      let publicZones := zonesOf (zones_public ro) publicSubnets in
      let allErrs :=
        if bool_decide (publish = ExternalPublishingStrategy)
           && negb (bool_decide (privateZones ⊆ publicZones))
        then
          let errMsg := "No public subnet provided for zones " +:+
                        fmt_slice (set_List (privateZones ∖ publicZones)) in
          allErrs ++ [Invalid fldPath (VStrings subnets) errMsg]
        else allErrs in
      allErrs
    end
  end.

(** The instance-type block of [validateMachinePool], entered with the
    diagnostics [allErrs] of the zone block *)
Definition validateMachinePool_type (meta : Metadata) (fldPath : Path)
    (pool : awstypes_MachinePool) (req : resourceRequirements)
    (allErrs : ErrorList) : ErrorList :=
  if decide (mp_InstanceType pool ≠ "") then
    match InstanceTypes meta with
    | Failed err => allErrs ++ [InternalError fldPath err]
    | Found instanceTypes =>
      match instanceTypes !! mp_InstanceType pool with
      | Some typeMeta =>
        let allErrs :=
          if decide (DefaultVCpus typeMeta < minimumVCpus req) then
            let errMsg :=
              "instance type does not meet minimum resource requirements of "
              +:+ pretty (minimumVCpus req) +:+ " vCPUs" in
            allErrs ++ [Invalid (Child fldPath ["type"])
                                (VString (mp_InstanceType pool)) errMsg]
          else allErrs in
        let allErrs :=
          if decide (MemInMiB typeMeta < minimumMemory req) then
            let errMsg :=
              "instance type does not meet minimum resource requirements of "
              +:+ pretty (minimumMemory req) +:+ " MiB Memory" in
            allErrs ++ [Invalid (Child fldPath ["type"])
                                (VString (mp_InstanceType pool)) errMsg]
          else allErrs in
        allErrs
      | None =>
        let errMsg := "instance type " +:+ mp_InstanceType pool +:+
                      " not found" in
        allErrs ++ [Invalid (Child fldPath ["type"])
                            (VString (mp_InstanceType pool)) errMsg]
      end
    end
  else allErrs.

(** [validateMachinePool]; [order] is the order of its [range] statement over
    the private subnets. The zone block either returns at once, on a failed
    lookup, or hands its diagnostics to the instance-type block. *)
Definition validateMachinePool (order : list string) (meta : Metadata)
    (fldPath : Path) (platform : awstypes_Platform)
    (pool : awstypes_MachinePool) (req : resourceRequirements) : ErrorList :=
  let allErrs : ErrorList := [] in
  if decide (0 < length (mp_Zones pool))%nat then
    let availableZones : lookup (gset string) :=
      if decide (0 < length (pf_Subnets platform))%nat then
        match PrivateSubnets meta with
        | Failed err => Failed err
        | Found privateSubnets => Found (zonesOf order privateSubnets)
        end
      else
        match AvailabilityZones meta with
        | Failed err => Failed err
        | Found allzones => Found (list_to_set allzones ∪ ∅)
        end in
    match availableZones with
    | Failed err => allErrs ++ [InternalError fldPath err]
    | Found availableZones =>
      let diff : gset string := list_to_set (mp_Zones pool) ∖ availableZones in
      let allErrs :=
        if decide (0 < size diff)%nat then
          let errMsg := "No subnets provided for zones " +:+
                        fmt_slice (set_List diff) in
          allErrs ++ [Invalid (Child fldPath ["zones"])
                              (VStrings (mp_Zones pool)) errMsg]
        else allErrs in
      validateMachinePool_type meta fldPath pool req allErrs
    end
  else validateMachinePool_type meta fldPath pool req allErrs.

(** One iteration of the loop of [validateAMI] over the compute pools *)
Definition validateAMI_step (computesHaveAMISpecified : bool)
    (c : types_MachinePool) : bool :=
  if decide (pool_Replicas c = Some 0) then computesHaveAMISpecified
  else
    match pool_AWS c with
    | None => false
    | Some aws =>
        if decide (mp_AMIID aws = "") then false
        else computesHaveAMISpecified
    end.

Definition validateAMI (config : types_InstallConfig) : outcome ErrorList :=
  let! controlPlane := deref (ic_ControlPlane config) in
  let! platform := deref (ic_AWS config) in
  if AMIRegionsHas (pool_Architecture controlPlane) (pf_Region platform)
  then Ret []
  else if decide (pf_AMIID platform ≠ "") then Ret []
  else if match pf_DefaultMachinePlatform platform with
          | Some d => bool_decide (mp_AMIID d ≠ "")
          | None => false
          end
  then Ret []
  else
    let controlPlaneHasAMISpecified :=
      match pool_AWS controlPlane with
      | Some aws => bool_decide (mp_AMIID aws ≠ "")
      | None => false
      end in
    let computesHaveAMISpecified :=
      foldl validateAMI_step true (ic_Compute config) in
    if controlPlaneHasAMISpecified && computesHaveAMISpecified then Ret []
    else
      match PartitionForRegion (pf_Region platform) with
      | Some partitionID =>
          if decide (partitionID = AwsPartitionID) then Ret []
          else Ret [Required (NewPath ["platform"; "aws"; "amiID"])
                             "AMI must be provided"]
      | None => Ret [Required (NewPath ["platform"; "aws"; "amiID"])
                              "AMI must be provided"]
      end.

(** [net.JoinHostPort] *)
Definition JoinHostPort (host port : string) : string :=
  match String.index 0 ":" host with
  | Some _ => "[" +:+ host +:+ "]:" +:+ port
  | None => host +:+ ":" +:+ port
  end.

(** [validateEndpointAccessibility]: the error, if any *)
Definition validateEndpointAccessibility (net : Network) (endpointURL : string)
    : option string :=
  if decide (endpointURL = "e2e.local") then None
  else
    match url_Parse endpointURL with
    | Failed err => Some err
    | Found URL =>
        let port := if decide (URL.2 = "") then "https" else URL.2 in
        proxy_Dial net (JoinHostPort URL.1 port)
    end.

Definition validateRegion (net : Network) (region : string) : option string :=
  match ec2_Endpoint net region with
  | Failed err => Some err
  | Found endpoint => validateEndpointAccessibility net endpoint
  end.

Definition requiredServices : list string :=
  ["ec2"; "elasticloadbalancing"; "iam"; "route53"; "s3"; "sts"; "tagging"].

(** [ec2.ServiceName] *)
Definition ec2_ServiceName : string := "ec2".

(** One iteration of the first loop of [validateServiceEndpoints]; the state
    is the pair of [allErrs] and [ec2Endpoint]. *)
Definition validateServiceEndpoints_step (net : Network) (fldPath : Path)
    (st : ErrorList * string) (p : nat * awstypes_ServiceEndpoint)
    : ErrorList * string :=
  match validateEndpointAccessibility net (se_URL p.2) with
  | Some err =>
      (st.1 ++ [Invalid (Child (PIndex fldPath p.1) ["url"])
                        (VString (se_URL p.2)) err],
       st.2)
  | None =>
      if decide (se_Name p.2 = ec2_ServiceName) then (st.1, se_URL p.2)
      else st
  end.

Definition validateServiceEndpoints (net : Network) (fldPath : Path)
    (region : string) (services : list awstypes_ServiceEndpoint) : ErrorList :=
  let st := foldl (validateServiceEndpoints_step net fldPath) ([], "")
                  (imap pair services) in
  let allErrs := st.1 in
  let ec2Endpoint := st.2 in
  match PartitionForRegion region with
  | Some _ =>
      if negb (PartitionHasRegion region) && bool_decide (ec2Endpoint = "")
      then
        match validateRegion net region with
        | Some err =>
            allErrs ++ [Invalid (Child fldPath ["region"]) (VString region) err]
        | None => allErrs
        end
      else allErrs
  | None =>
      let errs :=
        foldl (λ (errs : list string) service,
                 match EndpointFor region services service with
                 | Some err =>
                     errs ++ ["failed to find endpoint for service " +:+
                              Quote service +:+ ": " +:+ err]
                 | None => errs
                 end)
              [] requiredServices in
      if decide (0 < length errs)%nat then
        allErrs ++ [Invalid fldPath (VEndpoints services) (Aggregate_Error errs)]
      else allErrs
  end.

Definition validatePlatform (sch : Schedule) (net : Network) (meta : Metadata)
    (fldPath : Path) (platform : awstypes_Platform)
    (networking : types_Networking) (publish : string) : ErrorList :=
  let allErrs : ErrorList := [] in
  let allErrs := allErrs ++
    validateServiceEndpoints net (Child fldPath ["serviceEndpoints"])
      (pf_Region platform) (pf_ServiceEndpoints platform) in
  if decide (0 < length allErrs)%nat then allErrs
  else
    let allErrs :=
      if decide (0 < length (pf_Subnets platform))%nat then
        allErrs ++
        validateSubnets (sch_subnets sch) meta (Child fldPath ["subnets"])
                        (pf_Subnets platform) networking publish
      else allErrs in
    let allErrs :=
      match pf_DefaultMachinePlatform platform with
      | Some defaultMachinePlatform =>
          allErrs ++
          validateMachinePool
            (sch_pool sch (Child fldPath ["defaultMachinePlatform"])) meta
            (Child fldPath ["defaultMachinePlatform"]) platform
            defaultMachinePlatform controlPlaneReq
      | None => allErrs
      end in
    allErrs.

(** One iteration of the loop of [Validate] over the compute pools *)
Definition Validate_step (sch : Schedule) (meta : Metadata)
    (platform : awstypes_Platform) (allErrs : ErrorList)
    (p : nat * types_MachinePool) : ErrorList :=
  let fldPath := PIndex (NewPath ["compute"]) p.1 in
  match pool_AWS p.2 with
  | Some aws =>
      allErrs ++
      validateMachinePool (sch_pool sch (Child fldPath ["platform"; "aws"]))
        meta (Child fldPath ["platform"; "aws"]) platform aws computeReq
  | None => allErrs
  end.

Definition Validate (sch : Schedule) (net : Network) (meta : Metadata)
    (config : types_InstallConfig) : outcome (option error) :=
  let allErrs : ErrorList := [] in
  match ic_AWS config with
  | None =>
      Ret (Some (errors_New
                   (ErrorString
                      (Required (NewPath ["platform"; "aws"])
                         "AWS validation requires an AWS platform configuration"))))
  | Some platform =>
      let! amiErrs := validateAMI config in
      let allErrs := allErrs ++ amiErrs in
      let allErrs := allErrs ++
        validatePlatform sch net meta (NewPath ["platform"; "aws"]) platform
                         (ic_Networking config) (ic_Publish config) in
      let allErrs :=
        match ic_ControlPlane config with
        | Some controlPlane =>
            match pool_AWS controlPlane with
            | Some aws =>
                allErrs ++
                validateMachinePool
                  (sch_pool sch (NewPath ["controlPlane"; "platform"; "aws"]))
                  meta (NewPath ["controlPlane"; "platform"; "aws"]) platform
                  aws controlPlaneReq
            | None => allErrs
            end
        | None => allErrs
        end in
      let allErrs :=
        foldl (Validate_step sch meta platform) allErrs
              (imap pair (ic_Compute config)) in
      Ret (Aggregate <$> ToAggregate allErrs)
  end.

End validators.

(** ** Pre-provision DNS checks *)

Section provisioning.
Context `{GoLib}.

Definition getBaseDomain (session : Session) (baseDomainPath : Path)
    (baseDomainName : string) : option route53_HostedZone * ErrorList :=
  match GetPublicZone session baseDomainName with
  | Failed _ =>
      (None, [Invalid baseDomainPath (VString baseDomainName)
                      "cannot find base domain"])
  | Found baseDomainZone => (Some baseDomainZone, [])
  end.

Definition getHostedZone (client : route53_Route53) (hostedZonePath : Path)
    (hostedZoneName : string)
    : option route53_GetHostedZoneOutput * ErrorList :=
  match r53_GetHostedZone client hostedZoneName with
  | Failed _ =>
      (None, [Invalid hostedZonePath (VString hostedZoneName)
                      "cannot find hosted zone"])
  | Found hostedZoneOutput => (Some hostedZoneOutput, [])
  end.

Definition isHostedZoneAssociatedWithVPC
    (hostedZone : option route53_GetHostedZoneOutput) (vpcID : string)
    : outcome bool :=
  if decide (vpcID = "") then Ret false
  else
    let! hostedZone := deref hostedZone in
    Ret (existsb (λ vpc, bool_decide (StringValue (vpc_VPCId vpc) = vpcID))
                 (out_VPCs hostedZone)).

Definition validateHostedZone
    (hostedZoneOutput : option route53_GetHostedZoneOutput)
    (hostedZonePath : Path) (hostedZoneName : string) (metadata : Metadata)
    : outcome ErrorList :=
  let allErrs : ErrorList := [] in
  match VPC metadata with
  | Found vpcID =>
      let! associated := isHostedZoneAssociatedWithVPC hostedZoneOutput vpcID in
      if negb associated then
        Ret (allErrs ++ [Invalid hostedZonePath (VString hostedZoneName)
                                 "hosted zone is not associated with the VPC"])
      else Ret allErrs
  | Failed _ =>
      Ret (allErrs ++ [Invalid hostedZonePath (VString hostedZoneName)
                               "no VPC found"])
  end.

Definition isHostedZoneDomainParentOfClusterDomain
    (hostedZone : option route53_HostedZone) (dottedClusterDomain : string)
    : outcome bool :=
  let! hostedZone := deref hostedZone in
  let! name := deref (hz_Name hostedZone) in
  if decide (name = dottedClusterDomain) then Ret true
  else Ret (HasSuffix dottedClusterDomain ("." +:+ name)).

(** The body of the loop over the record sets of a page, in
    [getSubDomainDNSRecords] *)
Definition recordSet_step (dottedClusterDomain : string)
    (problematicRecords : list string) (recordSet : route53_ResourceRecordSet)
    : list string :=
  let name := StringValue (rrs_Name recordSet) in
  if negb (HasSuffix name dottedClusterDomain) then problematicRecords
  else if decide (String.length name = String.length dottedClusterDomain)
  then problematicRecords
  else problematicRecords ++
         [name +:+ " (" +:+ StringValue (rrs_Type recordSet) +:+ ")"].

(** The callback that [getSubDomainDNSRecords] passes to
    [ListResourceRecordSetsPages]: the new [problematicRecords] and whether
    paging goes on. *)
Definition recordSets_page (dottedClusterDomain : string)
    (problematicRecords : list string)
    (out : route53_ListResourceRecordSetsOutput) (lastPage : bool)
    : list string * bool :=
  (foldl (recordSet_step dottedClusterDomain) problematicRecords
         (page_ResourceRecordSets out),
   negb lastPage).

(** The paging loop of the SDK: the callback runs on every delivered page,
    with [lastPage] set on the page that has no successor, until it returns
    false; the error that ended the paging, if any, is the result. *)
Fixpoint eachPage {S : Type}
    (fn : S → route53_ListResourceRecordSetsOutput → bool → S * bool)
    (st : S) (pages : list route53_ListResourceRecordSetsOutput)
    (err : option string) : S * option string :=
  match pages with
  | [] => (st, err)
  | out :: rest =>
      let lastPage :=
        match rest, err with
        | [], None => true
        | _, _ => false
        end in
      let r := fn st out lastPage in
      if r.2 then eachPage fn r.1 rest err else (r.1, None)
  end.

Definition getSubDomainDNSRecords (client : route53_Route53)
    (hostedZone : option route53_HostedZone) (ic : types_InstallConfig)
    : outcome (list string * option string) :=
  let dottedClusterDomain := ic_ClusterDomain ic +:+ "." in
  let! parent :=
    isHostedZoneDomainParentOfClusterDomain hostedZone dottedClusterDomain in
  let! hostedZone := deref hostedZone in
  if negb parent then
    let! name := deref (hz_Name hostedZone) in
    Ret ([], Some ("hosted zone domain " +:+ Quote name +:+
                   " is not a parent of the cluster domain " +:+
                   Quote dottedClusterDomain))
  else
    let listing := r53_ListResourceRecordSetsPages client (hz_Id hostedZone) in
    let r := eachPage (recordSets_page dottedClusterDomain) []
                      listing.1 listing.2 in
    match r.2 with
    | Some err => Ret ([], Some err)
    | None => Ret (r.1, None)
    end.

Definition validateZoneRecords (client : route53_Route53)
    (zone : option route53_HostedZone) (zoneName : string) (zonePath : Path)
    (ic : types_InstallConfig) : outcome ErrorList :=
  let allErrs : ErrorList := [] in
  let! r := getSubDomainDNSRecords client zone ic in
  let allErrs :=
    match r.2 with
    | Some err =>
        allErrs ++ [InternalError zonePath
                      ("could not list record sets for domain " +:+
                       Quote zoneName +:+ ": " +:+ err)]
    | None => allErrs
    end in
  let allErrs :=
    if decide (0 < length r.1)%nat then
      let detail :=
        "the zone already has record sets for the domain of the cluster: ["
        +:+ Join r.1 ", " +:+ "]" in
      allErrs ++ [Invalid zonePath (VString zoneName) detail]
    else allErrs in
  Ret allErrs.

(** [ValidateForProvisioning]. The variables [zoneName] and [zonePath] that
    both branches declare with [:=] shadow the outer ones, which keep their
    zero values (the empty string and the nil path) for
    [validateZoneRecords]. *)
Definition ValidateForProvisioning (session : Session)
    (ic : types_InstallConfig) (metadata : Metadata)
    : outcome (option (list FieldError)) :=
  if decide (ic_Publish ic = InternalPublishingStrategy) then Ret None
  else
    let zoneName : string := "" in
    let zonePath : Path := [] in
    let allErrs : ErrorList := [] in
    let client := route53_New session in
    let! platform := deref (ic_AWS ic) in
    let! r :=
      if decide (pf_HostedZone platform ≠ "") then
        let zoneName' := pf_HostedZone platform in
        let zonePath' := NewPath ["aws"; "hostedZone"] in
        let r := getHostedZone client zonePath' zoneName' in
        let zoneOutput := r.1 in
        let allErrs :=
          if decide (0 < length r.2)%nat then allErrs ++ r.2 else allErrs in
        let! errors := validateHostedZone zoneOutput zonePath' zoneName'
                                          metadata in
        let allErrs :=
          if decide (0 < length errors)%nat then allErrs ++ errors
          else allErrs in
        let! zoneOutput := deref zoneOutput in
        Ret (out_HostedZone zoneOutput, allErrs)
      else
        let zoneName' := ic_BaseDomain ic in
        let zonePath' := NewPath ["baseDomain"] in
        let r := getBaseDomain session zonePath' zoneName' in
        let allErrs :=
          if decide (0 < length r.2)%nat then allErrs ++ r.2 else allErrs in
        Ret (r.1, allErrs) in
    let zone := r.1 in
    let allErrs := r.2 in
    let! errors := validateZoneRecords client zone zoneName zonePath ic in
    let allErrs :=
      if decide (0 < length errors)%nat then allErrs ++ errors else allErrs in
    Ret (ToAggregate allErrs).

End provisioning.

(** ** An instance of the libraries: the IPv4 fragment of package net

    [net.ParseCIDR] and [net.IPNet] of Go 1.17 on IPv4 text: an address is
    its 32-bit number, a network is its masked address and its mask. IPv6
    text is outside this fragment and is rejected here. *)

Record IPv4Net : Type := mkIPv4Net {
  net_IP : Z;
  net_Mask : Z
}.

Definition is_digit (c : Ascii.ascii) : bool :=
  (48 <=? Z.of_N (Ascii.N_of_ascii c)) && (Z.of_N (Ascii.N_of_ascii c) <=? 57).

(** [dtoi] of package net: the decimal number at the start of [s], the count
    of characters read and whether a number below [0xFFFFFF] was read *)
Fixpoint dtoi_loop (s : string) (n : Z) (i : nat) : Z * nat * bool :=
  match s with
  | String c rest =>
      if is_digit c then
        let n' := n * 10 + (Z.of_N (Ascii.N_of_ascii c) - 48) in
        if 16777215 <=? n' then (16777215, i, false)
        else dtoi_loop rest n' (S i)
      else if decide (i = 0%nat) then (0, 0%nat, false) else (n, i, true)
  | EmptyString =>
      if decide (i = 0%nat) then (0, 0%nat, false) else (n, i, true)
  end.

Definition dtoi (s : string) : Z * nat * bool := dtoi_loop s 0 0%nat.

(** [s[n:]] *)
Definition string_drop (n : nat) (s : string) : string :=
  String.substring n (String.length s - n) s.

(** [parseIPv4]: four decimal fields of at most 255 without leading zero,
    separated by dots; [k] fields are still to be read. *)
Fixpoint parseIPv4_loop (k : nat) (first : bool) (s : string) (p : list Z)
    : option (list Z) :=
  match k with
  | O => if decide (String.length s = 0%nat) then Some p else None
  | S k' =>
      if decide (String.length s = 0%nat) then None
      else
        let field :=
          if first then Some s
          else match s with
               | String "." s' => Some s'
               | _ => None
               end in
        match field with
        | None => None
        | Some s =>
            let '(n, c, ok) := dtoi s in
            if negb ok || (255 <? n) then None
            else if (1 <? c)%nat && bool_decide (String.get 0 s = Some "0"%char)
            then None
            else parseIPv4_loop k' false (string_drop c s) (p ++ [n])
        end
  end.

Definition parseIPv4 (s : string) : option Z :=
  match parseIPv4_loop 4 true s [] with
  | Some [a; b; c; d] =>
      Some (Z.lor (Z.shiftl a 24)
              (Z.lor (Z.shiftl b 16) (Z.lor (Z.shiftl c 8) d)))
  | _ => None
  end.

(** [net.CIDRMask(ones, 32)] *)
Definition CIDRMask (ones : Z) : Z := Z.shiftl (Z.ones ones) (32 - ones).

Definition IPv4_ParseCIDR (s : string) : option (Z * IPv4Net) :=
  match String.index 0 "/" s with
  | None => None
  | Some i =>
      let addr := String.substring 0 i s in
      let mask := string_drop (S i) s in
      match parseIPv4 addr with
      | None => None
      | Some ip =>
          let '(n, j, ok) := dtoi mask in
          if negb ok || negb (bool_decide (j = String.length mask))
             || (n <? 0) || (32 <? n)
          then None
          else
            let m := CIDRMask n in
            Some (ip, mkIPv4Net (Z.land ip m) m)
      end
  end.

Definition IPv4_Contains (n : IPv4Net) (ip : Z) : bool :=
  Z.land (net_IP n) (net_Mask n) =? Z.land ip (net_Mask n).

Definition IPv4_String (ip : Z) : string :=
  pretty (Z.land (Z.shiftr ip 24) 255) +:+ "." +:+
  pretty (Z.land (Z.shiftr ip 16) 255) +:+ "." +:+
  pretty (Z.land (Z.shiftr ip 8) 255) +:+ "." +:+
  pretty (Z.land ip 255).

(** The address [a.b.c.d] and the network [a.b.c.d/ones] *)
Definition ipv4 (a b c d : Z) : Z :=
  Z.lor (Z.shiftl a 24) (Z.lor (Z.shiftl b 16) (Z.lor (Z.shiftl c 8) d)).
Definition ipv4net (a b c d ones : Z) : IPv4Net :=
  mkIPv4Net (Z.land (ipv4 a b c d) (CIDRMask ones)) (CIDRMask ones).

(** [%q] on text that needs no escape: the text between double quotes *)
Definition quote_plain (s : string) : string :=
  String "034"%char (s +:+ String "034"%char "").

Definition path_String (p : Path) : string :=
  foldl (λ acc e,
           match e with
           | Name n => if decide (acc = "") then n else acc +:+ "." +:+ n
           | Index i => acc +:+ "[" +:+ pretty i +:+ "]"
           end) "" p.

(** A rendering of a diagnostic: its path, its kind, its value and its
    detail *)
Definition render_FieldError (e : FieldError) : string :=
  path_String (Field e) +:+ ": " +:+
  match Type_ e with
  | ErrorTypeInvalid => "Invalid value"
  | ErrorTypeRequired => "Required value"
  | ErrorTypeInternal => "Internal error"
  end +:+
  match BadValue e with
  | VNil => ""
  | VString s => ": " +:+ quote_plain s
  | VStrings l => ": " +:+ fmt_slice (quote_plain <$> l)
  | VEndpoints l => ": " +:+ fmt_slice (se_URL <$> l)
  end +:+
  (if decide (Detail e = "") then "" else ": " +:+ Detail e).

(** A URL reader for the examples: the scheme https, a host without port *)
Definition example_url_Parse (rawURL : string) : lookup (string * string) :=
  if String.prefix "https://" rawURL
  then Found (string_drop 8 rawURL, "")
  else Failed "unsupported protocol scheme".

(** An environment for the examples: the IPv4 fragment of net, a release
    stream with images for two regions, the partitions of the SDK told by
    the prefix of the region and a few of their regions, a resolver that
    knows the services with an override, and the URL reader above. *)
Definition example_partition (region : string) : option string :=
  if String.prefix "cn-" region then Some "aws-cn"
  else if String.prefix "us-gov-" region then Some "aws-us-gov"
  else if String.prefix "us-" region || String.prefix "eu-" region
          || String.prefix "ap-" region
  then Some "aws"
  else None.

Global Instance IPv4Lib : GoLib := {|
  IP := Z;
  IPNet := IPv4Net;
  ParseCIDR := IPv4_ParseCIDR;
  Contains := IPv4_Contains;
  NetworkIP := net_IP;
  IPString := IPv4_String;
  Quote := quote_plain;
  AMIRegionsHas := λ arch region,
    bool_decide (region ∈ ["us-east-1"; "us-west-2"]);
  PartitionForRegion := example_partition;
  PartitionHasRegion := λ region,
    bool_decide (region ∈ ["us-east-1"; "us-west-2"; "eu-west-1";
                           "ap-south-1"; "cn-north-1"; "us-gov-west-1"]);
  EndpointFor := λ region services service,
    if bool_decide (service ∈ se_Name <$> services) then None
    else Some "unknown endpoint";
  url_Parse := example_url_Parse;
  ErrorString := render_FieldError
|}.

(** ** The vocabulary of the properties *)

(** The zones that the subnets of a tier cover *)
Definition tier_zones (m : gmap string Subnet) : gset string :=
  list_to_set ((λ kv, Zone kv.2) <$> map_to_list m).

(** The zones of a tier are pairwise distinct. *)
Definition zones_distinct (m : gmap string Subnet) : Prop :=
  ∀ i j si sj,
    m !! i = Some si → m !! j = Some sj → Zone si = Zone sj → i = j.

(** The CIDR of a subnet parses, and the address so read lies inside one of
    the machine networks. *)
Definition cidr_inside `{GoLib} (networks : list IPNet) (s : Subnet) : Prop :=
  ∃ ip n, ParseCIDR (CIDR s) = Some (ip, n)
          ∧ ∃ network, network ∈ networks ∧ Contains network ip = true.

(** The CIDR of a subnet parses, and the address of the network it denotes
    lies inside one of the machine networks. *)
Definition network_inside `{GoLib} (networks : list IPNet) (s : Subnet) : Prop :=
  ∃ ip n, ParseCIDR (CIDR s) = Some (ip, n)
          ∧ ∃ network, network ∈ networks
                       ∧ Contains network (NetworkIP n) = true.

(** The CIDR of a subnet parses, and the block of addresses that it denotes
    lies inside one of the machine networks: every address of the block is
    an address of that network. *)
Definition cidr_range_inside `{GoLib} (networks : list IPNet) (s : Subnet)
    : Prop :=
  ∃ ip n, ParseCIDR (CIDR s) = Some (ip, n)
          ∧ ∃ network, network ∈ networks
                       ∧ ∀ a, Contains n a = true → Contains network a = true.

(** A law of [net.ParseCIDR]: the address that it returns is an address of
    the network that it returns. *)
Definition ParseCIDR_in_network `{GoLib} : Prop :=
  ∀ text ip n, ParseCIDR text = Some (ip, n) → Contains n ip = true.

(** [cidr_range_inside] as a test, in the IPv4 fragment: the mask of the
    machine network is a part of the mask of the block, and the machine
    network holds the address of the block. *)
Definition IPv4_range_inside_b (networks : list IPv4Net) (s : Subnet) : bool :=
  match IPv4_ParseCIDR (CIDR s) with
  | Some (_, n) =>
      existsb (λ network,
                 (Z.land (net_Mask n) (net_Mask network) =? net_Mask network)
                 && IPv4_Contains network (net_IP n))
              networks
  | None => false
  end.

(** [cidr_inside] as a test *)
Definition cidr_inside_b `{GoLib} (networks : list IPNet) (s : Subnet) : bool :=
  match ParseCIDR (CIDR s) with
  | Some (ip, _) => existsb (λ network, Contains network ip) networks
  | None => false
  end.

(** The pool without its instance type: what is left for
    [validateMachinePool] to check is the zones. *)
Definition without_type (pool : awstypes_MachinePool) : awstypes_MachinePool :=
  mk_awstypes_MachinePool (mp_Zones pool) "" (mp_AMIID pool).

(** The zone block of [validateMachinePool] does not end the call: the pool
    declares no zone, or the lookup that yields the available zones
    succeeds. *)
Definition zone_lookup_ok (meta : Metadata) (platform : awstypes_Platform)
    (pool : awstypes_MachinePool) : Prop :=
  mp_Zones pool = []
  ∨ (pf_Subnets platform ≠ [] ∧ ∃ privateSubnets,
       PrivateSubnets meta = Found privateSubnets)
  ∨ (pf_Subnets platform = [] ∧ ∃ allzones,
       AvailabilityZones meta = Found allzones).

(** The pool specifies an image, or is exempt for having no replica. *)
Definition pool_has_AMI_or_no_replica (c : types_MachinePool) : Prop :=
  pool_Replicas c = Some 0
  ∨ ∃ aws, pool_AWS c = Some aws ∧ mp_AMIID aws ≠ "".

(** The schedule of a run is one that the inventory allows: every order is
    an order of the keys of the map that its [range] statement walks. *)
Definition schedule_ok (sch : Schedule) (meta : Metadata) : Prop :=
  ∀ priv, PrivateSubnets meta = Found priv →
    (∀ path, ranges priv (sch_pool sch path))
    ∧ ∀ pub, PublicSubnets meta = Found pub →
        ranges_ok (sch_subnets sch) priv pub.

(** A diagnostic of the coverage check between the tiers *)
Definition is_coverage_gap (e : FieldError) : bool :=
  String.prefix "No public subnet provided for zones " (Detail e).

(** [name] lies strictly below [domain] in the DNS tree: some labels, a dot,
    and [domain]. *)
Definition strict_subdomain (name domain : string) : Prop :=
  ∃ labels, labels ≠ "" ∧ name = labels +:+ "." +:+ domain.

(** The record set is reported among the problematic records. *)
Definition flagged (dottedClusterDomain : string)
    (recordSet : route53_ResourceRecordSet) : Prop :=
  recordSet_step dottedClusterDomain [] recordSet ≠ [].

(** The declared zones of the pool are all available: the pool declares
    none, or they are zones of private subnets when the platform declares
    subnets, zones of the region otherwise. *)
Definition zones_available (meta : Metadata) (platform : awstypes_Platform)
    (pool : awstypes_MachinePool) : Prop :=
  mp_Zones pool = []
  ∨ (pf_Subnets platform ≠ []
     ∧ ∃ priv, PrivateSubnets meta = Found priv
               ∧ ∀ z, z ∈ mp_Zones pool → z ∈ tier_zones priv)
  ∨ (pf_Subnets platform = []
     ∧ ∃ allzones, AvailabilityZones meta = Found allzones
                   ∧ ∀ z, z ∈ mp_Zones pool → z ∈ allzones).

(** The instance type of the pool, if it declares one, is in the catalog
    with at least the vCPUs and the memory that the role requires. *)
Definition type_fits (meta : Metadata) (pool : awstypes_MachinePool)
    (req : resourceRequirements) : Prop :=
  mp_InstanceType pool = ""
  ∨ ∃ catalog typeMeta,
      InstanceTypes meta = Found catalog
      ∧ catalog !! mp_InstanceType pool = Some typeMeta
      ∧ minimumVCpus req ≤ DefaultVCpus typeMeta
      ∧ minimumMemory req ≤ MemInMiB typeMeta.

Definition pool_fits (meta : Metadata) (platform : awstypes_Platform)
    (pool : awstypes_MachinePool) (req : resourceRequirements) : Prop :=
  zones_available meta platform pool ∧ type_fits meta pool req.

(** The machine pool has no platform settings, or they fit. *)
Definition machine_pool_fits (meta : Metadata) (platform : awstypes_Platform)
    (req : resourceRequirements) (pool : types_MachinePool) : Prop :=
  ∀ aws, pool_AWS pool = Some aws → pool_fits meta platform aws req.

(** The service-endpoint override passes the accessibility check. *)
Definition accessible `{GoLib} (net : Network)
    (service : awstypes_ServiceEndpoint) : Prop :=
  validateEndpointAccessibility net (se_URL service) = None.

(** The diagnostic of the override at position [p.1], if it fails the
    accessibility check *)
Definition url_diagnostic `{GoLib} (net : Network) (fldPath : Path)
    (p : nat * awstypes_ServiceEndpoint) : ErrorList :=
  match validateEndpointAccessibility net (se_URL p.2) with
  | Some err =>
      [Invalid (Child (PIndex fldPath p.1) ["url"]) (VString (se_URL p.2)) err]
  | None => []
  end.

(** Some source provides an image: the release stream for the region, the
    platform, its default machine pool, the pools themselves (every compute
    pool with replicas among them), or a copy within the standard
    partition. *)
Definition ami_resolvable `{GoLib} (controlPlane : types_MachinePool)
    (platform : awstypes_Platform) (compute : list types_MachinePool) : Prop :=
  AMIRegionsHas (pool_Architecture controlPlane) (pf_Region platform) = true
  ∨ pf_AMIID platform ≠ ""
  ∨ (∃ d, pf_DefaultMachinePlatform platform = Some d ∧ mp_AMIID d ≠ "")
  ∨ ((∃ aws, pool_AWS controlPlane = Some aws ∧ mp_AMIID aws ≠ "")
     ∧ Forall pool_has_AMI_or_no_replica compute)
  ∨ PartitionForRegion (pf_Region platform) = Some AwsPartitionID.

(** The declared subnets pass the topology validator: both lookups succeed
    with at least one private subnet, every CIDR parses to an address inside
    a machine network, the zones are pairwise distinct within each tier, and
    under the external strategy every private zone has a public subnet. *)
Definition subnets_fit `{GoLib} (meta : Metadata)
    (networking : types_Networking) (publish : string) : Prop :=
  ∃ priv pub,
    PrivateSubnets meta = Found priv ∧ PublicSubnets meta = Found pub
    ∧ (0 < size priv)%nat
    ∧ (∀ id s, priv !! id = Some s →
               cidr_inside (nw_MachineNetwork networking) s)
    ∧ (∀ id s, pub !! id = Some s →
               cidr_inside (nw_MachineNetwork networking) s)
    ∧ zones_distinct priv ∧ zones_distinct pub
    ∧ (publish = ExternalPublishingStrategy →
       tier_zones priv ⊆ tier_zones pub).

(** The zone's domain is the cluster domain or a parent of it. *)
Definition parent_domain (name dottedClusterDomain : string) : Prop :=
  name = dottedClusterDomain
  ∨ ∃ labels, dottedClusterDomain = labels +:+ "." +:+ name.

(** ** Example inputs *)

(** The path [platform.aws.subnets] under which [validatePlatform] files the
    diagnostics of the subnets *)
Definition subnets_path : Path := Child (NewPath ["platform"; "aws"]) ["subnets"].

(** The machine network 10.0.0.0/16 *)
Definition ex_networking : types_Networking :=
  mk_types_Networking _ [ipv4net 10 0 0 0 16].

Definition ex_meta (priv pub : gmap string Subnet) : Metadata :=
  mkMetadata (Found priv) (Found pub) (Found []) (Found ∅) (Found "vpc-1").

(** One private subnet, in zone a, and no public subnet *)
Definition one_private : gmap string Subnet :=
  {["subnet-a" := mkSubnet "a" "10.0.0.0/24"]}.

(** Two subnets of one tier in the same zone *)
Definition same_zone_pair : gmap string Subnet :=
  <["subnet-a" := mkSubnet "us-east-1a" "10.0.0.0/24"]>
    {["subnet-b" := mkSubnet "us-east-1a" "10.0.1.0/24"]}.

(** Two private subnets outside the machine network *)
Definition outside_pair : gmap string Subnet :=
  <["subnet-a" := mkSubnet "a" "192.168.0.0/24"]>
    {["subnet-b" := mkSubnet "b" "192.168.1.0/24"]}.

(** A private subnet whose CIDR does not parse *)
Definition unparsable_private : gmap string Subnet :=
  {["subnet-a" := mkSubnet "a" "10.0.0.0"]}.

(** Private subnets in the zones a, b and c; public ones in a and b *)
Definition private_abc : gmap string Subnet :=
  <["subnet-1" := mkSubnet "a" "10.0.0.0/24"]>
    (<["subnet-2" := mkSubnet "b" "10.0.1.0/24"]>
       {["subnet-3" := mkSubnet "c" "10.0.2.0/24"]}).
Definition public_ab : gmap string Subnet :=
  <["subnet-4" := mkSubnet "a" "10.0.3.0/24"]>
    {["subnet-5" := mkSubnet "b" "10.0.4.0/24"]}.

(** Private subnets in the zones a and b, inside the machine network *)
Definition private_ab : gmap string Subnet :=
  <["subnet-1" := mkSubnet "a" "10.0.0.0/24"]>
    {["subnet-2" := mkSubnet "b" "10.0.1.0/24"]}.

(** A subnet whose CIDR is written with a host address: the address
    10.1.0.5 in the network 10.0.0.0/8 *)
Definition host_cidr : gmap string Subnet :=
  {["subnet-a" := mkSubnet "a" "10.1.0.5/8"]}.

(** Two runs over [outside_pair] whose first [range] statement visits the
    two subnets in opposite orders *)
Definition run_ab : RangeOrders :=
  mkRangeOrders ["subnet-a"; "subnet-b"] [] ["subnet-a"; "subnet-b"] []
                ["subnet-a"; "subnet-b"] [].
Definition run_ba : RangeOrders :=
  mkRangeOrders ["subnet-b"; "subnet-a"] [] ["subnet-a"; "subnet-b"] []
                ["subnet-a"; "subnet-b"] [].

(** A DNS source whose zone example.com. holds the record sets [records]
    on one page, and that knows no hosted zone by id *)
Definition dns_with (records : list route53_ResourceRecordSet) : route53_Route53 :=
  mk_route53_Route53
    (λ _, Failed "NoSuchHostedZone")
    (λ _, ([mk_route53_Page records], None)).

Definition example_com : route53_HostedZone :=
  mk_route53_HostedZone (Some "Z3URY6TWQ91KVV") (Some "example.com.").

Definition record (name type : string) : route53_ResourceRecordSet :=
  mk_route53_ResourceRecordSet (Some name) (Some type).

(** The cluster cluster.example.com, published externally, with the hosted
    zone [hostedZone] named in its platform settings *)
Definition cluster_config (hostedZone : string) : types_InstallConfig :=
  mk_types_InstallConfig _ "example.com" "cluster.example.com" ex_networking
    None [] (Some (mk_awstypes_Platform "" "us-east-1" [] hostedZone [] None))
    ExternalPublishingStrategy.

Definition ex_session (records : list route53_ResourceRecordSet) : Session :=
  mkSession (dns_with records) (λ _, Found example_com).

(** A catalog with one small instance type, below both minimums of a
    control-plane pool *)
Definition small_catalog : gmap string InstanceType :=
  {["t3.nano" := mkInstanceType 2 512]}.

Definition pool_path : Path := NewPath ["controlPlane"; "platform"; "aws"].

Definition plain_platform : awstypes_Platform :=
  mk_awstypes_Platform "" "us-east-1" [] "" [] None.

(** An inventory whose list of availability zones is [zones] *)
Definition catalog_meta (zones : lookup (list string)) : Metadata :=
  mkMetadata (Found ∅) (Found ∅) zones (Found small_catalog) (Found "vpc-1").

(** A configuration in a region of the China partition, for which the
    release stream has no image: no image at the platform level, one for
    the control plane, one for the first compute pool, and a second compute
    pool with [replicas] replicas and no image. *)
Definition china_config (replicas : Z) : types_InstallConfig :=
  mk_types_InstallConfig _ "example.cn" "cluster.example.cn" ex_networking
    (Some (mk_types_MachinePool (Some 3) "amd64"
             (Some (mk_awstypes_MachinePool [] "" "ami-0a1b2c3d"))))
    [mk_types_MachinePool (Some 3) "amd64"
       (Some (mk_awstypes_MachinePool [] "" "ami-0a1b2c3d"));
     mk_types_MachinePool (Some replicas) "amd64" None]
    (Some (mk_awstypes_Platform "" "cn-north-1" [] "" [] None))
    ExternalPublishingStrategy.

(** A network on which every dial succeeds *)
Definition quiet_network : Network :=
  mkNetwork (λ _, None) (λ _, Found "https://ec2.us-east-1.amazonaws.com").

(** A configuration in us-east-1 that declares the two subnets of
    [outside_pair], under the internal publishing strategy *)
Definition two_subnet_config : types_InstallConfig :=
  mk_types_InstallConfig _ "example.com" "cluster.example.com" ex_networking
    (Some (mk_types_MachinePool (Some 3) "amd64" None)) []
    (Some (mk_awstypes_Platform "" "us-east-1" ["subnet-a"; "subnet-b"] "" []
             None))
    InternalPublishingStrategy.

(** The schedules of two runs that differ in the first [range] statement of
    [validateSubnets] alone *)
Definition schedule_ab : Schedule :=
  mkSchedule run_ab (λ _, ["subnet-a"; "subnet-b"]).
Definition schedule_ba : Schedule :=
  mkSchedule run_ba (λ _, ["subnet-a"; "subnet-b"]).

(** A run over [outside_pair] that agrees with [run_ab] on the visits of
    [validateSubnetCIDR] and takes the other order in the key collection of
    [validateDuplicateSubnetZones] and in the zone loop of [validateSubnets] *)
Definition run_ab_ba : RangeOrders :=
  mkRangeOrders ["subnet-a"; "subnet-b"] [] ["subnet-b"; "subnet-a"] []
                ["subnet-b"; "subnet-a"] [].

(** A schedule that agrees with [schedule_ab] on the visits of
    [validateSubnetCIDR] and differs from it in every other visit, those of
    [validateMachinePool] among them *)
Definition schedule_pool_ba : Schedule :=
  mkSchedule run_ab_ba (λ _, ["subnet-b"; "subnet-a"]).

(** A configuration in us-east-1 that declares the two subnets of
    [outside_pair] and whose control plane and compute pool name zones, so
    that [validateMachinePool] walks the private subnets for each of them:
    the zones a and b have a private subnet, c and d have none. *)
Definition zoned_pools_config : types_InstallConfig :=
  mk_types_InstallConfig _ "example.com" "cluster.example.com" ex_networking
    (Some (mk_types_MachinePool (Some 3) "amd64"
             (Some (mk_awstypes_MachinePool ["a"; "c"] "" ""))))
    [mk_types_MachinePool (Some 3) "amd64"
       (Some (mk_awstypes_MachinePool ["b"; "d"] "" ""))]
    (Some (mk_awstypes_Platform "" "us-east-1" ["subnet-a"; "subnet-b"] "" []
             None))
    InternalPublishingStrategy.

(** A network on which no dial succeeds *)
Definition deaf_network : Network :=
  mkNetwork (λ _, Some "dial tcp: i/o timeout") (λ _, Failed "no session").

(** An override of the EC2 endpoint *)
Definition ec2_override : awstypes_ServiceEndpoint :=
  mk_awstypes_ServiceEndpoint "ec2" "https://ec2.example.com".

(** The path [platform.aws.serviceEndpoints] *)
Definition endpoints_path : Path :=
  Child (NewPath ["platform"; "aws"]) ["serviceEndpoints"].

(** A platform in us-east-1 with one declared subnet and the override *)
Definition override_platform : awstypes_Platform :=
  mk_awstypes_Platform "" "us-east-1" ["subnet-a"] "" [ec2_override] None.

(** The zone example.org., no parent of cluster.example.com. *)
Definition example_org : route53_HostedZone :=
  mk_route53_HostedZone (Some "Z2FDTNDATAQYW2") (Some "example.org.").

(** A DNS source that delivers one page of [records] and then fails *)
Definition failing_dns (records : list route53_ResourceRecordSet)
    : route53_Route53 :=
  mk_route53_Route53
    (λ _, Failed "NoSuchHostedZone")
    (λ _, ([mk_route53_Page records], Some "Throttling: Rate exceeded")).

(** A control-plane pool in zone us-east-1a, of a type of the catalog that
    is too small *)
Definition small_pool : awstypes_MachinePool :=
  mk_awstypes_MachinePool ["us-east-1a"] "t3.nano" "".

(** A tier of three subnets, two of which share a zone *)
Definition zone_sharing_tier : gmap string Subnet :=
  <["subnet-a" := mkSubnet "us-east-1a" "10.0.0.0/24"]>
    (<["subnet-b" := mkSubnet "us-east-1a" "10.0.1.0/24"]>
       {["subnet-c" := mkSubnet "us-east-1b" "10.0.2.0/24"]}).

(** * Properties *)

(** ** The IPv4 fragment at work *)

Example ParseCIDR_canonical :
  ParseCIDR "10.0.1.0/24" = Some (ipv4 10 0 1 0, ipv4net 10 0 1 0 24).
Proof. vm_compute. reflexivity. Qed.
Example ParseCIDR_host :
  ParseCIDR "10.1.0.5/8" = Some (ipv4 10 1 0 5, ipv4net 10 0 0 0 8)
  ∧ IPString (ipv4 10 1 0 5) = "10.1.0.5".
Proof. vm_compute. done. Qed.
Example ParseCIDR_bad :
  ParseCIDR "10.0.1.0" = None ∧ ParseCIDR "10.0.1.0/33" = None
  ∧ ParseCIDR "10.0.01.0/24" = None ∧ ParseCIDR "10.0.1/24" = None
  ∧ ParseCIDR "10.0.1.256/24" = None ∧ ParseCIDR "10.0.1.0/2x" = None
  ∧ ParseCIDR "" = None.
Proof. vm_compute. done. Qed.
Example Contains_ex :
  Contains (ipv4net 10 0 0 0 16) (ipv4 10 0 1 0) = true
  ∧ Contains (ipv4net 10 0 0 0 16) (ipv4 10 1 0 5) = false.
Proof. vm_compute. done. Qed.

(** ** Ranging over a map *)

Lemma ranges_NoDup {A} (m : gmap string A) ks : ranges m ks → NoDup ks.
Proof.
  unfold ranges. intros ->. apply NoDup_fst_map_to_list.
Qed.

Lemma ranges_elem_of {A} (m : gmap string A) ks id :
  ranges m ks → id ∈ ks ↔ is_Some (m !! id).
Proof.
  unfold ranges. intros ->. rewrite list_elem_of_fmap. split.
  - intros [[k v] [-> Hkv]]. apply elem_of_map_to_list in Hkv. by exists v.
  - intros [v Hv]. exists (id, v). split; [done|]. by apply elem_of_map_to_list.
Qed.

Lemma ranges_keys_of {A} (m : gmap string A) : ranges m (keys_of m).
Proof. unfold ranges, keys_of. reflexivity. Qed.

Lemma ranges_Permutation {A} (m : gmap string A) ks ks' :
  ranges m ks → ranges m ks' → ks ≡ₚ ks'.
Proof. unfold ranges. by intros -> ->. Qed.

Lemma ranges_ok_default priv pub : ranges_ok (default_orders priv pub) priv pub.
Proof. repeat split; apply ranges_keys_of. Qed.

Lemma lookup_total_Some (m : gmap string Subnet) id s :
  m !! id = Some s → m !!! id = s.
Proof. intros Hs. by rewrite lookup_total_alt, Hs. Qed.

Lemma foldl_snoc_keys (l acc : list string) :
  foldl (λ keys id, keys ++ [id]) acc l = acc ++ l.
Proof.
  revert acc. induction l as [|x l IH]; intros acc; simpl.
  - by rewrite app_nil_r.
  - by rewrite IH, <-app_assoc.
Qed.

(** [sort.Strings] yields the one sorted arrangement of its input. *)
Lemma sort_Strings_Permutation l l' :
  l ≡ₚ l' → sort_Strings l = sort_Strings l'.
Proof.
  intros Hp. unfold sort_Strings.
  apply (Sorted_unique String.le); try apply Sorted_merge_sort; try apply _.
  by rewrite !merge_sort_Permutation.
Qed.

Lemma sort_Strings_sorted l l' :
  Sorted String.le l' → l ≡ₚ l' → sort_Strings l = l'.
Proof.
  intros Hs Hp. unfold sort_Strings.
  apply (Sorted_unique String.le); try apply Sorted_merge_sort; try apply _.
  - done.
  - by rewrite merge_sort_Permutation.
Qed.

Lemma sort_Strings_singleton x : sort_Strings [x] = [x].
Proof. apply sort_Strings_sorted; [|done]. repeat constructor. Qed.

(** ** The CIDR check *)

Section cidr_facts.
Context `{GoLib}.
Implicit Types (subnets : gmap string Subnet) (idxMap : gmap string nat).
Implicit Types (networks : list IPNet) (fldPath : Path).

Lemma validateMachineNetworksContainIP_existsb fldPath networks id ip :
  validateMachineNetworksContainIP fldPath networks id ip =
  if existsb (λ network, Contains network ip) networks then []
  else [Invalid fldPath (VString id)
          ("subnet's CIDR range start " +:+ IPString ip +:+
           " is outside of the specified machine networks")].
Proof.
  induction networks as [|n networks IH]; simpl; [done|].
  destruct (Contains n ip); simpl; [done|]. apply IH.
Qed.

Lemma validateMachineNetworksContainIP_nil fldPath networks id ip :
  validateMachineNetworksContainIP fldPath networks id ip = [] ↔
  ∃ network, network ∈ networks ∧ Contains network ip = true.
Proof.
  rewrite validateMachineNetworksContainIP_existsb.
  destruct (existsb _ networks) eqn:Hex.
  - split; [|done]. intros _. apply existsb_exists in Hex as [n [Hin Hn]].
    exists n. split; [|done]. by apply list_elem_of_In.
  - split; [done|]. intros [n [Hin Hn]].
    assert (existsb (λ network, Contains network ip) networks = true) as Ht.
    { apply existsb_exists. exists n. split; [|done]. by apply list_elem_of_In. }
    congruence.
Qed.

Lemma validateSubnetCIDR_step_app fldPath subnets idxMap networks acc id :
  validateSubnetCIDR_step fldPath subnets idxMap networks acc id =
  acc ++ validateSubnetCIDR_step fldPath subnets idxMap networks [] id.
Proof.
  unfold validateSubnetCIDR_step.
  destruct (ParseCIDR _) as [[ip n]|]; done.
Qed.

(** The loop reports subnet by subnet, in the order of the visit. *)
Lemma validateSubnetCIDR_bind fldPath order subnets idxMap networks :
  validateSubnetCIDR fldPath order subnets idxMap networks =
  order ≫= validateSubnetCIDR_step fldPath subnets idxMap networks [].
Proof.
  unfold validateSubnetCIDR.
  enough (∀ acc,
    foldl (validateSubnetCIDR_step fldPath subnets idxMap networks) acc order
    = acc ++ (order ≫=
                validateSubnetCIDR_step fldPath subnets idxMap networks []))
    as Hgen by apply (Hgen []).
  induction order as [|id order IH]; intros acc; simpl.
  - by rewrite app_nil_r.
  - rewrite IH, validateSubnetCIDR_step_app, <-app_assoc. done.
Qed.

(** Two visits of the same map report the same diagnostics, up to order. *)
Lemma validateSubnetCIDR_Permutation fldPath order order' subnets idxMap networks :
  order ≡ₚ order' →
  validateSubnetCIDR fldPath order subnets idxMap networks ≡ₚ
  validateSubnetCIDR fldPath order' subnets idxMap networks.
Proof. intros Hp. rewrite !validateSubnetCIDR_bind. by rewrite Hp. Qed.

(** What the loop reports for one subnet: nothing exactly when the address
    read from its CIDR lies inside a machine network. *)
Lemma validateSubnetCIDR_step_nil fldPath subnets idxMap networks id :
  validateSubnetCIDR_step fldPath subnets idxMap networks [] id = [] ↔
  cidr_inside networks (subnets !!! id).
Proof.
  unfold validateSubnetCIDR_step, cidr_inside.
  destruct (ParseCIDR _) as [[ip n]|] eqn:Hp; simpl.
  - rewrite validateMachineNetworksContainIP_nil. split.
    + intros Hin. by exists ip, n.
    + intros (ip' & n' & [= <- <-] & Hin). done.
  - split; [done|]. by intros (? & ? & ? & ?).
Qed.

Lemma validateSubnetCIDR_step_value fldPath subnets idxMap networks id e :
  e ∈ validateSubnetCIDR_step fldPath subnets idxMap networks [] id →
  BadValue e = VString id ∧ Field e = PIndex fldPath (idxMap !!! id) ∧
  (Detail e = ParseError_Error (CIDR (subnets !!! id)) ∨
   ∃ ip, Detail e = "subnet's CIDR range start " +:+ IPString ip +:+
                    " is outside of the specified machine networks").
Proof.
  unfold validateSubnetCIDR_step.
  destruct (ParseCIDR _) as [[ip n]|]; simpl.
  - rewrite validateMachineNetworksContainIP_existsb.
    destruct (existsb _ _); [by intros ?%elem_of_nil|].
    intros ->%list_elem_of_singleton. simpl. eauto.
  - intros ->%list_elem_of_singleton. simpl. eauto.
Qed.

Lemma validateSubnetCIDR_nil fldPath order subnets idxMap networks :
  (∀ id, id ∈ order → cidr_inside networks (subnets !!! id)) →
  validateSubnetCIDR fldPath order subnets idxMap networks = [].
Proof.
  intros Hall. rewrite validateSubnetCIDR_bind.
  induction order as [|id order IH]; [done|].
  rewrite bind_cons.
  rewrite (proj2 (validateSubnetCIDR_step_nil _ _ _ _ _)).
  - apply IH. intros ??. apply Hall. by right.
  - apply Hall. by left.
Qed.

End cidr_facts.

(** ** The duplicate-zone check *)

Section duplicate_facts.
Context `{GoLib}.
Implicit Types (subnets : gmap string Subnet) (idxMap : gmap string nat).
Implicit Types (fldPath : Path) (zones : gmap string string).

Lemma validateDuplicateSubnetZones_step_Some fldPath subnets idxMap typ errs zones id conflicting :
  zones !! Zone (subnets !!! id) = Some conflicting →
  validateDuplicateSubnetZones_step fldPath subnets idxMap typ (errs, zones) id
  = (errs ++ [Invalid (PIndex fldPath (idxMap !!! id)) (VString id)
                (typ +:+ " subnet " +:+ conflicting +:+ " is also in zone "
                 +:+ Zone (subnets !!! id))], zones).
Proof. intros Hz. unfold validateDuplicateSubnetZones_step. simpl. by rewrite Hz. Qed.

Lemma validateDuplicateSubnetZones_step_None fldPath subnets idxMap typ errs zones id :
  zones !! Zone (subnets !!! id) = None →
  validateDuplicateSubnetZones_step fldPath subnets idxMap typ (errs, zones) id
  = (errs, <[Zone (subnets !!! id) := id]> zones).
Proof. intros Hz. unfold validateDuplicateSubnetZones_step. simpl. by rewrite Hz. Qed.

(** The second loop never drops a diagnostic already collected. *)
Lemma validateDuplicateSubnetZones_fold_app fldPath subnets idxMap typ keys errs zones :
  ∃ more,
    (foldl (validateDuplicateSubnetZones_step fldPath subnets idxMap typ)
           (errs, zones) keys).1 = errs ++ more
    ∧ ∀ e, e ∈ more →
        ∃ id conflicting,
          id ∈ keys
          ∧ e = Invalid (PIndex fldPath (idxMap !!! id)) (VString id)
                  (typ +:+ " subnet " +:+ conflicting +:+ " is also in zone "
                   +:+ Zone (subnets !!! id)).
Proof.
  revert errs zones. induction keys as [|id keys IH]; intros errs zones.
  - exists []. split; [by rewrite app_nil_r|]. by intros ? ?%elem_of_nil.
  - cbn [foldl].
    destruct (zones !! Zone (subnets !!! id)) as [conflicting|] eqn:Hz.
    + rewrite (validateDuplicateSubnetZones_step_Some _ _ _ _ _ _ _ _ Hz).
      destruct (IH (errs ++ [Invalid (PIndex fldPath (idxMap !!! id))
                       (VString id)
                       (typ +:+ " subnet " +:+ conflicting +:+
                        " is also in zone " +:+ Zone (subnets !!! id))]) zones)
        as (more & Hfold & Hmore).
      eexists (_ :: more). split.
      { etrans; [exact Hfold|]. by rewrite <-app_assoc. }
      intros e [->|He]%elem_of_cons.
      * exists id, conflicting. split; [by left|done].
      * destruct (Hmore e He) as (id' & c' & ? & ?).
        exists id', c'. split; [by right|done].
    + rewrite (validateDuplicateSubnetZones_step_None _ _ _ _ _ _ _ Hz).
      destruct (IH errs (<[Zone (subnets !!! id) := id]> zones))
        as (more & Hfold & Hmore).
      exists more. split; [done|].
      intros e He. destruct (Hmore e He) as (id' & c' & ? & ?).
      exists id', c'. split; [by right|done].
Qed.

(** Every diagnostic of the check names a subnet of the map it walks. *)
Lemma validateDuplicateSubnetZones_elem fldPath order subnets idxMap typ e :
  e ∈ validateDuplicateSubnetZones fldPath order subnets idxMap typ →
  ∃ id conflicting,
    id ∈ order
    ∧ e = Invalid (PIndex fldPath (idxMap !!! id)) (VString id)
            (typ +:+ " subnet " +:+ conflicting +:+ " is also in zone "
             +:+ Zone (subnets !!! id)).
Proof.
  unfold validateDuplicateSubnetZones. rewrite foldl_snoc_keys. simpl.
  destruct (validateDuplicateSubnetZones_fold_app fldPath subnets idxMap typ
              (sort_Strings order) [] ∅) as (more & Hfold & Hmore).
  intros He. assert (e ∈ [] ++ more) as He' by (rewrite <-Hfold; exact He).
  destruct (Hmore e He') as (id & c & Hid & ->).
  exists id, c. split; [|done].
  unfold sort_Strings in Hid. by rewrite merge_sort_Permutation in Hid.
Qed.

(** The sort makes the check blind to the order of the visit. *)
Lemma validateDuplicateSubnetZones_order fldPath order order' subnets idxMap typ :
  order ≡ₚ order' →
  validateDuplicateSubnetZones fldPath order subnets idxMap typ =
  validateDuplicateSubnetZones fldPath order' subnets idxMap typ.
Proof.
  intros Hp. unfold validateDuplicateSubnetZones.
  rewrite !foldl_snoc_keys. simpl. by rewrite (sort_Strings_Permutation _ _ Hp).
Qed.

(** No zone is claimed twice: the second loop collects nothing. *)
Lemma validateDuplicateSubnetZones_fold_distinct fldPath subnets idxMap typ keys errs zones :
  NoDup keys →
  (∀ i j, i ∈ keys → j ∈ keys →
          Zone (subnets !!! i) = Zone (subnets !!! j) → i = j) →
  (∀ id, id ∈ keys → zones !! Zone (subnets !!! id) = None) →
  (foldl (validateDuplicateSubnetZones_step fldPath subnets idxMap typ)
         (errs, zones) keys).1 = errs.
Proof.
  revert zones. induction keys as [|id keys IH]; intros zones Hnd Hinj Hfree;
    simpl; [done|].
  rewrite validateDuplicateSubnetZones_step_None by (apply Hfree; by left).
  apply NoDup_cons in Hnd as [Hnotin Hnd].
  apply IH; [done| |].
  - intros i j Hi Hj. apply Hinj; by right.
  - intros j Hj. rewrite lookup_insert_ne.
    + apply Hfree. by right.
    + intros Heq. assert (id = j) as -> by (apply Hinj; [by left|by right|done]).
      done.
Qed.

Lemma validateDuplicateSubnetZones_nil fldPath order subnets idxMap typ :
  ranges subnets order → zones_distinct subnets →
  validateDuplicateSubnetZones fldPath order subnets idxMap typ = [].
Proof.
  intros Hr Hd. unfold validateDuplicateSubnetZones.
  rewrite foldl_snoc_keys. simpl.
  assert (sort_Strings order ≡ₚ order) as Hp
    by (unfold sort_Strings; apply merge_sort_Permutation).
  apply validateDuplicateSubnetZones_fold_distinct.
  - rewrite Hp. by eapply ranges_NoDup.
  - intros i j Hi Hj Hz. rewrite Hp in Hi, Hj.
    apply (ranges_elem_of _ _ _ Hr) in Hi as [si Hsi].
    apply (ranges_elem_of _ _ _ Hr) in Hj as [sj Hsj].
    rewrite (lookup_total_Some _ _ _ Hsi), (lookup_total_Some _ _ _ Hsj) in Hz.
    by eapply Hd.
  - intros. apply lookup_empty.
Qed.

End duplicate_facts.

(** ** The zones of a tier *)

Lemma elem_of_tier_zones (m : gmap string Subnet) z :
  z ∈ tier_zones m ↔ ∃ id s, m !! id = Some s ∧ Zone s = z.
Proof.
  unfold tier_zones. rewrite elem_of_list_to_set, list_elem_of_fmap. split.
  - intros [[id s] [-> Hin]]. apply elem_of_map_to_list in Hin. by exists id, s.
  - intros (id & s & Hs & <-). exists (id, s). split; [done|].
    by apply elem_of_map_to_list.
Qed.

Lemma elem_of_zonesOf order (subnets : gmap string Subnet) z :
  z ∈ zonesOf order subnets ↔ ∃ id, id ∈ order ∧ Zone (subnets !!! id) = z.
Proof.
  unfold zonesOf.
  enough (∀ acc : gset string,
    z ∈ foldl (λ (zs : gset string) id, {[Zone (subnets !!! id)]} ∪ zs) acc order
    ↔ z ∈ acc ∨ ∃ id, id ∈ order ∧ Zone (subnets !!! id) = z) as Hgen.
  { rewrite Hgen. split; [|by right].
    intros [?%not_elem_of_empty|?]; done. }
  induction order as [|id order IH]; intros acc; simpl.
  - split; [by left|]. intros [?|(? & ?%elem_of_nil & _)]; done.
  - rewrite IH, elem_of_union, elem_of_singleton. split.
    + intros [[->|?]|(id' & ? & ?)].
      * right. exists id. split; [by left|done].
      * by left.
      * right. exists id'. split; [by right|done].
    + intros [?|(id' & [->|?]%elem_of_cons & ?)].
      * left. by right.
      * left. by left.
      * right. by exists id'.
Qed.

(** The set of zones does not depend on the order of the visit. *)
Lemma zonesOf_ranges order (subnets : gmap string Subnet) :
  ranges subnets order → zonesOf order subnets = tier_zones subnets.
Proof.
  intros Hr. apply set_eq. intros z.
  rewrite elem_of_zonesOf, elem_of_tier_zones. split.
  - intros (id & Hid & <-). apply (ranges_elem_of _ _ _ Hr) in Hid as [s Hs].
    exists id, s. split; [done|]. by rewrite (lookup_total_Some _ _ _ Hs).
  - intros (id & s & Hs & <-). exists id. split.
    + apply (ranges_elem_of _ _ _ Hr). by exists s.
    + by rewrite (lookup_total_Some _ _ _ Hs).
Qed.

(** ** The topology validator *)

Section subnets_facts.
Context `{GoLib}.
Implicit Types (priv pub : gmap string Subnet) (fldPath : Path).

(** The diagnostics of a run in which both lookups succeed *)
Lemma validateSubnets_Found ro meta fldPath subnets networking publish priv pub :
  PrivateSubnets meta = Found priv → PublicSubnets meta = Found pub →
  validateSubnets ro meta fldPath subnets networking publish =
  (if decide (size priv = 0%nat)
   then [Invalid fldPath (VStrings subnets) "No private subnets found"]
   else []) ++
  validateSubnetCIDR fldPath (cidr_private ro) priv (subnetsIdx subnets priv)
                     (nw_MachineNetwork networking) ++
  validateSubnetCIDR fldPath (cidr_public ro) pub (subnetsIdx subnets pub)
                     (nw_MachineNetwork networking) ++
  validateDuplicateSubnetZones fldPath (dup_private ro) priv
                               (subnetsIdx subnets priv) "private" ++
  validateDuplicateSubnetZones fldPath (dup_public ro) pub
                               (subnetsIdx subnets pub) "public" ++
  (if bool_decide (publish = ExternalPublishingStrategy)
      && negb (bool_decide (zonesOf (zones_private ro) priv
                            ⊆ zonesOf (zones_public ro) pub))
   then [Invalid fldPath (VStrings subnets)
           ("No public subnet provided for zones " +:+
            fmt_slice (set_List (zonesOf (zones_private ro) priv
                                 ∖ zonesOf (zones_public ro) pub)))]
   else []).
Proof.
  intros Hpriv Hpub. unfold validateSubnets. rewrite Hpriv, Hpub. simpl.
  destruct (decide (size priv = 0%nat));
    destruct (bool_decide (publish = ExternalPublishingStrategy)
              && negb (bool_decide (zonesOf (zones_private ro) priv
                                    ⊆ zonesOf (zones_public ro) pub)));
    simpl; rewrite <-?app_assoc, ?app_nil_r; done.
Qed.

(** The written address of a CIDR whose block lies inside a machine network
    lies inside that network. *)
Lemma cidr_range_inside_written networks s :
  ParseCIDR_in_network →
  cidr_range_inside networks s → cidr_inside networks s.
Proof.
  intros Hlaw (ip & n & Hp & network & Hin & Hsub).
  exists ip, n. split; [done|]. exists network. split; [done|].
  apply Hsub. by eapply Hlaw.
Qed.

(** C1, with the coverage check. When both lookups succeed and return at
    least one private subnet, every private and public subnet has a parsable
    CIDR lying inside a machine network (every address of its block is an
    address of that network), the zones are pairwise distinct within each
    tier and, if the publishing strategy is external, every zone of a private
    subnet is the zone of a public one, then [validateSubnets] returns no
    diagnostic. The address that [net.ParseCIDR] returns belongs to the
    network that it returns: the law [ParseCIDR_in_network] of the
    library. *)
Theorem validateSubnets_valid ro meta fldPath subnets networking publish priv pub :
  ParseCIDR_in_network →
  PrivateSubnets meta = Found priv → PublicSubnets meta = Found pub →
  ranges_ok ro priv pub →
  (0 < size priv)%nat →
  (∀ id s, priv !! id = Some s →
           cidr_range_inside (nw_MachineNetwork networking) s) →
  (∀ id s, pub !! id = Some s →
           cidr_range_inside (nw_MachineNetwork networking) s) →
  zones_distinct priv → zones_distinct pub →
  (publish = ExternalPublishingStrategy → tier_zones priv ⊆ tier_zones pub) →
  validateSubnets ro meta fldPath subnets networking publish = [].
Proof.
  intros Hlaw Hpriv Hpub (R1 & R2 & R3 & R4 & R5 & R6) Hsize Hcp Hcq Hdp Hdq
    Hcov.
  rewrite (validateSubnets_Found _ _ _ _ _ _ _ _ Hpriv Hpub).
  rewrite decide_False by lia.
  rewrite !validateSubnetCIDR_nil, !validateDuplicateSubnetZones_nil; try done.
  - rewrite (zonesOf_ranges _ _ R5), (zonesOf_ranges _ _ R6). simpl.
    destruct (bool_decide_reflect (publish = ExternalPublishingStrategy)) as [He|];
      [|done].
    simpl. by rewrite (bool_decide_eq_true_2 _ (Hcov He)).
  - intros id Hid. apply (ranges_elem_of _ _ _ R2) in Hid as [s Hs].
    rewrite (lookup_total_Some _ _ _ Hs).
    apply (cidr_range_inside_written _ _ Hlaw). by eapply Hcq.
  - intros id Hid. apply (ranges_elem_of _ _ _ R1) in Hid as [s Hs].
    rewrite (lookup_total_Some _ _ _ Hs).
    apply (cidr_range_inside_written _ _ Hlaw). by eapply Hcp.
Qed.

(** The value that each diagnostic carries: the whole declared list, or the
    id of a subnet of the live private or public set. *)
Lemma validateSubnets_values ro meta fldPath subnets networking publish priv pub e :
  PrivateSubnets meta = Found priv → PublicSubnets meta = Found pub →
  ranges_ok ro priv pub →
  e ∈ validateSubnets ro meta fldPath subnets networking publish →
  BadValue e = VStrings subnets
  ∨ ∃ id, BadValue e = VString id ∧ (is_Some (priv !! id) ∨ is_Some (pub !! id)).
Proof.
  intros Hpriv Hpub (R1 & R2 & R3 & R4 & R5 & R6).
  rewrite (validateSubnets_Found _ _ _ _ _ _ _ _ Hpriv Hpub).
  rewrite !elem_of_app. intros [He|[He|[He|[He|[He|He]]]]].
  - destruct (decide _); [|by apply elem_of_nil in He].
    apply list_elem_of_singleton in He as ->. by left.
  - rewrite validateSubnetCIDR_bind in He.
    apply list_elem_of_bind in He as (id & He & Hid).
    apply validateSubnetCIDR_step_value in He as (Hv & _).
    right. exists id. split; [done|]. left. by apply (ranges_elem_of _ _ _ R1).
  - rewrite validateSubnetCIDR_bind in He.
    apply list_elem_of_bind in He as (id & He & Hid).
    apply validateSubnetCIDR_step_value in He as (Hv & _).
    right. exists id. split; [done|]. right. by apply (ranges_elem_of _ _ _ R2).
  - apply validateDuplicateSubnetZones_elem in He as (id & c & Hid & ->).
    right. exists id. split; [done|]. left. by apply (ranges_elem_of _ _ _ R3).
  - apply validateDuplicateSubnetZones_elem in He as (id & c & Hid & ->).
    right. exists id. split; [done|]. right. by apply (ranges_elem_of _ _ _ R4).
  - destruct (_ && _); [|by apply elem_of_nil in He].
    apply list_elem_of_singleton in He as ->. by left.
Qed.

(** C2, as the code has it. A declared subnet id that is in neither the
    live private set nor the live public set gets no diagnostic of its own.
    No diagnostic of [validateSubnets] carries that id as its value, and
    every diagnostic is of one of two kinds: a diagnostic about the list as
    a whole (no private subnet found, or zones without a public subnet),
    filed under the subnets field itself with the whole declared list as
    value and a detail that the live sets alone determine; or a diagnostic
    about a live subnet, another id, filed under an index of the list with
    the id of that live subnet as value. *)
Theorem validateSubnets_unknown_id_unreported
    ro meta fldPath subnets networking publish priv pub id e :
  PrivateSubnets meta = Found priv → PublicSubnets meta = Found pub →
  ranges_ok ro priv pub →
  id ∈ subnets → priv !! id = None → pub !! id = None →
  e ∈ validateSubnets ro meta fldPath subnets networking publish →
  BadValue e ≠ VString id
  ∧ ((Field e = fldPath ∧ BadValue e = VStrings subnets
      ∧ (Detail e = "No private subnets found"
         ∨ Detail e = "No public subnet provided for zones " +:+
                      fmt_slice (set_List (tier_zones priv ∖ tier_zones pub))))
     ∨ (∃ id' i,
          id' ≠ id ∧ (is_Some (priv !! id') ∨ is_Some (pub !! id'))
          ∧ Field e = PIndex fldPath i ∧ BadValue e = VString id')).
Proof.
  intros Hpriv Hpub (R1 & R2 & R3 & R4 & R5 & R6) _ Hnp Hnq He.
  assert (∀ id', is_Some (priv !! id') ∨ is_Some (pub !! id') → id' ≠ id)
    as Hlive.
  { intros id' [Hs|Hs] ->; [rewrite Hnp in Hs|rewrite Hnq in Hs];
      by destruct Hs. }
  enough ((Field e = fldPath ∧ BadValue e = VStrings subnets
           ∧ (Detail e = "No private subnets found"
              ∨ Detail e = "No public subnet provided for zones " +:+
                  fmt_slice (set_List (tier_zones priv ∖ tier_zones pub))))
          ∨ (∃ id' i,
               id' ≠ id ∧ (is_Some (priv !! id') ∨ is_Some (pub !! id'))
               ∧ Field e = PIndex fldPath i ∧ BadValue e = VString id'))
    as Hkind.
  { split; [|exact Hkind].
    destruct Hkind as [(_ & Hv & _)|(id' & i & Hne & _ & _ & Hv)];
      rewrite Hv; congruence. }
  rewrite (validateSubnets_Found _ _ _ _ _ _ _ _ Hpriv Hpub) in He.
  rewrite (zonesOf_ranges _ _ R5), (zonesOf_ranges _ _ R6) in He.
  rewrite !elem_of_app in He. destruct He as [He|[He|[He|[He|[He|He]]]]].
  - destruct (decide _); [|by apply elem_of_nil in He].
    apply list_elem_of_singleton in He as ->. left. split_and!; [done|done|].
    by left.
  - rewrite validateSubnetCIDR_bind in He.
    apply list_elem_of_bind in He as (id' & He & Hid).
    apply validateSubnetCIDR_step_value in He as (Hv & Hf & _).
    apply (ranges_elem_of _ _ _ R1) in Hid.
    right. exists id', (subnetsIdx subnets priv !!! id').
    split_and!; [apply Hlive; by left|by left|done|done].
  - rewrite validateSubnetCIDR_bind in He.
    apply list_elem_of_bind in He as (id' & He & Hid).
    apply validateSubnetCIDR_step_value in He as (Hv & Hf & _).
    apply (ranges_elem_of _ _ _ R2) in Hid.
    right. exists id', (subnetsIdx subnets pub !!! id').
    split_and!; [apply Hlive; by right|by right|done|done].
  - apply validateDuplicateSubnetZones_elem in He as (id' & c & Hid & ->).
    apply (ranges_elem_of _ _ _ R3) in Hid.
    right. exists id', (subnetsIdx subnets priv !!! id').
    split_and!; [apply Hlive; by left|by left|done|done].
  - apply validateDuplicateSubnetZones_elem in He as (id' & c & Hid & ->).
    apply (ranges_elem_of _ _ _ R4) in Hid.
    right. exists id', (subnetsIdx subnets pub !!! id').
    split_and!; [apply Hlive; by right|by right|done|done].
  - destruct (_ && _); [|by apply elem_of_nil in He].
    apply list_elem_of_singleton in He as ->. left. split_and!; [done|done|].
    by right.
Qed.

End subnets_facts.

(** ** Concrete maps *)

Lemma ranges_singleton {A} (id : string) (x : A) :
  ranges ({[id := x]} : gmap string A) [id].
Proof. unfold ranges. by rewrite map_to_list_singleton. Qed.

Lemma ranges_empty {A} : ranges (∅ : gmap string A) [].
Proof. unfold ranges. by rewrite map_to_list_empty. Qed.

Lemma ranges_insert {A} (m : gmap string A) id x ks :
  m !! id = None → ranges m ks → ranges (<[id := x]> m) (id :: ks).
Proof.
  unfold ranges. intros Hn Hr. rewrite map_to_list_insert by done.
  simpl. by rewrite Hr.
Qed.

Lemma ranges_perm {A} (m : gmap string A) ks ks' :
  ranges m ks → ks' ≡ₚ ks → ranges m ks'.
Proof. unfold ranges. intros Hr Hp. by rewrite Hp. Qed.

Lemma ranges_outside_pair_ab : ranges outside_pair ["subnet-a"; "subnet-b"].
Proof. apply ranges_insert; [done|apply ranges_singleton]. Qed.

Lemma ranges_outside_pair_ba : ranges outside_pair ["subnet-b"; "subnet-a"].
Proof. eapply ranges_perm; [apply ranges_outside_pair_ab|apply Permutation_swap]. Qed.

(** Checking a property of every subnet of a concrete map by a test on the
    list of its entries *)
Lemma map_all_by_test (m : gmap string Subnet) (P : Subnet → Prop)
    (test : Subnet → bool) :
  (∀ s, test s = true → P s) →
  forallb test (map_to_list m).*2 = true →
  ∀ id s, m !! id = Some s → P s.
Proof.
  intros Hsound Hall id s Hs. apply Hsound.
  rewrite forallb_forall in Hall. apply Hall.
  apply list_elem_of_In, list_elem_of_fmap. exists (id, s).
  split; [done|]. by apply elem_of_map_to_list.
Qed.

Lemma cidr_inside_b_sound `{GoLib} networks s :
  cidr_inside_b networks s = true → cidr_inside networks s.
Proof.
  unfold cidr_inside_b, cidr_inside.
  destruct (ParseCIDR (CIDR s)) as [[ip n]|]; [|done].
  intros (network & Hin & Hc)%existsb_exists.
  exists ip, n. split; [done|]. exists network. split; [|done].
  by apply list_elem_of_In.
Qed.

(** The IPv4 fragment keeps the law of [net.ParseCIDR]. *)
Lemma IPv4_ParseCIDR_in_network : ParseCIDR_in_network.
Proof.
  intros text ip n. simpl. unfold IPv4_ParseCIDR.
  destruct (String.index 0 "/" text) as [i|]; [|done].
  destruct (parseIPv4 _) as [ip'|]; [|done].
  destruct (dtoi _) as [[m j] ok].
  destruct (_ || _); [done|]. intros [= <- <-].
  unfold IPv4_Contains. simpl.
  rewrite <-Z.land_assoc, Z.land_diag. apply Z.eqb_refl.
Qed.

Lemma IPv4_range_inside_b_sound (networks : list IPv4Net) s :
  IPv4_range_inside_b networks s = true → cidr_range_inside networks s.
Proof.
  unfold IPv4_range_inside_b, cidr_range_inside. simpl.
  destruct (IPv4_ParseCIDR (CIDR s)) as [[ip n]|]; [|done].
  intros (network & Hin & [Hmask Hc]%andb_true_iff)%existsb_exists.
  exists ip, n. split; [done|]. exists network.
  split; [by apply list_elem_of_In|].
  intros a Ha. unfold IPv4_Contains in *.
  apply Z.eqb_eq in Hmask, Hc, Ha. apply Z.eqb_eq.
  rewrite Hc, <-Hmask, !Z.land_assoc. by rewrite Ha.
Qed.

(** The block 10.0.0.0/8 that 10.1.0.5/8 denotes does not lie inside the
    machine network 10.1.0.0/16, although the written address does. *)
Lemma host_cidr_block_outside :
  ¬ cidr_range_inside [ipv4net 10 1 0 0 16] (mkSubnet "a" "10.1.0.5/8")
  ∧ cidr_inside [ipv4net 10 1 0 0 16] (mkSubnet "a" "10.1.0.5/8").
Proof.
  split.
  - intros (ip & n & Hp & network & Hin & Hsub).
    vm_compute in Hp. injection Hp as <- <-.
    apply list_elem_of_singleton in Hin as ->.
    specialize (Hsub (ipv4 10 2 0 0) eq_refl). vm_compute in Hsub.
    discriminate.
  - apply cidr_inside_b_sound. vm_compute. reflexivity.
Qed.

Lemma NoDup_fmap_inj_on {A B} (f : A → B) (l : list A) x y :
  NoDup (f <$> l) → x ∈ l → y ∈ l → f x = f y → x = y.
Proof.
  induction l as [|a l IH]; simpl; [by intros _ ?%elem_of_nil|].
  intros [Hnotin Hnd]%NoDup_cons [->|Hx]%elem_of_cons [->|Hy]%elem_of_cons Hf;
    [done| | |by apply IH].
  - destruct Hnotin. rewrite Hf. by apply list_elem_of_fmap_2.
  - destruct Hnotin. rewrite <-Hf. by apply list_elem_of_fmap_2.
Qed.

Lemma zones_distinct_NoDup (m : gmap string Subnet) :
  NoDup ((λ kv, Zone kv.2) <$> map_to_list m) → zones_distinct m.
Proof.
  intros Hnd i j si sj Hi Hj Hz.
  apply elem_of_map_to_list in Hi, Hj.
  assert ((i, si) = (j, sj)) as Heq
    by (eapply (NoDup_fmap_inj_on (λ kv : string * Subnet, Zone kv.2)); done).
  congruence.
Qed.

(** ** The coverage check *)

Lemma filter_none {A} (test : A → bool) (l : list A) :
  (∀ x, x ∈ l → test x = false) → List.filter test l = [].
Proof.
  induction l as [|a l IH]; intros Hall; simpl; [done|].
  rewrite (Hall a) by (by left). apply IH. intros ??. apply Hall. by right.
Qed.

Section coverage_facts.
Context `{GoLib}.

Lemma validateSubnetCIDR_no_gap fldPath order subnets idxMap networks e :
  e ∈ validateSubnetCIDR fldPath order subnets idxMap networks →
  is_coverage_gap e = false.
Proof.
  rewrite validateSubnetCIDR_bind. intros (id & He & _)%list_elem_of_bind.
  apply validateSubnetCIDR_step_value in He as (_ & _ & [Hd|[ip Hd]]);
    unfold is_coverage_gap; by rewrite Hd.
Qed.

Lemma validateDuplicateSubnetZones_no_gap fldPath order subnets idxMap typ e :
  typ = "private" ∨ typ = "public" →
  e ∈ validateDuplicateSubnetZones fldPath order subnets idxMap typ →
  is_coverage_gap e = false.
Proof.
  intros Htyp (id & c & _ & ->)%validateDuplicateSubnetZones_elem.
  by destruct Htyp as [-> | ->].
Qed.

(** C7. Under the external publishing strategy, when the private subnets
    cover the zones a, b and c and the public subnets the zones a and b,
    with c neither a nor b, [validateSubnets] returns exactly one diagnostic
    of the coverage check, and it names the zone c alone. *)
Theorem validateSubnets_coverage_gap
    ro meta fldPath subnets networking priv pub a b c :
  PrivateSubnets meta = Found priv → PublicSubnets meta = Found pub →
  ranges_ok ro priv pub →
  tier_zones priv = {[a; b; c]} → tier_zones pub = {[a; b]} →
  c ≠ a → c ≠ b →
  List.filter is_coverage_gap
    (validateSubnets ro meta fldPath subnets networking
                     ExternalPublishingStrategy)
  = [Invalid fldPath (VStrings subnets)
       ("No public subnet provided for zones [" +:+ c +:+ "]")].
Proof.
  intros Hpriv Hpub (R1 & R2 & R3 & R4 & R5 & R6) Hzp Hzq Hca Hcb.
  rewrite (validateSubnets_Found _ _ _ _ _ _ _ _ Hpriv Hpub).
  rewrite (zonesOf_ranges _ _ R5), (zonesOf_ranges _ _ R6), Hzp, Hzq.
  rewrite !List.filter_app.
  rewrite (filter_none _ (validateSubnetCIDR _ (cidr_private ro) _ _ _))
    by apply validateSubnetCIDR_no_gap.
  rewrite (filter_none _ (validateSubnetCIDR _ (cidr_public ro) _ _ _))
    by apply validateSubnetCIDR_no_gap.
  rewrite (filter_none _ (validateDuplicateSubnetZones _ (dup_private ro) _ _ _))
    by (intros e; apply validateDuplicateSubnetZones_no_gap; by left).
  rewrite (filter_none _ (validateDuplicateSubnetZones _ (dup_public ro) _ _ _))
    by (intros e; apply validateDuplicateSubnetZones_no_gap; by right).
  assert (List.filter is_coverage_gap
            (if decide (size priv = 0%nat)
             then [Invalid fldPath (VStrings subnets) "No private subnets found"]
             else []) = []) as ->
    by (by destruct (decide _)).
  rewrite bool_decide_eq_true_2 by done.
  rewrite bool_decide_eq_false_2.
  2:{ intros Hsub. specialize (Hsub c).
      rewrite !elem_of_union, !elem_of_singleton in Hsub.
      destruct Hsub as [?|?]; [by right|done|done]. }
  assert (({[a; b; c]} : gset string) ∖ {[a; b]} = {[c]}) as ->.
  { apply set_eq. intros z.
    rewrite elem_of_difference, !elem_of_union, !elem_of_singleton.
    intuition congruence. }
  unfold set_List. rewrite elements_singleton, sort_Strings_singleton.
  reflexivity.
Qed.

End coverage_facts.

(** ** The topology validator on the example inputs *)

(** C1 fails as stated. The block 10.0.0.0/24 of the one private subnet
    lies inside the machine network 10.0.0.0/16, there is no public subnet,
    so the zones are distinct within each tier; under the external strategy
    the coverage check still reports the zone of the private subnet. *)
Lemma validateSubnets_valid_counterexample :
  PrivateSubnets (ex_meta one_private ∅) = Found one_private
  ∧ PublicSubnets (ex_meta one_private ∅) = Found ∅
  ∧ ranges_ok (default_orders one_private ∅) one_private ∅
  ∧ (0 < size one_private)%nat
  ∧ (∀ id s, one_private !! id = Some s →
             cidr_range_inside (nw_MachineNetwork ex_networking) s)
  ∧ (∀ id s, (∅ : gmap string Subnet) !! id = Some s →
             cidr_range_inside (nw_MachineNetwork ex_networking) s)
  ∧ zones_distinct one_private
  ∧ zones_distinct ∅
  ∧ validateSubnets (default_orders one_private ∅) (ex_meta one_private ∅)
      subnets_path ["subnet-a"] ex_networking ExternalPublishingStrategy
    = [Invalid subnets_path (VStrings ["subnet-a"])
         "No public subnet provided for zones [a]"].
Proof.
  repeat split.
  - apply ranges_keys_of.
  - apply ranges_keys_of.
  - apply ranges_keys_of.
  - apply ranges_keys_of.
  - apply ranges_keys_of.
  - apply ranges_keys_of.
  - vm_compute. lia.
  - apply (map_all_by_test _ _
             (IPv4_range_inside_b (nw_MachineNetwork ex_networking)));
      [apply IPv4_range_inside_b_sound|vm_compute; reflexivity].
  - intros id s Hs. by rewrite lookup_empty in Hs.
  - apply zones_distinct_NoDup, (bool_decide_unpack _). vm_compute. exact I.
  - intros i j si sj Hi. by rewrite lookup_empty in Hi.
Qed.

Lemma validateSubnets_valid_witness :
  validateSubnets (default_orders private_ab public_ab)
    (ex_meta private_ab public_ab) subnets_path
    ["subnet-1"; "subnet-2"; "subnet-4"; "subnet-5"] ex_networking
    ExternalPublishingStrategy = [].
Proof.
  apply (validateSubnets_valid _ _ _ _ _ _ private_ab public_ab).
  - apply IPv4_ParseCIDR_in_network.
  - reflexivity.
  - reflexivity.
  - apply ranges_ok_default.
  - vm_compute. lia.
  - apply (map_all_by_test _ _
             (IPv4_range_inside_b (nw_MachineNetwork ex_networking)));
      [apply IPv4_range_inside_b_sound|vm_compute; reflexivity].
  - apply (map_all_by_test _ _
             (IPv4_range_inside_b (nw_MachineNetwork ex_networking)));
      [apply IPv4_range_inside_b_sound|vm_compute; reflexivity].
  - apply zones_distinct_NoDup, (bool_decide_unpack _). vm_compute. exact I.
  - apply zones_distinct_NoDup, (bool_decide_unpack _). vm_compute. exact I.
  - intros _. apply (bool_decide_unpack _). vm_compute. exact I.
Defined.

(** C2 fails as stated. The declared id subnet-x is in neither live set, and
    the validator returns no diagnostic at all. *)
Lemma validateSubnets_unknown_id_counterexample :
  "subnet-x" ∈ ["subnet-x"; "subnet-a"]
  ∧ one_private !! "subnet-x" = None
  ∧ (∅ : gmap string Subnet) !! "subnet-x" = None
  ∧ validateSubnets (default_orders one_private ∅) (ex_meta one_private ∅)
      subnets_path ["subnet-x"; "subnet-a"] ex_networking
      InternalPublishingStrategy = [].
Proof.
  split; [by left|]. split; [done|]. split; [done|]. vm_compute. reflexivity.
Qed.

Lemma validateSubnets_unknown_id_unreported_witness :
  Invalid (PIndex subnets_path 1) (VString "subnet-a")
          "invalid CIDR address: 10.0.0.0"
  ∈ validateSubnets (default_orders unparsable_private ∅)
      (ex_meta unparsable_private ∅) subnets_path ["subnet-x"; "subnet-a"]
      ex_networking InternalPublishingStrategy
  ∧ BadValue (Invalid (PIndex subnets_path 1) (VString "subnet-a")
                      "invalid CIDR address: 10.0.0.0")
    ≠ VString "subnet-x"
  ∧ ((Field (Invalid (PIndex subnets_path 1) (VString "subnet-a")
                     "invalid CIDR address: 10.0.0.0") = subnets_path
      ∧ BadValue (Invalid (PIndex subnets_path 1) (VString "subnet-a")
                          "invalid CIDR address: 10.0.0.0")
        = VStrings ["subnet-x"; "subnet-a"]
      ∧ (Detail (Invalid (PIndex subnets_path 1) (VString "subnet-a")
                         "invalid CIDR address: 10.0.0.0")
         = "No private subnets found"
         ∨ Detail (Invalid (PIndex subnets_path 1) (VString "subnet-a")
                           "invalid CIDR address: 10.0.0.0")
           = "No public subnet provided for zones " +:+
             fmt_slice (set_List (tier_zones unparsable_private
                                  ∖ tier_zones ∅))))
     ∨ (∃ id' i,
          id' ≠ "subnet-x"
          ∧ (is_Some (unparsable_private !! id')
             ∨ is_Some ((∅ : gmap string Subnet) !! id'))
          ∧ Field (Invalid (PIndex subnets_path 1) (VString "subnet-a")
                           "invalid CIDR address: 10.0.0.0")
            = PIndex subnets_path i
          ∧ BadValue (Invalid (PIndex subnets_path 1) (VString "subnet-a")
                              "invalid CIDR address: 10.0.0.0")
            = VString id')).
Proof.
  assert (Invalid (PIndex subnets_path 1) (VString "subnet-a")
                  "invalid CIDR address: 10.0.0.0"
          ∈ validateSubnets (default_orders unparsable_private ∅)
              (ex_meta unparsable_private ∅) subnets_path
              ["subnet-x"; "subnet-a"] ex_networking
              InternalPublishingStrategy) as Hin.
  { vm_compute. left. }
  split; [exact Hin|].
  apply (validateSubnets_unknown_id_unreported
           (default_orders unparsable_private ∅) (ex_meta unparsable_private ∅)
           subnets_path ["subnet-x"; "subnet-a"] ex_networking
           InternalPublishingStrategy unparsable_private ∅ "subnet-x").
  - reflexivity.
  - reflexivity.
  - apply ranges_ok_default.
  - left.
  - reflexivity.
  - reflexivity.
  - exact Hin.
Defined.

Lemma validateSubnets_coverage_gap_witness :
  List.filter is_coverage_gap
    (validateSubnets (default_orders private_abc public_ab)
       (ex_meta private_abc public_ab) subnets_path
       ["subnet-1"; "subnet-2"; "subnet-3"; "subnet-4"; "subnet-5"]
       ex_networking ExternalPublishingStrategy)
  = [Invalid subnets_path
       (VStrings ["subnet-1"; "subnet-2"; "subnet-3"; "subnet-4"; "subnet-5"])
       "No public subnet provided for zones [c]"].
Proof.
  apply (validateSubnets_coverage_gap _ _ _ _ _ private_abc public_ab "a" "b" "c").
  - reflexivity.
  - reflexivity.
  - apply ranges_ok_default.
  - vm_compute. reflexivity.
  - vm_compute. reflexivity.
  - discriminate.
  - discriminate.
Defined.

(** X25. Two runs of [validateSubnets] on the same inputs, whatever the
    orders of their [range] statements, return the same diagnostics up to
    their order. *)
Lemma validateSubnets_Permutation `{GoLib}
    ro ro' meta fldPath subnets networking publish priv pub :
  PrivateSubnets meta = Found priv → PublicSubnets meta = Found pub →
  ranges_ok ro priv pub → ranges_ok ro' priv pub →
  validateSubnets ro meta fldPath subnets networking publish ≡ₚ
  validateSubnets ro' meta fldPath subnets networking publish.
Proof.
  intros Hpriv Hpub (R1 & R2 & R3 & R4 & R5 & R6) (S1 & S2 & S3 & S4 & S5 & S6).
  rewrite !(validateSubnets_Found _ _ _ _ _ _ _ _ Hpriv Hpub).
  rewrite (zonesOf_ranges _ _ R5), (zonesOf_ranges _ _ R6).
  rewrite (zonesOf_ranges _ _ S5), (zonesOf_ranges _ _ S6).
  rewrite (validateDuplicateSubnetZones_order _ (dup_private ro) (dup_private ro'))
    by by eapply ranges_Permutation.
  rewrite (validateDuplicateSubnetZones_order _ (dup_public ro) (dup_public ro'))
    by by eapply ranges_Permutation.
  rewrite (validateSubnetCIDR_Permutation _ (cidr_private ro) (cidr_private ro'))
    by by eapply ranges_Permutation.
  rewrite (validateSubnetCIDR_Permutation _ (cidr_public ro) (cidr_public ro'))
    by by eapply ranges_Permutation.
  done.
Qed.

(** Two private subnets outside the machine network, validated twice: the
    [range] statement of [validateSubnetCIDR] hands them over in one order in
    the first run and in the other order in the second, and the two lists of
    diagnostics differ in their order. *)
Lemma validateSubnets_order_of_visit :
  ranges_ok run_ab outside_pair ∅
  ∧ ranges_ok run_ba outside_pair ∅
  ∧ validateSubnets run_ab (ex_meta outside_pair ∅) subnets_path
      ["subnet-a"; "subnet-b"] ex_networking InternalPublishingStrategy
    = [Invalid (PIndex subnets_path 0) (VString "subnet-a")
         "subnet's CIDR range start 192.168.0.0 is outside of the specified machine networks";
       Invalid (PIndex subnets_path 1) (VString "subnet-b")
         "subnet's CIDR range start 192.168.1.0 is outside of the specified machine networks"]
  ∧ validateSubnets run_ba (ex_meta outside_pair ∅) subnets_path
      ["subnet-a"; "subnet-b"] ex_networking InternalPublishingStrategy
    = [Invalid (PIndex subnets_path 1) (VString "subnet-b")
         "subnet's CIDR range start 192.168.1.0 is outside of the specified machine networks";
       Invalid (PIndex subnets_path 0) (VString "subnet-a")
         "subnet's CIDR range start 192.168.0.0 is outside of the specified machine networks"]
  ∧ validateSubnets run_ab (ex_meta outside_pair ∅) subnets_path
      ["subnet-a"; "subnet-b"] ex_networking InternalPublishingStrategy
    ≠ validateSubnets run_ba (ex_meta outside_pair ∅) subnets_path
        ["subnet-a"; "subnet-b"] ex_networking InternalPublishingStrategy.
Proof.
  split; [|split; [|split; [|split]]].
  - repeat split; simpl;
      first [apply ranges_outside_pair_ab | apply ranges_empty].
  - repeat split; simpl;
      first [apply ranges_outside_pair_ba | apply ranges_outside_pair_ab
            | apply ranges_empty].
  - vm_compute. reflexivity.
  - vm_compute. reflexivity.
  - vm_compute. discriminate.
Qed.

(** ** The pre-provision DNS checks *)

Section provisioning_facts.
Context `{GoLib}.

Lemma getHostedZone_Failed client hostedZonePath hostedZoneName err :
  r53_GetHostedZone client hostedZoneName = Failed err →
  getHostedZone client hostedZonePath hostedZoneName =
  (None, [Invalid hostedZonePath (VString hostedZoneName)
                  "cannot find hosted zone"]).
Proof. intros Hf. unfold getHostedZone. by rewrite Hf. Qed.

(** C5 on the code. When the hosted zone is named by id and its lookup
    fails, [getHostedZone] returns a nil output beside its diagnostic, and
    the run then dereferences that nil output: [ValidateForProvisioning]
    panics and returns no diagnostic at all. *)
Theorem ValidateForProvisioning_failed_zone_lookup
    session ic metadata platform err :
  ic_Publish ic ≠ InternalPublishingStrategy →
  ic_AWS ic = Some platform →
  pf_HostedZone platform ≠ "" →
  r53_GetHostedZone (route53_New session) (pf_HostedZone platform) = Failed err →
  ValidateForProvisioning session ic metadata = Panic.
Proof.
  intros Hpub Haws Hhz Hfail. unfold ValidateForProvisioning.
  rewrite decide_False by done. rewrite Haws. simpl.
  rewrite decide_True by done.
  rewrite (getHostedZone_Failed _ _ _ _ Hfail). simpl.
  unfold validateHostedZone, isHostedZoneAssociatedWithVPC.
  destruct (VPC metadata) as [vpcID|]; simpl; [|done].
  destruct (decide (vpcID = "")); done.
Qed.

End provisioning_facts.

Lemma ValidateForProvisioning_failed_zone_lookup_witness :
  ValidateForProvisioning (ex_session []) (cluster_config "Z0000000000000")
    (ex_meta ∅ ∅) = Panic.
Proof.
  apply (ValidateForProvisioning_failed_zone_lookup (ex_session [])
           (cluster_config "Z0000000000000") (ex_meta ∅ ∅)
           (mk_awstypes_Platform "" "us-east-1" [] "Z0000000000000" [] None)
           "NoSuchHostedZone").
  - discriminate.
  - reflexivity.
  - discriminate.
  - reflexivity.
Defined.

(** ** Suffixes *)

Lemma app_String (c : ascii) (p q : string) :
  String c p +:+ q = String c (p +:+ q).
Proof. reflexivity. Qed.

Lemma substring_all (s : string) : String.substring 0 (String.length s) s = s.
Proof. induction s as [|c s IH]; simpl; [done|]. by rewrite IH. Qed.

Lemma substring_skip_app (p q : string) :
  String.substring (String.length p) (String.length q) (p +:+ q) = q.
Proof.
  induction p as [|c p IH].
  - apply substring_all.
  - rewrite app_String. simpl. apply IH.
Qed.

Lemma length_app_string (p q : string) :
  String.length (p +:+ q) = (String.length p + String.length q)%nat.
Proof.
  induction p as [|c p IH]; [done|]. rewrite app_String. simpl. by rewrite IH.
Qed.

Lemma app_string_assoc (p q r : string) : (p +:+ q) +:+ r = p +:+ q +:+ r.
Proof.
  induction p as [|c p IH]; [done|]. rewrite !app_String. by rewrite IH.
Qed.

Lemma substring_split (s : string) (n : nat) :
  (n ≤ String.length s)%nat →
  s = String.substring 0 n s +:+ String.substring n (String.length s - n) s.
Proof.
  revert n. induction s as [|c s IH]; intros n Hn; simpl in *.
  - assert (n = 0%nat) as -> by lia. done.
  - destruct n as [|n]; simpl.
    + by rewrite substring_all.
    + rewrite app_String. f_equal. apply IH. lia.
Qed.

(** [strings.HasSuffix(s, suffix)] holds exactly when [s] ends with
    [suffix]. *)
Lemma HasSuffix_spec (s suffix : string) :
  HasSuffix s suffix = true ↔ ∃ p, s = p +:+ suffix.
Proof.
  unfold HasSuffix. rewrite andb_true_iff, Nat.leb_le, String.eqb_eq. split.
  - intros [Hle Heq].
    exists (String.substring 0 (String.length s - String.length suffix) s).
    rewrite (substring_split s (String.length s - String.length suffix)) at 1
      by lia.
    f_equal.
    replace (String.length s - (String.length s - String.length suffix))%nat
      with (String.length suffix) by lia.
    done.
  - intros [p ->]. rewrite length_app_string. split; [lia|].
    replace (String.length p + String.length suffix - String.length suffix)%nat
      with (String.length p) by lia.
    apply substring_skip_app.
Qed.

Lemma app_string_nil_l (p q : string) :
  String.length (p +:+ q) = String.length q → p = "".
Proof.
  rewrite length_app_string. destruct p; simpl; [done|lia].
Qed.

(** ** Record sets in conflict with the cluster domain *)

(** What the scan of the record sets flags: a name other than the cluster
    domain that ends with the text of the cluster domain. *)
Lemma flagged_iff dottedClusterDomain recordSet :
  flagged dottedClusterDomain recordSet ↔
  (∃ p, p ≠ "" ∧ StringValue (rrs_Name recordSet) = p +:+ dottedClusterDomain).
Proof.
  unfold flagged, recordSet_step.
  destruct (HasSuffix _ _) eqn:Hsuf; simpl.
  - apply HasSuffix_spec in Hsuf as [p Hp].
    destruct (decide _) as [Hlen|Hlen].
    + split; [done|]. intros (q & Hq & Heq).
      rewrite Heq in Hlen. apply app_string_nil_l in Hlen. done.
    + split; [|intros _; simpl; discriminate].
      intros _. exists p. split; [|done].
      intros ->. by rewrite Hp in Hlen.
  - split; [done|]. intros (p & _ & Hp).
    assert (HasSuffix (StringValue (rrs_Name recordSet)) dottedClusterDomain
            = true) as Ht by (apply HasSuffix_spec; by exists p).
    congruence.
Qed.

(** A record set strictly below the cluster domain is flagged. *)
Lemma strict_subdomain_flagged dottedClusterDomain recordSet :
  strict_subdomain (StringValue (rrs_Name recordSet)) dottedClusterDomain →
  flagged dottedClusterDomain recordSet.
Proof.
  intros (labels & Hne & Heq). apply flagged_iff.
  exists (labels +:+ "."). split.
  - by destruct labels.
  - by rewrite Heq, app_string_assoc.
Qed.

(** A record set at the cluster domain itself is not flagged. *)
Lemma cluster_domain_not_flagged dottedClusterDomain recordSet :
  StringValue (rrs_Name recordSet) = dottedClusterDomain →
  ¬ flagged dottedClusterDomain recordSet.
Proof.
  intros Heq (p & Hne & Hp)%flagged_iff. rewrite Heq in Hp.
  assert (String.length (p +:+ dottedClusterDomain)
          = String.length dottedClusterDomain) as Hlen by (by rewrite <-Hp).
  by apply app_string_nil_l in Hlen.
Qed.

Lemma recordSet_step_app dottedClusterDomain acc recordSet :
  recordSet_step dottedClusterDomain acc recordSet =
  acc ++ recordSet_step dottedClusterDomain [] recordSet.
Proof.
  unfold recordSet_step. destruct (negb _); [by rewrite app_nil_r|].
  destruct (decide _); [by rewrite app_nil_r|done].
Qed.

Lemma recordSet_step_foldl dottedClusterDomain acc recordSets :
  foldl (recordSet_step dottedClusterDomain) acc recordSets =
  acc ++ (recordSets ≫= recordSet_step dottedClusterDomain []).
Proof.
  revert acc. induction recordSets as [|r l IH]; intros acc; simpl.
  - by rewrite app_nil_r.
  - by rewrite IH, recordSet_step_app, <-app_assoc.
Qed.

(** When no error ends the paging, the callback sees every page. *)
Lemma eachPage_recordSets dottedClusterDomain acc pages :
  eachPage (recordSets_page dottedClusterDomain) acc pages None =
  (acc ++ ((pages ≫= page_ResourceRecordSets)
             ≫= recordSet_step dottedClusterDomain []), None).
Proof.
  revert acc. induction pages as [|out rest IH]; intros acc.
  - simpl. by rewrite app_nil_r.
  - rewrite bind_cons, bind_app. destruct rest as [|out' rest].
    + simpl. by rewrite recordSet_step_foldl, !app_nil_r.
    + change (eachPage (recordSets_page dottedClusterDomain) acc
                (out :: out' :: rest) None)
        with (eachPage (recordSets_page dottedClusterDomain)
                (foldl (recordSet_step dottedClusterDomain) acc
                       (page_ResourceRecordSets out))
                (out' :: rest) None).
      by rewrite IH, recordSet_step_foldl, <-app_assoc.
Qed.

(** In a zone that is the cluster domain or a parent of it, when the listing
    succeeds, the scan returns the record sets it flags, page after page. *)
Lemma getSubDomainDNSRecords_records `{GoLib} client hz name ic pages :
  hz_Name hz = Some name →
  name = ic_ClusterDomain ic +:+ "."
  ∨ HasSuffix (ic_ClusterDomain ic +:+ ".") ("." +:+ name) = true →
  r53_ListResourceRecordSetsPages client (hz_Id hz) = (pages, None) →
  getSubDomainDNSRecords client (Some hz) ic =
  Ret ((pages ≫= page_ResourceRecordSets)
         ≫= recordSet_step (ic_ClusterDomain ic +:+ ".") [], None).
Proof.
  intros Hname Hparent Hlist.
  unfold getSubDomainDNSRecords, isHostedZoneDomainParentOfClusterDomain.
  simpl. rewrite Hname. simpl.
  assert ((if decide (name = ic_ClusterDomain ic +:+ ".") then Ret true
           else Ret (HasSuffix (ic_ClusterDomain ic +:+ ".") ("." +:+ name)))
          = Ret true) as ->.
  { destruct (decide _); [done|]. by destruct Hparent as [?| ->]. }
  simpl. rewrite Hlist. simpl. by rewrite eachPage_recordSets.
Qed.

(** The example of the specification: in the zone example.com., for the
    cluster domain cluster.example.com, the record api.cluster.example.com.
    is reported and the record of the zone itself is not. *)
Example getSubDomainDNSRecords_spec_example :
  getSubDomainDNSRecords
    (dns_with [record "api.cluster.example.com." "A";
               record "example.com." "NS"])
    (Some example_com) (cluster_config "")
  = Ret (["api.cluster.example.com. (A)"], None).
Proof. vm_compute. reflexivity. Qed.

(** C6 on the code. In the zone example.com., for the cluster domain
    cluster.example.com, the record xcluster.example.com. belongs to another
    cluster: its name is not below the cluster domain, only its text ends
    with it. The scan reports it all the same. *)
Theorem getSubDomainDNSRecords_flags_sibling :
  ¬ strict_subdomain "xcluster.example.com." "cluster.example.com."
  ∧ flagged "cluster.example.com." (record "xcluster.example.com." "A")
  ∧ getSubDomainDNSRecords
      (dns_with [record "xcluster.example.com." "A"])
      (Some example_com) (cluster_config "")
    = Ret (["xcluster.example.com. (A)"], None).
Proof.
  split; [|split].
  - intros (labels & Hne & Heq).
    assert (String.length (labels +:+ ".cluster.example.com.")
            = String.length ".cluster.example.com.") as Hlen.
    { change (labels +:+ ".cluster.example.com.")
        with (labels +:+ "." +:+ "cluster.example.com.").
      by rewrite <-Heq. }
    by apply app_string_nil_l in Hlen.
  - unfold flagged. vm_compute. discriminate.
  - vm_compute. reflexivity.
Qed.

(** The run that resolves the zone by base domain completes, and files the
    conflict under the nil path and the empty zone name that the shadowed
    variables leave behind. *)
Example ValidateForProvisioning_base_domain :
  ValidateForProvisioning
    (ex_session [record "api.cluster.example.com." "A";
                 record "example.com." "NS"])
    (cluster_config "") (ex_meta ∅ ∅)
  = Ret (Some [Invalid [] (VString "")
     "the zone already has record sets for the domain of the cluster: [api.cluster.example.com. (A)]"])
  ∧ ValidateForProvisioning (ex_session [record "example.com." "NS"])
      (cluster_config "") (ex_meta ∅ ∅) = Ret None.
Proof. split; vm_compute; reflexivity. Qed.

(** ** The machine-pool validator *)

Section pool_facts.
Context `{GoLib}.

(** The instance-type block leaves the diagnostics of the zone block in
    place and adds its own after them. *)
Lemma validateMachinePool_type_app meta fldPath pool req allErrs :
  validateMachinePool_type meta fldPath pool req allErrs =
  allErrs ++ validateMachinePool_type meta fldPath pool req [].
Proof.
  unfold validateMachinePool_type.
  destruct (decide (mp_InstanceType pool ≠ "")); [|by rewrite app_nil_r].
  destruct (InstanceTypes meta) as [instanceTypes|err]; [|done].
  destruct (instanceTypes !! mp_InstanceType pool) as [typeMeta|]; [|done].
  destruct (decide (DefaultVCpus typeMeta < minimumVCpus req));
    destruct (decide (MemInMiB typeMeta < minimumMemory req));
    simpl; rewrite <-?app_assoc, ?app_nil_r; done.
Qed.

Lemma validateMachinePool_type_without meta fldPath pool req allErrs :
  validateMachinePool_type meta fldPath (without_type pool) req allErrs
  = allErrs.
Proof. reflexivity. Qed.

(** When the zone block does not end the call, the call returns what it
    returns for the pool without its instance type, followed by the
    diagnostics of the instance-type block. *)
Lemma validateMachinePool_split order meta fldPath platform pool req :
  zone_lookup_ok meta platform pool →
  validateMachinePool order meta fldPath platform pool req =
  validateMachinePool order meta fldPath platform (without_type pool) req ++
  validateMachinePool_type meta fldPath pool req [].
Proof.
  intros Hok. unfold validateMachinePool. simpl.
  destruct (decide (0 < length (mp_Zones pool))%nat) as [Hz|Hz].
  - destruct Hok as [Hnil|[[Hsub (ps & Hps)]|[Hsub (zs & Hzs)]]].
    + rewrite Hnil in Hz. simpl in Hz. lia.
    + rewrite decide_True by (destruct (pf_Subnets platform); simpl; [done|lia]).
      rewrite Hps. rewrite validateMachinePool_type_without.
      apply validateMachinePool_type_app.
    + rewrite decide_False by (rewrite Hsub; simpl; lia).
      rewrite Hzs. rewrite validateMachinePool_type_without.
      apply validateMachinePool_type_app.
  - by rewrite validateMachinePool_type_without.
Qed.

(** C8, as the code has it. When the zone block does not end the call on a
    failed lookup and the catalog is available, a declared instance type
    that the catalog has with fewer vCPUs and less memory than the role
    requires adds exactly two diagnostics, the one of the vCPUs and then the
    one of the memory; a declared instance type that the catalog lacks adds
    exactly one, saying that it was not found. *)
Theorem validateMachinePool_instance_type
    order meta fldPath platform pool req catalog :
  zone_lookup_ok meta platform pool →
  mp_InstanceType pool ≠ "" →
  InstanceTypes meta = Found catalog →
  (∀ typeMeta,
     catalog !! mp_InstanceType pool = Some typeMeta →
     DefaultVCpus typeMeta < minimumVCpus req →
     MemInMiB typeMeta < minimumMemory req →
     validateMachinePool order meta fldPath platform pool req =
     validateMachinePool order meta fldPath platform (without_type pool) req ++
     [Invalid (Child fldPath ["type"]) (VString (mp_InstanceType pool))
        ("instance type does not meet minimum resource requirements of "
         +:+ pretty (minimumVCpus req) +:+ " vCPUs");
      Invalid (Child fldPath ["type"]) (VString (mp_InstanceType pool))
        ("instance type does not meet minimum resource requirements of "
         +:+ pretty (minimumMemory req) +:+ " MiB Memory")])
  ∧ (catalog !! mp_InstanceType pool = None →
     validateMachinePool order meta fldPath platform pool req =
     validateMachinePool order meta fldPath platform (without_type pool) req ++
     [Invalid (Child fldPath ["type"]) (VString (mp_InstanceType pool))
        ("instance type " +:+ mp_InstanceType pool +:+ " not found")]).
Proof.
  intros Hok Hty Hcat.
  rewrite (validateMachinePool_split _ _ _ _ _ _ Hok).
  unfold validateMachinePool_type. rewrite decide_True by done. rewrite Hcat.
  split.
  - intros typeMeta -> Hcpu Hmem. by rewrite !decide_True by done.
  - by intros ->.
Qed.

Lemma validateAMI_step_exempt (l : list types_MachinePool) acc :
  Forall pool_has_AMI_or_no_replica l → foldl validateAMI_step acc l = acc.
Proof.
  intros Hall. revert acc. induction Hall as [|c l Hc _ IH]; intros acc; simpl;
    [done|].
  rewrite IH. unfold validateAMI_step.
  destruct (decide (pool_Replicas c = Some 0)); [done|].
  destruct Hc as [?|(aws & -> & Hami)]; [done|].
  by rewrite decide_False.
Qed.

(** C10. When the control plane specifies an image and every compute pool
    either specifies one or has its replicas set to zero, [validateAMI]
    returns no diagnostic, whatever the region, its partition and the images
    of the release stream and of the platform level are, and so also when
    none of these provides an image. *)
Theorem validateAMI_pools_specify config controlPlane platform aws :
  ic_ControlPlane config = Some controlPlane →
  ic_AWS config = Some platform →
  pool_AWS controlPlane = Some aws →
  mp_AMIID aws ≠ "" →
  Forall pool_has_AMI_or_no_replica (ic_Compute config) →
  validateAMI config = Ret [].
Proof.
  intros Hcp Hpf Haws Hami Hcompute. unfold validateAMI.
  rewrite Hcp, Hpf. simpl.
  destruct (AMIRegionsHas _ _); [done|].
  destruct (decide (pf_AMIID platform ≠ "")); [done|].
  destruct (match pf_DefaultMachinePlatform platform with
            | Some d => bool_decide (mp_AMIID d ≠ "")
            | None => false
            end); [done|].
  rewrite Haws, (bool_decide_eq_true_2 _ Hami).
  by rewrite (validateAMI_step_exempt _ _ Hcompute).
Qed.

End pool_facts.

(** C8 fails as stated. The pool declares a zone and the instance type
    t3.nano, which the catalog has below both minimums of the control plane;
    the lookup of the availability zones fails, and the call returns the
    internal error of that lookup alone: no diagnostic of the instance
    type. *)
Lemma validateMachinePool_instance_type_counterexample :
  mp_InstanceType (mk_awstypes_MachinePool ["us-east-1a"] "t3.nano" "") ≠ ""
  ∧ InstanceTypes (catalog_meta (Failed "RequestError: send request failed"))
    = Found small_catalog
  ∧ small_catalog !! "t3.nano" = Some (mkInstanceType 2 512)
  ∧ 2 < minimumVCpus controlPlaneReq
  ∧ 512 < minimumMemory controlPlaneReq
  ∧ validateMachinePool [] (catalog_meta (Failed "RequestError: send request failed"))
      pool_path plain_platform
      (mk_awstypes_MachinePool ["us-east-1a"] "t3.nano" "") controlPlaneReq
    = [InternalError pool_path "RequestError: send request failed"].
Proof. repeat split; done. Qed.

Lemma validateMachinePool_instance_type_witness :
  validateMachinePool [] (catalog_meta (Found ["us-east-1a"])) pool_path
    plain_platform (mk_awstypes_MachinePool ["us-east-1b"] "t3.nano" "")
    controlPlaneReq
  = [Invalid (Child pool_path ["zones"]) (VStrings ["us-east-1b"])
       "No subnets provided for zones [us-east-1b]";
     Invalid (Child pool_path ["type"]) (VString "t3.nano")
       "instance type does not meet minimum resource requirements of 4 vCPUs";
     Invalid (Child pool_path ["type"]) (VString "t3.nano")
       "instance type does not meet minimum resource requirements of 16384 MiB Memory"]
  ∧ validateMachinePool [] (catalog_meta (Found ["us-east-1a"])) pool_path
      plain_platform (mk_awstypes_MachinePool [] "m9.huge" "") controlPlaneReq
    = [Invalid (Child pool_path ["type"]) (VString "m9.huge")
         "instance type m9.huge not found"].
Proof.
  split.
  - apply (proj1 (validateMachinePool_instance_type []
                    (catalog_meta (Found ["us-east-1a"])) pool_path
                    plain_platform
                    (mk_awstypes_MachinePool ["us-east-1b"] "t3.nano" "")
                    controlPlaneReq small_catalog
                    ltac:(right; right; split; [reflexivity|by eexists])
                    ltac:(discriminate) ltac:(reflexivity))
                 (mkInstanceType 2 512)).
    + reflexivity.
    + vm_compute. reflexivity.
    + vm_compute. reflexivity.
  - apply (proj2 (validateMachinePool_instance_type []
                    (catalog_meta (Found ["us-east-1a"])) pool_path
                    plain_platform (mk_awstypes_MachinePool [] "m9.huge" "")
                    controlPlaneReq small_catalog
                    ltac:(by left) ltac:(discriminate) ltac:(reflexivity))).
    reflexivity.
Defined.

Lemma validateAMI_pools_specify_witness :
  validateAMI (china_config 0) = Ret [].
Proof.
  apply (validateAMI_pools_specify (china_config 0)
           (mk_types_MachinePool (Some 3) "amd64"
              (Some (mk_awstypes_MachinePool [] "" "ami-0a1b2c3d")))
           (mk_awstypes_Platform "" "cn-north-1" [] "" [] None)
           (mk_awstypes_MachinePool [] "" "ami-0a1b2c3d")).
  - reflexivity.
  - reflexivity.
  - reflexivity.
  - discriminate.
  - constructor; [|constructor; [|constructor]].
    + right. eexists. split; [reflexivity|discriminate].
    + left. reflexivity.
Defined.

(** Without the exemption the same configuration is rejected: with three
    replicas in the pool that has no image, the run falls through to the
    partition test, which the China partition does not pass. *)
Example validateAMI_replicas_without_AMI :
  validateAMI (china_config 3)
  = Ret [Required (NewPath ["platform"; "aws"; "amiID"]) "AMI must be provided"].
Proof. vm_compute. reflexivity. Qed.

(** ** The address that the CIDR check reads *)

Section written_address.
Context `{GoLib}.

(** A subnet of the visit gets a diagnostic exactly when its CIDR does not
    parse or the address read from it lies in no machine network. *)
Lemma validateSubnetCIDR_reports fldPath order subnets idxMap networks id :
  id ∈ order →
  (∃ e, e ∈ validateSubnetCIDR fldPath order subnets idxMap networks
        ∧ BadValue e = VString id)
  ↔ ¬ cidr_inside networks (subnets !!! id).
Proof.
  intros Hid. rewrite validateSubnetCIDR_bind. split.
  - intros (e & (id' & He & _)%list_elem_of_bind & Hv) Hin.
    pose proof (validateSubnetCIDR_step_value _ _ _ _ _ _ He) as (Hv' & _).
    assert (id' = id) as -> by congruence.
    apply (validateSubnetCIDR_step_nil fldPath subnets idxMap) in Hin.
    rewrite Hin in He. by apply elem_of_nil in He.
  - intros Hout.
    destruct (validateSubnetCIDR_step fldPath subnets idxMap networks [] id)
      as [|e l] eqn:Hstep.
    + by apply validateSubnetCIDR_step_nil in Hstep.
    + exists e. split.
      * apply list_elem_of_bind. exists id. split; [|done]. rewrite Hstep. by left.
      * eapply validateSubnetCIDR_step_value. rewrite Hstep. by left.
Qed.

(** On a CIDR written with its network address, the address read is the
    network address. *)
Lemma cidr_inside_canonical networks s ip n :
  ParseCIDR (CIDR s) = Some (ip, n) → NetworkIP n = ip →
  cidr_inside networks s ↔ network_inside networks s.
Proof.
  intros Hp Hn. unfold cidr_inside, network_inside. split.
  - intros (ip' & n' & Hp' & Hin). exists ip', n'. split; [done|].
    assert (n' = n ∧ ip' = ip) as [-> ->] by (split; congruence).
    by rewrite Hn.
  - intros (ip' & n' & Hp' & Hin). exists ip', n'. split; [done|].
    assert (n' = n ∧ ip' = ip) as [-> ->] by (split; congruence).
    by rewrite Hn in Hin.
Qed.

End written_address.

(** C9 on the code. The CIDR 10.1.0.5/8 denotes the network 10.0.0.0/8.
    Against the machine network 10.0.0.0/16 its network address lies inside,
    and the check reports the subnet, naming 10.1.0.5 as the start of the
    range; against the machine network 10.1.0.0/16 its network address lies
    outside, and the check reports nothing. *)
Theorem validateSubnetCIDR_reads_written_address :
  ParseCIDR "10.1.0.5/8" = Some (ipv4 10 1 0 5, ipv4net 10 0 0 0 8)
  ∧ network_inside [ipv4net 10 0 0 0 16] (mkSubnet "a" "10.1.0.5/8")
  ∧ validateSubnetCIDR subnets_path ["subnet-a"] host_cidr
      (subnetsIdx ["subnet-a"] host_cidr) [ipv4net 10 0 0 0 16]
    = [Invalid (PIndex subnets_path 0) (VString "subnet-a")
         "subnet's CIDR range start 10.1.0.5 is outside of the specified machine networks"]
  ∧ ¬ network_inside [ipv4net 10 1 0 0 16] (mkSubnet "a" "10.1.0.5/8")
  ∧ validateSubnetCIDR subnets_path ["subnet-a"] host_cidr
      (subnetsIdx ["subnet-a"] host_cidr) [ipv4net 10 1 0 0 16]
    = [].
Proof.
  split; [vm_compute; reflexivity|].
  split.
  { exists (ipv4 10 1 0 5), (ipv4net 10 0 0 0 8).
    split; [vm_compute; reflexivity|].
    exists (ipv4net 10 0 0 0 16). split; [by left|vm_compute; reflexivity]. }
  split; [vm_compute; reflexivity|].
  split; [|vm_compute; reflexivity].
  intros (ip & n & Hp & network & Hin & Hc).
  apply list_elem_of_singleton in Hin as ->.
  vm_compute in Hp. injection Hp as <- <-.
  vm_compute in Hc. discriminate.
Qed.

(** ** Two runs of the full validation *)

Section runs.
Context `{GoLib}.

(** The [range] statement of [validateMachinePool] feeds a set: its order
    does not show in the result. *)
Lemma validateMachinePool_order order order' meta fldPath platform pool req :
  (∀ priv, PrivateSubnets meta = Found priv →
           ranges priv order ∧ ranges priv order') →
  validateMachinePool order meta fldPath platform pool req =
  validateMachinePool order' meta fldPath platform pool req.
Proof.
  intros Hr. unfold validateMachinePool.
  destruct (PrivateSubnets meta) as [priv|err]; [|done].
  destruct (Hr priv eq_refl) as [R R'].
  by rewrite (zonesOf_ranges _ _ R), (zonesOf_ranges _ _ R').
Qed.

(** Apart from the two visits of [validateSubnetCIDR], the orders of the
    [range] statements do not show in the result of [validateSubnets]. *)
Lemma validateSubnets_order ro ro' meta fldPath subnets networking publish :
  (∀ priv pub, PrivateSubnets meta = Found priv → PublicSubnets meta = Found pub →
               ranges_ok ro priv pub ∧ ranges_ok ro' priv pub) →
  cidr_private ro = cidr_private ro' → cidr_public ro = cidr_public ro' →
  validateSubnets ro meta fldPath subnets networking publish =
  validateSubnets ro' meta fldPath subnets networking publish.
Proof.
  intros Hr Hp Hq.
  destruct (PrivateSubnets meta) as [priv|err] eqn:Hpriv;
    [|unfold validateSubnets; by rewrite Hpriv].
  destruct (PublicSubnets meta) as [pub|err] eqn:Hpub;
    [|unfold validateSubnets; by rewrite Hpriv, Hpub].
  destruct (Hr priv pub eq_refl eq_refl)
    as [(R1 & R2 & R3 & R4 & R5 & R6) (S1 & S2 & S3 & S4 & S5 & S6)].
  rewrite !(validateSubnets_Found _ _ _ _ _ _ _ _ Hpriv Hpub).
  rewrite (zonesOf_ranges _ _ R5), (zonesOf_ranges _ _ R6).
  rewrite (zonesOf_ranges _ _ S5), (zonesOf_ranges _ _ S6).
  rewrite (validateDuplicateSubnetZones_order _ (dup_private ro) (dup_private ro'))
    by by eapply ranges_Permutation.
  rewrite (validateDuplicateSubnetZones_order _ (dup_public ro) (dup_public ro'))
    by by eapply ranges_Permutation.
  by rewrite Hp, Hq.
Qed.

Lemma Validate_step_order sch sch' meta platform l allErrs :
  (∀ priv path, PrivateSubnets meta = Found priv →
                ranges priv (sch_pool sch path)
                ∧ ranges priv (sch_pool sch' path)) →
  foldl (Validate_step sch meta platform) allErrs l =
  foldl (Validate_step sch' meta platform) allErrs l.
Proof.
  intros Hr. revert allErrs. induction l as [|p l IH]; intros allErrs; simpl;
    [done|].
  rewrite IH. f_equal. unfold Validate_step.
  destruct (pool_AWS p.2) as [aws|]; [|done]. f_equal.
  apply validateMachinePool_order. intros priv Hpriv. by apply Hr.
Qed.

(** X26. Two runs of [Validate] whose schedules agree on the two visits of
    [validateSubnetCIDR] return the same result: no other [range] statement
    over a map shows in the diagnostics. *)
Lemma Validate_order sch sch' net meta config :
  schedule_ok sch meta → schedule_ok sch' meta →
  cidr_private (sch_subnets sch) = cidr_private (sch_subnets sch') →
  cidr_public (sch_subnets sch) = cidr_public (sch_subnets sch') →
  Validate sch net meta config = Validate sch' net meta config.
Proof.
  intros Hs Hs' Hp Hq.
  assert (∀ priv path, PrivateSubnets meta = Found priv →
            ranges priv (sch_pool sch path) ∧ ranges priv (sch_pool sch' path))
    as Hpool.
  { intros priv path Hpriv. split; [by apply Hs|by apply Hs']. }
  unfold Validate. destruct (ic_AWS config) as [platform|]; [|done].
  destruct (validateAMI config) as [amiErrs|]; [|done]. cbn [obind].
  assert (validatePlatform sch net meta (NewPath ["platform"; "aws"]) platform
            (ic_Networking config) (ic_Publish config)
          = validatePlatform sch' net meta (NewPath ["platform"; "aws"]) platform
              (ic_Networking config) (ic_Publish config)) as ->.
  { unfold validatePlatform. destruct (decide _); [done|].
    rewrite (validateSubnets_order (sch_subnets sch) (sch_subnets sch')); try done.
    - destruct (pf_DefaultMachinePlatform platform) as [d|]; [|done].
      f_equal. apply validateMachinePool_order. intros priv Hpriv.
      by apply Hpool.
    - intros priv pub Hpriv Hpub. split; [by apply Hs|by apply Hs']. }
  rewrite (Validate_step_order sch sch') by done.
  destruct (ic_ControlPlane config) as [cp|]; [|done].
  destruct (pool_AWS cp) as [aws|]; [|done].
  rewrite (validateMachinePool_order
             (sch_pool sch (NewPath ["controlPlane"; "platform"; "aws"]))
             (sch_pool sch' (NewPath ["controlPlane"; "platform"; "aws"])));
    [done|].
  intros priv Hpriv. by apply Hpool.
Qed.

End runs.

Lemma schedule_ok_ab : schedule_ok schedule_ab (ex_meta outside_pair ∅).
Proof.
  intros priv [= <-]. split.
  - intros path. apply ranges_outside_pair_ab.
  - intros pub [= <-]. repeat split; simpl;
      first [apply ranges_outside_pair_ab | apply ranges_empty].
Qed.

Lemma schedule_ok_ba : schedule_ok schedule_ba (ex_meta outside_pair ∅).
Proof.
  intros priv [= <-]. split.
  - intros path. apply ranges_outside_pair_ab.
  - intros pub [= <-]. repeat split; simpl;
      first [apply ranges_outside_pair_ba | apply ranges_outside_pair_ab
            | apply ranges_empty].
Qed.

(** C3 on the code. The full validation, run twice on the same
    configuration and the same live inventory, in which two private subnets
    lie outside the machine network: the [range] statement of
    [validateSubnetCIDR] hands the two subnets over in one order in the
    first run and in the other order in the second, both orders being ones
    the inventory allows, and the two results list the same two diagnostics
    in opposite orders. *)
Theorem Validate_order_of_visit :
  schedule_ok schedule_ab (ex_meta outside_pair ∅)
  ∧ schedule_ok schedule_ba (ex_meta outside_pair ∅)
  ∧ Validate schedule_ab quiet_network (ex_meta outside_pair ∅)
      two_subnet_config
    = Ret (Some (Aggregate
        [Invalid (PIndex subnets_path 0) (VString "subnet-a")
           "subnet's CIDR range start 192.168.0.0 is outside of the specified machine networks";
         Invalid (PIndex subnets_path 1) (VString "subnet-b")
           "subnet's CIDR range start 192.168.1.0 is outside of the specified machine networks"]))
  ∧ Validate schedule_ba quiet_network (ex_meta outside_pair ∅)
      two_subnet_config
    = Ret (Some (Aggregate
        [Invalid (PIndex subnets_path 1) (VString "subnet-b")
           "subnet's CIDR range start 192.168.1.0 is outside of the specified machine networks";
         Invalid (PIndex subnets_path 0) (VString "subnet-a")
           "subnet's CIDR range start 192.168.0.0 is outside of the specified machine networks"]))
  ∧ Validate schedule_ab quiet_network (ex_meta outside_pair ∅)
      two_subnet_config
    ≠ Validate schedule_ba quiet_network (ex_meta outside_pair ∅)
        two_subnet_config.
Proof.
  split; [apply schedule_ok_ab|].
  split; [apply schedule_ok_ba|].
  split; [vm_compute; reflexivity|].
  split; [vm_compute; reflexivity|].
  vm_compute. discriminate.
Qed.

(** * Further properties of the validators *)

(** ** The index of a subnet in the declared list *)

Lemma subnetsIdx_snoc (subnets : list string) (live : gmap string Subnet) x :
  subnetsIdx (subnets ++ [x]) live =
  if decide (is_Some (live !! x))
  then <[x := length subnets]> (subnetsIdx subnets live)
  else subnetsIdx subnets live.
Proof.
  unfold subnetsIdx. rewrite imap_app, foldl_app. simpl.
  by rewrite Nat.add_0_r.
Qed.

(** The index map holds a declared id that the live map knows under its
    last position in the declared list. *)
Lemma subnetsIdx_lookup_Some (subnets : list string) (live : gmap string Subnet) id i :
  subnetsIdx subnets live !! id = Some i ↔
  is_Some (live !! id) ∧ subnets !! i = Some id
  ∧ ∀ j, (i < j)%nat → subnets !! j ≠ Some id.
Proof.
  revert i. induction subnets as [|x l IH] using rev_ind; intros i.
  - unfold subnetsIdx. simpl. rewrite lookup_empty. split; [done|].
    by intros (_ & ? & _).
  - rewrite subnetsIdx_snoc.
    assert (∀ k, (l ++ [x]) !! k = Some id ↔
                 l !! k = Some id ∨ (k = length l ∧ x = id)) as Hsnoc.
    { intros k. destruct (decide (k < length l)%nat) as [Hk|Hk].
      - rewrite lookup_app_l by done. split; [by left|].
        intros [?|[-> _]]; [done|lia].
      - rewrite lookup_app_r by lia.
        rewrite (lookup_ge_None_2 l k) by lia. split.
        + intros Hx. right.
          destruct (k - length l)%nat as [|n] eqn:Hn; simpl in Hx; [|done].
          split; [lia|congruence].
        + intros [?|[-> ->]]; [done|]. by rewrite Nat.sub_diag. }
    destruct (decide (x = id)) as [->|Hne].
    + destruct (decide (is_Some (live !! id))) as [Hl|Hl].
      * rewrite lookup_insert_eq. split.
        -- intros [= <-]. split; [done|]. split.
           ++ apply Hsnoc. by right.
           ++ intros j Hj. rewrite lookup_ge_None_2; [done|].
              rewrite length_app. simpl. lia.
        -- intros (_ & Hi & Hlast). f_equal.
           apply Hsnoc in Hi as [Hi|[-> _]]; [|done].
           apply lookup_lt_Some in Hi. destruct (Hlast (length l) Hi).
           apply Hsnoc. by right.
      * split; [|by intros (? & _)].
        intros Hs. apply IH in Hs as (? & _). done.
    + assert (subnetsIdx l live !! id = Some i ↔
              is_Some (live !! id) ∧ (l ++ [x]) !! i = Some id
              ∧ ∀ j, (i < j)%nat → (l ++ [x]) !! j ≠ Some id) as Hrest.
      { rewrite IH. split.
        - intros (Hl & Hi & Hlast). split; [done|]. split.
          + apply Hsnoc. by left.
          + intros j Hj [Hj'|[_ ?]]%Hsnoc; [|done]. by apply (Hlast j).
        - intros (Hl & Hi & Hlast). split; [done|].
          apply Hsnoc in Hi as [Hi|[_ ?]]; [|done]. split; [done|].
          intros j Hj Hj'. apply (Hlast j Hj). apply Hsnoc. by left. }
      destruct (decide (is_Some (live !! x))); [|done].
      by rewrite lookup_insert_ne.
Qed.

(** It holds nothing for an id that is not declared or that the live map
    does not know. *)
Lemma subnetsIdx_lookup_None (subnets : list string) (live : gmap string Subnet) id :
  subnetsIdx subnets live !! id = None ↔ live !! id = None ∨ id ∉ subnets.
Proof.
  induction subnets as [|x l IH] using rev_ind.
  - unfold subnetsIdx. simpl. rewrite lookup_empty. split; [|done].
    intros _. right. apply not_elem_of_nil.
  - rewrite subnetsIdx_snoc, not_elem_of_app, list_elem_of_singleton.
    destruct (decide (is_Some (live !! x))) as [Hl|Hl].
    + destruct (decide (x = id)) as [->|Hne].
      * rewrite lookup_insert_eq. split; [done|].
        intros [Hn|[_ ?]]; [|done]. rewrite Hn in Hl. by destruct Hl.
      * rewrite lookup_insert_ne by done. rewrite IH. split.
        -- intros [?|?]; [by left|]. right. split; [done|congruence].
        -- intros [?|[? _]]; [by left|by right].
    + rewrite IH. split.
      * intros [?|?]; [by left|].
        destruct (decide (x = id)) as [->|Hne].
        -- left. by apply eq_None_not_Some.
        -- right. split; [done|congruence].
      * intros [?|[? _]]; [by left|by right].
Qed.

Section addressing.
Context `{GoLib}.

(** The path of a diagnostic that a walk of the live map [live] files
    against the subnet [id] *)
Lemma subnetsIdx_field fldPath (subnets : list string) (live : gmap string Subnet) id :
  is_Some (live !! id) →
  (id ∈ subnets
   ∧ (∃ i, PIndex fldPath (subnetsIdx subnets live !!! id) = PIndex fldPath i
           ∧ subnets !! i = Some id
           ∧ ∀ j, (i < j)%nat → subnets !! j ≠ Some id))
  ∨ ((id ∉ subnets)
     ∧ PIndex fldPath (subnetsIdx subnets live !!! id) = PIndex fldPath 0).
Proof.
  intros Hl. rewrite lookup_total_alt.
  destruct (subnetsIdx subnets live !! id) as [i|] eqn:Hi.
  - apply subnetsIdx_lookup_Some in Hi as (_ & Hi & Hlast). left. split.
    + by eapply list_elem_of_lookup_2.
    + by exists i.
  - apply subnetsIdx_lookup_None in Hi as [Hn|Hn].
    + rewrite Hn in Hl. by destruct Hl.
    + by right.
Qed.

(** X1. Where the diagnostics of the subnets go. A diagnostic that names a
    subnet id is filed under the last position of that id in the declared
    list; when the live sets hold a subnet that is not declared, its
    diagnostics are filed under position 0, the place of the first declared
    subnet. *)
Theorem validateSubnets_field
    ro meta fldPath subnets networking publish priv pub e id :
  PrivateSubnets meta = Found priv → PublicSubnets meta = Found pub →
  ranges_ok ro priv pub →
  e ∈ validateSubnets ro meta fldPath subnets networking publish →
  BadValue e = VString id →
  (id ∈ subnets
   ∧ (∃ i, Field e = PIndex fldPath i ∧ subnets !! i = Some id
           ∧ ∀ j, (i < j)%nat → subnets !! j ≠ Some id))
  ∨ ((id ∉ subnets) ∧ Field e = PIndex fldPath 0).
Proof.
  intros Hpriv Hpub (R1 & R2 & R3 & R4 & R5 & R6).
  rewrite (validateSubnets_Found _ _ _ _ _ _ _ _ Hpriv Hpub).
  rewrite !elem_of_app. intros [He|[He|[He|[He|[He|He]]]]] Hv.
  - destruct (decide _); [|by apply elem_of_nil in He].
    apply list_elem_of_singleton in He as ->. done.
  - rewrite validateSubnetCIDR_bind in He.
    apply list_elem_of_bind in He as (id' & He & Hid).
    apply validateSubnetCIDR_step_value in He as (Hv' & -> & _).
    assert (id' = id) as -> by congruence.
    apply subnetsIdx_field. by apply (ranges_elem_of _ _ _ R1).
  - rewrite validateSubnetCIDR_bind in He.
    apply list_elem_of_bind in He as (id' & He & Hid).
    apply validateSubnetCIDR_step_value in He as (Hv' & -> & _).
    assert (id' = id) as -> by congruence.
    apply subnetsIdx_field. by apply (ranges_elem_of _ _ _ R2).
  - apply validateDuplicateSubnetZones_elem in He as (id' & c & Hid & ->).
    simpl in Hv. assert (id' = id) as -> by congruence.
    apply subnetsIdx_field. by apply (ranges_elem_of _ _ _ R3).
  - apply validateDuplicateSubnetZones_elem in He as (id' & c & Hid & ->).
    simpl in Hv. assert (id' = id) as -> by congruence.
    apply subnetsIdx_field. by apply (ranges_elem_of _ _ _ R4).
  - destruct (_ && _); [|by apply elem_of_nil in He].
    apply list_elem_of_singleton in He as ->. done.
Qed.

End addressing.

(** ** How often the CIDR check reports a subnet *)

Lemma ranges_length {A} (m : gmap string A) ks : ranges m ks → length ks = size m.
Proof.
  unfold ranges. intros ->. by rewrite length_fmap, length_map_to_list.
Qed.

Section cidr_counts.
Context `{GoLib}.

Lemma validateSubnetCIDR_step_length fldPath subnets idxMap networks id :
  length (validateSubnetCIDR_step fldPath subnets idxMap networks [] id) =
  if cidr_inside_b networks (subnets !!! id) then 0%nat else 1%nat.
Proof.
  unfold validateSubnetCIDR_step, cidr_inside_b.
  destruct (ParseCIDR _) as [[ip n]|]; simpl; [|done].
  rewrite validateMachineNetworksContainIP_existsb.
  by destruct (existsb _ _).
Qed.

Lemma validateSubnetCIDR_step_filter fldPath subnets idxMap networks id id' :
  List.filter (λ e, bool_decide (BadValue e = VString id))
    (validateSubnetCIDR_step fldPath subnets idxMap networks [] id') =
  if decide (id' = id)
  then validateSubnetCIDR_step fldPath subnets idxMap networks [] id'
  else [].
Proof.
  assert (∀ e, e ∈ validateSubnetCIDR_step fldPath subnets idxMap networks [] id' →
               BadValue e = VString id') as Hval.
  { intros e He. by apply validateSubnetCIDR_step_value in He as (? & _). }
  induction (validateSubnetCIDR_step fldPath subnets idxMap networks [] id')
    as [|e l IH]; simpl.
  - by destruct (decide _).
  - rewrite IH by (intros ??; apply Hval; by right).
    rewrite (Hval e) by (by left).
    destruct (decide (id' = id)) as [->|Hne].
    + by rewrite bool_decide_eq_true_2.
    + rewrite bool_decide_eq_false_2; [done|congruence].
Qed.

(** X2. The CIDR check reports a subnet of the tier at most once: once when
    its CIDR does not parse or the address read from it lies in no machine
    network, and not at all otherwise. *)
Theorem validateSubnetCIDR_once fldPath order subnets idxMap networks id :
  NoDup order → id ∈ order →
  length (List.filter (λ e, bool_decide (BadValue e = VString id))
            (validateSubnetCIDR fldPath order subnets idxMap networks)) =
  if cidr_inside_b networks (subnets !!! id) then 0%nat else 1%nat.
Proof.
  rewrite validateSubnetCIDR_bind.
  induction order as [|id' order IH]; intros Hnd Hin.
  - by apply elem_of_nil in Hin.
  - apply NoDup_cons in Hnd as [Hnotin Hnd].
    rewrite bind_cons, List.filter_app, length_app,
      validateSubnetCIDR_step_filter.
    destruct (decide (id' = id)) as [->|Hne].
    + rewrite validateSubnetCIDR_step_length.
      assert (List.filter (λ e, bool_decide (BadValue e = VString id))
                (order ≫= validateSubnetCIDR_step fldPath subnets idxMap
                             networks []) = []) as ->.
      { apply filter_none. intros e (id2 & He & Hid2)%list_elem_of_bind.
        apply validateSubnetCIDR_step_value in He as (Hv & _).
        apply bool_decide_eq_false_2. rewrite Hv. intros [= ->]. done. }
      simpl. lia.
    + simpl. apply IH; [done|].
      apply elem_of_cons in Hin as [?|?]; [congruence|done].
Qed.

(** X3. With no machine network declared, the CIDR check reports every
    subnet of the tier, each once: as many diagnostics as the tier has
    subnets. *)
Theorem validateSubnetCIDR_no_networks fldPath order subnets idxMap :
  ranges subnets order →
  length (validateSubnetCIDR fldPath order subnets idxMap []) = size subnets.
Proof.
  intros Hr. rewrite <-(ranges_length _ _ Hr), validateSubnetCIDR_bind.
  clear Hr. induction order as [|id order IH]; [done|].
  rewrite bind_cons, length_app, IH, validateSubnetCIDR_step_length.
  unfold cidr_inside_b. by destruct (ParseCIDR _) as [[ip n]|].
Qed.

End cidr_counts.

(** ** What the duplicate-zone check counts and whom it names *)

Section duplicate_counts.
Context `{GoLib}.
Implicit Types (subnets : gmap string Subnet) (idxMap : gmap string nat).
Implicit Types (fldPath : Path) (zones : gmap string string).

(** Each iteration of the second loop either collects a diagnostic or
    claims a zone. *)
Lemma validateDuplicateSubnetZones_fold_count fldPath subnets idxMap typ keys errs zones :
  ∃ errs' zones',
    foldl (validateDuplicateSubnetZones_step fldPath subnets idxMap typ)
          (errs, zones) keys = (errs', zones')
    ∧ (length errs' + size zones' = length errs + size zones + length keys)%nat
    ∧ ∀ z, is_Some (zones' !! z) ↔
           is_Some (zones !! z) ∨ ∃ id, id ∈ keys ∧ Zone (subnets !!! id) = z.
Proof.
  revert errs zones. induction keys as [|id keys IH]; intros errs zones.
  - exists errs, zones. split; [done|]. split; [simpl; lia|].
    intros z. split; [by left|]. intros [?|(? & ?%elem_of_nil & _)]; done.
  - cbn [foldl].
    destruct (zones !! Zone (subnets !!! id)) as [c|] eqn:Hz.
    + rewrite (validateDuplicateSubnetZones_step_Some _ _ _ _ _ _ _ _ Hz).
      destruct (IH (errs ++ [Invalid (PIndex fldPath (idxMap !!! id))
                       (VString id)
                       (typ +:+ " subnet " +:+ c +:+ " is also in zone "
                        +:+ Zone (subnets !!! id))]) zones)
        as (errs' & zones' & Hfold & Hcount & Hdom).
      exists errs', zones'. split; [exact Hfold|]. split.
      * rewrite length_app in Hcount. simpl in *. lia.
      * intros z. rewrite Hdom. split.
        -- intros [?|(id' & ? & ?)]; [by left|].
           right. exists id'. split; [by right|done].
        -- intros [?|(id' & [->|?]%elem_of_cons & Hid')]; [by left| |].
           ++ left. rewrite <-Hid'. by exists c.
           ++ right. by exists id'.
    + rewrite (validateDuplicateSubnetZones_step_None _ _ _ _ _ _ _ Hz).
      destruct (IH errs (<[Zone (subnets !!! id) := id]> zones))
        as (errs' & zones' & Hfold & Hcount & Hdom).
      exists errs', zones'. split; [exact Hfold|]. split.
      * rewrite map_size_insert_None in Hcount by done. simpl. lia.
      * intros z. rewrite Hdom. split.
        -- intros [Hs|(id' & ? & ?)].
           ++ destruct (decide (Zone (subnets !!! id) = z)) as [<-|Hne].
              ** right. exists id. split; [by left|done].
              ** left. by rewrite lookup_insert_ne in Hs.
           ++ right. exists id'. split; [by right|done].
        -- intros [Hs|(id' & [->|?]%elem_of_cons & Hid')].
           ++ left. destruct (decide (Zone (subnets !!! id) = z)) as [<-|Hne].
              ** rewrite lookup_insert_eq. by eexists.
              ** by rewrite lookup_insert_ne.
           ++ left. rewrite <-Hid', lookup_insert_eq. by eexists.
           ++ right. by exists id'.
Qed.

(** X4. The duplicate-zone check keeps one subnet per zone, the first in the
    sorted walk, and reports every other one: its diagnostics and the zones
    of the tier add up to the subnets of the tier. *)
Theorem validateDuplicateSubnetZones_count fldPath order subnets idxMap typ :
  ranges subnets order →
  (length (validateDuplicateSubnetZones fldPath order subnets idxMap typ)
   + size (tier_zones subnets) = size subnets)%nat.
Proof.
  intros Hr. unfold validateDuplicateSubnetZones.
  rewrite foldl_snoc_keys. simpl.
  destruct (validateDuplicateSubnetZones_fold_count fldPath subnets idxMap typ
              (sort_Strings order) [] ∅)
    as (errs' & zones' & Hfold & Hcount & Hdom).
  assert (sort_Strings order ≡ₚ order) as Hp
    by (unfold sort_Strings; apply merge_sort_Permutation).
  assert ((foldl (validateDuplicateSubnetZones_step fldPath subnets idxMap typ)
                 ([], ∅) (sort_Strings order)).1 = errs') as ->
    by (etrans; [exact (f_equal fst Hfold)|done]).
  rewrite map_size_empty, Hp, (ranges_length _ _ Hr) in Hcount.
  simpl in Hcount. rewrite <-Hcount. f_equal.
  rewrite <-size_dom. f_equal. apply set_eq. intros z.
  rewrite elem_of_tier_zones, elem_of_dom, Hdom, lookup_empty. split.
  - intros (id & s & Hs & <-). right. exists id. split.
    + rewrite Hp. apply (ranges_elem_of _ _ _ Hr). by exists s.
    + by rewrite (lookup_total_Some _ _ _ Hs).
  - intros [[? ?]|(id & Hid & <-)]; [done|].
    rewrite Hp in Hid. apply (ranges_elem_of _ _ _ Hr) in Hid as [s Hs].
    exists id, s. split; [done|]. by rewrite (lookup_total_Some _ _ _ Hs).
Qed.

(** A walk that collects nothing has met every zone once. *)
Lemma validateDuplicateSubnetZones_fold_nil_inv fldPath subnets idxMap typ keys errs zones :
  (foldl (validateDuplicateSubnetZones_step fldPath subnets idxMap typ)
         (errs, zones) keys).1 = errs →
  (∀ id, id ∈ keys → zones !! Zone (subnets !!! id) = None)
  ∧ ∀ i j, i ∈ keys → j ∈ keys →
           Zone (subnets !!! i) = Zone (subnets !!! j) → i = j.
Proof.
  revert zones. induction keys as [|id keys IH]; intros zones Hfold.
  - split; [by intros ? ?%elem_of_nil|by intros ?? ?%elem_of_nil].
  - cbn [foldl] in Hfold.
    destruct (zones !! Zone (subnets !!! id)) as [c|] eqn:Hz.
    + rewrite (validateDuplicateSubnetZones_step_Some _ _ _ _ _ _ _ _ Hz)
        in Hfold.
      destruct (validateDuplicateSubnetZones_fold_app fldPath subnets idxMap
                  typ keys
                  (errs ++ [Invalid (PIndex fldPath (idxMap !!! id))
                              (VString id)
                              (typ +:+ " subnet " +:+ c +:+
                               " is also in zone " +:+ Zone (subnets !!! id))])
                  zones) as (more & Hmore & _).
      assert (errs = (errs ++ [Invalid (PIndex fldPath (idxMap !!! id))
                                 (VString id)
                                 (typ +:+ " subnet " +:+ c +:+
                                  " is also in zone " +:+ Zone (subnets !!! id))])
                     ++ more) as Habs
        by (etrans; [symmetry; exact Hfold|exact Hmore]).
      apply (f_equal length) in Habs. rewrite !length_app in Habs.
      simpl in Habs. lia.
    + rewrite (validateDuplicateSubnetZones_step_None _ _ _ _ _ _ _ Hz)
        in Hfold.
      destruct (IH _ Hfold) as [Hfree Hinj].
      assert (∀ j, j ∈ keys →
                Zone (subnets !!! j) ≠ Zone (subnets !!! id)
                ∧ zones !! Zone (subnets !!! j) = None) as Hrest.
      { intros j Hj. specialize (Hfree j Hj).
        destruct (decide (Zone (subnets !!! id) = Zone (subnets !!! j)))
          as [Heq|Hne].
        - rewrite <-Heq, lookup_insert_eq in Hfree. done.
        - rewrite lookup_insert_ne in Hfree by done. split; [congruence|done]. }
      split.
      * intros j [->|Hj]%elem_of_cons; [done|]. by apply Hrest.
      * intros i j [->|Hi]%elem_of_cons [->|Hj]%elem_of_cons Heq;
          [done| | |by apply Hinj].
        -- destruct (Hrest j Hj) as [Hne _]. congruence.
        -- destruct (Hrest i Hi) as [Hne _]. congruence.
Qed.

(** A check that reports nothing has met no zone twice. *)
Lemma validateDuplicateSubnetZones_nil_inv fldPath order subnets idxMap typ :
  ranges subnets order →
  validateDuplicateSubnetZones fldPath order subnets idxMap typ = [] →
  zones_distinct subnets.
Proof.
  intros Hr.
  unfold validateDuplicateSubnetZones. rewrite foldl_snoc_keys. simpl.
  intros Hnil.
  apply validateDuplicateSubnetZones_fold_nil_inv in Hnil as [_ Hinj].
  assert (sort_Strings order ≡ₚ order) as Hp
    by (unfold sort_Strings; apply merge_sort_Permutation).
  intros i j si sj Hi Hj Hz. apply Hinj.
  - rewrite Hp. apply (ranges_elem_of _ _ _ Hr). by exists si.
  - rewrite Hp. apply (ranges_elem_of _ _ _ Hr). by exists sj.
  - by rewrite (lookup_total_Some _ _ _ Hi), (lookup_total_Some _ _ _ Hj).
Qed.

(** X5. The duplicate-zone check reports nothing exactly when the zones of
    the tier are pairwise distinct. *)
Theorem validateDuplicateSubnetZones_nil_iff fldPath order subnets idxMap typ :
  ranges subnets order →
  validateDuplicateSubnetZones fldPath order subnets idxMap typ = []
  ↔ zones_distinct subnets.
Proof.
  intros Hr. split.
  - by apply validateDuplicateSubnetZones_nil_inv.
  - by apply validateDuplicateSubnetZones_nil.
Qed.

End duplicate_counts.

Section duplicate_attribution.
Context `{GoLib}.
Implicit Types (subnets : gmap string Subnet) (idxMap : gmap string nat).
Implicit Types (fldPath : Path) (zones : gmap string string).

(** The walk over the sorted keys [pre ++ rest], seen when [pre] is done:
    every claimed zone is held by the least key of that zone. *)
Lemma validateDuplicateSubnetZones_fold_least fldPath subnets idxMap typ
    pre rest errs zones e :
  StronglySorted String.le (pre ++ rest) →
  NoDup (pre ++ rest) →
  (∀ z c, zones !! z = Some c → c ∈ pre ∧ Zone (subnets !!! c) = z) →
  (∀ j, j ∈ pre → is_Some (zones !! Zone (subnets !!! j))) →
  (∀ z c, zones !! z = Some c →
          ∀ j, j ∈ pre ++ rest → Zone (subnets !!! j) = z → String.le c j) →
  e ∈ (foldl (validateDuplicateSubnetZones_step fldPath subnets idxMap typ)
             (errs, zones) rest).1 →
  e ∈ errs
  ∨ ∃ id c,
      id ∈ rest ∧ c ∈ pre ++ rest ∧ c ≠ id
      ∧ Zone (subnets !!! c) = Zone (subnets !!! id)
      ∧ (∀ j, j ∈ pre ++ rest →
              Zone (subnets !!! j) = Zone (subnets !!! id) → String.le c j)
      ∧ e = Invalid (PIndex fldPath (idxMap !!! id)) (VString id)
              (typ +:+ " subnet " +:+ c +:+ " is also in zone "
               +:+ Zone (subnets !!! id)).
Proof.
  revert pre errs zones.
  induction rest as [|id rest IH]; intros pre errs zones Hs Hnd I1 I2 I3 He.
  - by left.
  - cbn [foldl] in He.
    assert (pre ++ id :: rest = (pre ++ [id]) ++ rest) as Hassoc
      by (by rewrite <-app_assoc).
    destruct (zones !! Zone (subnets !!! id)) as [c|] eqn:Hz.
    + rewrite (validateDuplicateSubnetZones_step_Some _ _ _ _ _ _ _ _ Hz) in He.
      destruct (I1 _ _ Hz) as [Hc Hzc].
      apply (IH (pre ++ [id])) in He as [He|(id' & c' & Hid' & Hc' & ?)].
      * apply elem_of_app in He as [He|He]; [by left|].
        apply list_elem_of_singleton in He as ->. right.
        exists id, c. split; [by left|]. split; [apply elem_of_app; by left|].
        split.
        { intros ->. apply NoDup_app in Hnd as (_ & Hdis & _).
          apply (Hdis id Hc). by left. }
        split; [done|]. split; [|done].
        intros j Hj Hzj. by apply (I3 _ _ Hz).
      * right. exists id', c'. split; [by right|].
        rewrite Hassoc. done.
      * by rewrite <-Hassoc.
      * by rewrite <-Hassoc.
      * intros z c' Hz'. destruct (I1 _ _ Hz'). split; [|done].
        apply elem_of_app. by left.
      * intros j [Hj|Hj]%elem_of_app; [by apply I2|].
        apply list_elem_of_singleton in Hj as ->. by exists c.
      * intros z c' Hz' j Hj. rewrite <-Hassoc in Hj. by apply (I3 _ _ Hz').
    + rewrite (validateDuplicateSubnetZones_step_None _ _ _ _ _ _ _ Hz) in He.
      apply (IH (pre ++ [id])) in He as [He|(id' & c' & Hid' & Hc' & ?)].
      * by left.
      * right. exists id', c'. split; [by right|].
        rewrite Hassoc. done.
      * by rewrite <-Hassoc.
      * by rewrite <-Hassoc.
      * intros z c' Hz'.
        destruct (decide (Zone (subnets !!! id) = z)) as [<-|Hne].
        -- rewrite lookup_insert_eq in Hz'. injection Hz' as <-.
           split; [|done]. apply elem_of_app. right. by left.
        -- rewrite lookup_insert_ne in Hz' by done.
           destruct (I1 _ _ Hz'). split; [|done]. apply elem_of_app. by left.
      * intros j [Hj|Hj]%elem_of_app.
        -- destruct (decide (Zone (subnets !!! id) = Zone (subnets !!! j)))
             as [<-|Hne].
           ++ rewrite lookup_insert_eq. by eexists.
           ++ rewrite lookup_insert_ne by done. by apply I2.
        -- apply list_elem_of_singleton in Hj as ->.
           rewrite lookup_insert_eq. by eexists.
      * intros z c' Hz' j Hj Hzj. rewrite <-Hassoc in Hj.
        destruct (decide (Zone (subnets !!! id) = z)) as [<-|Hne].
        -- rewrite lookup_insert_eq in Hz'. injection Hz' as <-.
           apply elem_of_app in Hj as [Hj|[->|Hj]%elem_of_cons].
           ++ destruct (I2 j Hj) as [c' Hc']. rewrite Hzj, Hz in Hc'. done.
           ++ done.
           ++ eapply (StronglySorted_app_1_elem_of String.le (pre ++ [id]) rest);
                [by rewrite <-Hassoc| |done].
              apply elem_of_app. right. by left.
        -- rewrite lookup_insert_ne in Hz' by done. by apply (I3 _ _ Hz').
Qed.

(** X6. Whom the duplicate-zone check names. Every diagnostic is filed
    against a subnet of the tier and names, as the holder of its zone,
    another subnet of the tier in the same zone: the one whose id sorts
    first among the subnets of that zone. *)
Theorem validateDuplicateSubnetZones_attribution
    fldPath order subnets idxMap typ e :
  ranges subnets order →
  e ∈ validateDuplicateSubnetZones fldPath order subnets idxMap typ →
  ∃ id c sid sc,
    subnets !! id = Some sid ∧ subnets !! c = Some sc
    ∧ c ≠ id ∧ Zone sc = Zone sid
    ∧ (∀ j sj, subnets !! j = Some sj → Zone sj = Zone sid → String.le c j)
    ∧ e = Invalid (PIndex fldPath (idxMap !!! id)) (VString id)
            (typ +:+ " subnet " +:+ c +:+ " is also in zone " +:+ Zone sid).
Proof.
  intros Hr. unfold validateDuplicateSubnetZones.
  rewrite foldl_snoc_keys. simpl. intros He.
  assert (sort_Strings order ≡ₚ order) as Hp
    by (unfold sort_Strings; apply merge_sort_Permutation).
  apply (validateDuplicateSubnetZones_fold_least _ _ _ _ []) in He
    as [He|(id & c & Hid & Hc & Hne & Hz & Hleast & ->)].
  - by apply elem_of_nil in He.
  - simpl in Hc, Hleast. rewrite Hp in Hid, Hc.
    apply (ranges_elem_of _ _ _ Hr) in Hid as [sid Hsid].
    apply (ranges_elem_of _ _ _ Hr) in Hc as [sc Hsc].
    rewrite (lookup_total_Some _ _ _ Hsid) in *.
    rewrite (lookup_total_Some _ _ _ Hsc) in Hz.
    exists id, c, sid, sc. repeat (split; [done|]). split; [|done].
    intros j sj Hsj Hzj. apply Hleast.
    + rewrite Hp. apply (ranges_elem_of _ _ _ Hr). by exists sj.
    + by rewrite (lookup_total_Some _ _ _ Hsj).
  - simpl. unfold sort_Strings. apply StronglySorted_merge_sort; apply _.
  - simpl. rewrite Hp. by eapply ranges_NoDup.
  - intros z c Hz. by rewrite lookup_empty in Hz.
  - by intros j ?%elem_of_nil.
  - intros z c Hz. by rewrite lookup_empty in Hz.
Qed.

End duplicate_attribution.

Section duplicate_pair.
Context `{GoLib}.
Implicit Types (subnets : gmap string Subnet) (idxMap : gmap string nat).
Implicit Types (fldPath : Path) (zones : gmap string string).

(** The walk over keys of pairwise distinct, unclaimed zones collects
    nothing and leaves every zone it met claimed by its key. *)
Lemma validateDuplicateSubnetZones_fold_claims fldPath subnets idxMap typ
    keys errs zones :
  NoDup keys →
  (∀ i j, i ∈ keys → j ∈ keys →
          Zone (subnets !!! i) = Zone (subnets !!! j) → i = j) →
  (∀ id, id ∈ keys → zones !! Zone (subnets !!! id) = None) →
  ∃ zones',
    foldl (validateDuplicateSubnetZones_step fldPath subnets idxMap typ)
          (errs, zones) keys = (errs, zones')
    ∧ (∀ id, id ∈ keys → zones' !! Zone (subnets !!! id) = Some id)
    ∧ (∀ z, (∀ id, id ∈ keys → Zone (subnets !!! id) ≠ z) →
            zones' !! z = zones !! z).
Proof.
  revert zones. induction keys as [|id keys IH]; intros zones Hnd Hinj Hfree.
  - exists zones. split; [done|]. split; [by intros ? ?%elem_of_nil|done].
  - cbn [foldl].
    rewrite validateDuplicateSubnetZones_step_None by (apply Hfree; by left).
    apply NoDup_cons in Hnd as [Hnotin Hnd].
    destruct (IH (<[Zone (subnets !!! id) := id]> zones))
      as (zones' & Hfold & Hclaimed & Hother).
    + done.
    + intros i j Hi Hj. apply Hinj; by right.
    + intros j Hj. rewrite lookup_insert_ne; [apply Hfree; by right|].
      intros Heq. assert (id = j) as -> by (apply Hinj; [by left|by right|done]).
      done.
    + exists zones'. split; [done|]. split.
      * intros j [->|Hj]%elem_of_cons; [|by apply Hclaimed].
        rewrite Hother; [apply lookup_insert_eq|].
        intros i Hi Heq.
        assert (i = id) as -> by (apply Hinj; [by right|by left|done]). done.
      * intros z Hz. rewrite Hother; [|intros i Hi; apply Hz; by right].
        rewrite lookup_insert_ne; [done|]. apply Hz. by left.
Qed.

(** C4. In a tier, of any size, in which exactly two subnets share a zone
    (no other two subnets of the tier are in one zone), whatever the order
    in which the map hands the subnets over, the check reports exactly one
    diagnostic: it is filed against the id of the two that sorts last, and
    its message names the id that sorts first as the holder of the zone. *)
Theorem validateDuplicateSubnetZones_two fldPath order subnets idxMap typ
    id1 id2 s1 s2 :
  ranges subnets order →
  subnets !! id1 = Some s1 → subnets !! id2 = Some s2 →
  id1 ≠ id2 → Zone s1 = Zone s2 →
  (∀ i j si sj, subnets !! i = Some si → subnets !! j = Some sj →
                Zone si = Zone sj →
                i = j ∨ (i = id1 ∧ j = id2) ∨ (i = id2 ∧ j = id1)) →
  let lo := if decide (String.le id1 id2) then id1 else id2 in
  let hi := if decide (String.le id1 id2) then id2 else id1 in
  validateDuplicateSubnetZones fldPath order subnets idxMap typ =
  [Invalid (PIndex fldPath (idxMap !!! hi)) (VString hi)
     (typ +:+ " subnet " +:+ lo +:+ " is also in zone " +:+ Zone s1)].
Proof.
  intros Hr H1 H2 Hne Hz Honly lo hi.
  assert (∀ id s, subnets !! id = Some s → id ∈ sort_Strings order) as Hkeys.
  { intros id s Hs. unfold sort_Strings. rewrite merge_sort_Permutation.
    apply (ranges_elem_of _ _ _ Hr). by exists s. }
  assert (∀ id, id ∈ sort_Strings order →
            ∃ s, subnets !! id = Some s ∧ subnets !!! id = s) as Hlive.
  { intros id Hid. unfold sort_Strings in Hid.
    rewrite merge_sort_Permutation in Hid.
    apply (ranges_elem_of _ _ _ Hr) in Hid as [s Hs].
    exists s. split; [done|by apply lookup_total_Some]. }
  assert (lo ≠ hi ∧ String.le lo hi
          ∧ Zone (subnets !!! lo) = Zone s1 ∧ Zone (subnets !!! hi) = Zone s1
          ∧ lo ∈ sort_Strings order ∧ hi ∈ sort_Strings order
          ∧ ((lo = id1 ∧ hi = id2) ∨ (lo = id2 ∧ hi = id1)))
    as (Hlh & Hle & Hzlo & Hzhi & Hlo & Hhi & Hcase).
  { subst lo hi. destruct (decide (String.le id1 id2)) as [Hd|Hd].
    - split_and!; [done|done| | |by eapply Hkeys|by eapply Hkeys|by left].
      + by rewrite (lookup_total_Some _ _ _ H1).
      + by rewrite (lookup_total_Some _ _ _ H2).
    - split_and!; [done| | | |by eapply Hkeys|by eapply Hkeys|by right].
      + by destruct (total String.le id1 id2).
      + by rewrite (lookup_total_Some _ _ _ H2).
      + by rewrite (lookup_total_Some _ _ _ H1). }
  clearbody lo hi.
  assert (∀ i j, i ∈ sort_Strings order → j ∈ sort_Strings order →
            Zone (subnets !!! i) = Zone (subnets !!! j) →
            i = j ∨ (i = lo ∧ j = hi) ∨ (i = hi ∧ j = lo)) as Hpair.
  { intros i j Hi Hj Hzz.
    destruct (Hlive i Hi) as (si & Hsi & Hti).
    destruct (Hlive j Hj) as (sj & Hsj & Htj).
    rewrite Hti, Htj in Hzz.
    destruct (Honly i j si sj Hsi Hsj Hzz) as [?|[[-> ->]|[-> ->]]];
      [by left| |]; destruct Hcase as [[-> ->]|[-> ->]]; auto. }
  assert (NoDup (sort_Strings order)) as Hnd.
  { unfold sort_Strings. rewrite merge_sort_Permutation. by eapply ranges_NoDup. }
  assert (StronglySorted String.le (sort_Strings order)) as Hs
    by (unfold sort_Strings; apply StronglySorted_merge_sort; apply _).
  unfold validateDuplicateSubnetZones. rewrite foldl_snoc_keys. simpl.
  destruct (list_elem_of_split _ _ Hhi) as (A & B & HAB).
  rewrite HAB in Hlo, Hpair, Hnd, Hs |- *. clear HAB Hkeys Hlive Hhi.
  apply NoDup_app in Hnd as (HndA & Hdis & [HhiB HndB]%NoDup_cons).
  assert (hi ∉ A) as HhiA.
  { intros Hin. apply (Hdis hi Hin). by left. }
  assert (lo ∈ A) as HloA.
  { apply elem_of_app in Hlo as [?|[?|HloB]%elem_of_cons]; [done|done|].
    destruct Hlh. apply (anti_symm String.le); [done|].
    apply (StronglySorted_app_1_elem_of String.le (A ++ [hi]) B);
      [by rewrite <-app_assoc|apply elem_of_app; right; by left|done]. }
  rewrite foldl_app. cbn [foldl].
  destruct (validateDuplicateSubnetZones_fold_claims fldPath subnets idxMap typ
              A [] ∅) as (zones & HfoldA & Hclaimed & Hother).
  { done. }
  { intros i j Hi Hj Hzz.
    destruct (Hpair i j) as [?|[[_ ->]|[-> _]]];
      [apply elem_of_app; by left|apply elem_of_app; by left|done|done|done
      |done]. }
  { intros id _. apply lookup_empty. }
  etrans.
  { apply (f_equal (λ st, (foldl (validateDuplicateSubnetZones_step
                                    fldPath subnets idxMap typ)
                                 (validateDuplicateSubnetZones_step
                                    fldPath subnets idxMap typ st hi) B).1)).
    exact HfoldA. }
  cbv beta.
  rewrite (validateDuplicateSubnetZones_step_Some _ _ _ _ _ _ _ lo)
    by (rewrite Hzhi, <-Hzlo; by apply Hclaimed).
  etrans; [apply validateDuplicateSubnetZones_fold_distinct|].
  - done.
  - intros i j Hi Hj Hzz.
    destruct (Hpair i j) as [?|[[_ ->]|[-> _]]];
      [apply elem_of_app; right; by right|apply elem_of_app; right; by right
      |done|done|done|done].
  - intros id Hid. rewrite Hother; [apply lookup_empty|].
    intros a Ha Hzz.
    destruct (Hpair a id) as [->|[[_ ->]|[-> _]]];
      [apply elem_of_app; by left|apply elem_of_app; right; by right|done
      | | |done].
    + apply (Hdis id Ha). by right.
    + done.
  - by rewrite app_nil_l, Hzhi.
Qed.

End duplicate_pair.

Lemma validateDuplicateSubnetZones_two_witness :
  validateDuplicateSubnetZones subnets_path
    ["subnet-c"; "subnet-b"; "subnet-a"] zone_sharing_tier
    (subnetsIdx ["subnet-c"; "subnet-b"; "subnet-a"] zone_sharing_tier)
    "private"
  = [Invalid (PIndex subnets_path 1) (VString "subnet-b")
       "private subnet subnet-a is also in zone us-east-1a"].
Proof.
  apply (validateDuplicateSubnetZones_two subnets_path
           ["subnet-c"; "subnet-b"; "subnet-a"] zone_sharing_tier
           (subnetsIdx ["subnet-c"; "subnet-b"; "subnet-a"] zone_sharing_tier)
           "private" "subnet-a" "subnet-b"
           (mkSubnet "us-east-1a" "10.0.0.0/24")
           (mkSubnet "us-east-1a" "10.0.1.0/24")).
  - eapply ranges_perm.
    + apply ranges_insert; [done|].
      apply ranges_insert; [done|apply ranges_singleton].
    + apply (bool_decide_unpack _). vm_compute. exact I.
  - reflexivity.
  - reflexivity.
  - discriminate.
  - reflexivity.
  - intros i j si sj Hi Hj Hzz. unfold zone_sharing_tier in Hi, Hj.
    rewrite !lookup_insert_Some, lookup_singleton_Some in Hi, Hj.
    destruct Hi as [[<- <-]|[? [[<- <-]|[? [<- <-]]]]];
      destruct Hj as [[<- <-]|[? [[<- <-]|[? [<- <-]]]]];
      simpl in Hzz; try discriminate; auto.
Defined.

(** ** The two checks of [validateSubnets] on the tiers as a whole *)

Section tiers.
Context `{GoLib}.

(** X7. The coverage check reports at most once, and only under the
    external publishing strategy: it reports exactly when some zone of a
    private subnet is the zone of no public subnet, and its message lists
    the zones that lack a public subnet. Under any other strategy
    [validateSubnets] returns no diagnostic of the coverage check. *)
Theorem validateSubnets_coverage
    ro meta fldPath subnets networking publish priv pub :
  PrivateSubnets meta = Found priv → PublicSubnets meta = Found pub →
  ranges_ok ro priv pub →
  List.filter is_coverage_gap
    (validateSubnets ro meta fldPath subnets networking publish)
  = if decide (publish = ExternalPublishingStrategy
               ∧ ¬ tier_zones priv ⊆ tier_zones pub)
    then [Invalid fldPath (VStrings subnets)
            ("No public subnet provided for zones " +:+
             fmt_slice (set_List (tier_zones priv ∖ tier_zones pub)))]
    else [].
Proof.
  intros Hpriv Hpub (R1 & R2 & R3 & R4 & R5 & R6).
  rewrite (validateSubnets_Found _ _ _ _ _ _ _ _ Hpriv Hpub).
  rewrite (zonesOf_ranges _ _ R5), (zonesOf_ranges _ _ R6).
  rewrite !List.filter_app.
  rewrite (filter_none _ (validateSubnetCIDR _ (cidr_private ro) _ _ _))
    by apply validateSubnetCIDR_no_gap.
  rewrite (filter_none _ (validateSubnetCIDR _ (cidr_public ro) _ _ _))
    by apply validateSubnetCIDR_no_gap.
  rewrite (filter_none _ (validateDuplicateSubnetZones _ (dup_private ro) _ _ _))
    by (intros e; apply validateDuplicateSubnetZones_no_gap; by left).
  rewrite (filter_none _ (validateDuplicateSubnetZones _ (dup_public ro) _ _ _))
    by (intros e; apply validateDuplicateSubnetZones_no_gap; by right).
  assert (List.filter is_coverage_gap
            (if decide (size priv = 0%nat)
             then [Invalid fldPath (VStrings subnets) "No private subnets found"]
             else []) = []) as ->
    by (by destruct (decide _)).
  simpl.
  destruct (decide (publish = ExternalPublishingStrategy
                    ∧ ¬ tier_zones priv ⊆ tier_zones pub)) as [[-> Hgap]|Hno].
  - rewrite bool_decide_eq_true_2 by done.
    rewrite bool_decide_eq_false_2 by done. reflexivity.
  - destruct (bool_decide_reflect (publish = ExternalPublishingStrategy));
      [|done].
    destruct (bool_decide_reflect (tier_zones priv ⊆ tier_zones pub));
      [done|]. destruct Hno. done.
Qed.

(** X8. Once both lookups have succeeded, [validateSubnets] reports that no
    private subnet was found exactly when the live private set is empty. *)
Theorem validateSubnets_no_private
    ro meta fldPath subnets networking publish priv pub :
  PrivateSubnets meta = Found priv → PublicSubnets meta = Found pub →
  ranges_ok ro priv pub →
  Invalid fldPath (VStrings subnets) "No private subnets found"
  ∈ validateSubnets ro meta fldPath subnets networking publish
  ↔ priv = ∅.
Proof.
  intros Hpriv Hpub Hr. split.
  - intros He.
    destruct Hr as (R1 & R2 & R3 & R4 & R5 & R6).
    rewrite (validateSubnets_Found _ _ _ _ _ _ _ _ Hpriv Hpub) in He.
    rewrite !elem_of_app in He.
    destruct He as [He|[He|[He|[He|[He|He]]]]].
    + destruct (decide (size priv = 0%nat)) as [Hs|]; [|by apply elem_of_nil in He].
      by apply map_size_empty_iff.
    + rewrite validateSubnetCIDR_bind in He.
      apply list_elem_of_bind in He as (id & He & _).
      by apply validateSubnetCIDR_step_value in He as (Hv & _).
    + rewrite validateSubnetCIDR_bind in He.
      apply list_elem_of_bind in He as (id & He & _).
      by apply validateSubnetCIDR_step_value in He as (Hv & _).
    + by apply validateDuplicateSubnetZones_elem in He as (id & c & _ & ?).
    + by apply validateDuplicateSubnetZones_elem in He as (id & c & _ & ?).
    + destruct (_ && _); [|by apply elem_of_nil in He].
      apply list_elem_of_singleton in He. by injection He.
  - intros ->. rewrite (validateSubnets_Found _ _ _ _ _ _ _ _ Hpriv Hpub).
    rewrite decide_True by apply map_size_empty.
    apply elem_of_app. left. by left.
Qed.

End tiers.

(** ** The machine pools that pass *)

Section pools_pass.
Context `{GoLib}.

Lemma validateMachinePool_type_nil meta fldPath pool req :
  validateMachinePool_type meta fldPath pool req [] = [] ↔ type_fits meta pool req.
Proof.
  unfold validateMachinePool_type, type_fits.
  destruct (decide (mp_InstanceType pool ≠ "")) as [Hty|Hty].
  - destruct (InstanceTypes meta) as [catalog|err].
    + destruct (catalog !! mp_InstanceType pool) as [typeMeta|] eqn:Hc.
      * destruct (decide (DefaultVCpus typeMeta < minimumVCpus req));
          destruct (decide (MemInMiB typeMeta < minimumMemory req)); simpl.
        -- split; [done|]. intros [?|(? & ? & [= <-] & ? & ? & ?)]; [done|].
           simplify_eq. lia.
        -- split; [done|]. intros [?|(? & ? & [= <-] & ? & ? & ?)]; [done|].
           simplify_eq. lia.
        -- split; [done|]. intros [?|(? & ? & [= <-] & ? & ? & ?)]; [done|].
           simplify_eq. lia.
        -- split; [|done]. intros _. right. exists catalog, typeMeta.
           repeat split; [done|lia|lia].
      * split; [done|]. intros [?|(? & ? & [= <-] & ? & _)]; [done|].
        congruence.
    + split; [done|]. by intros [?|(? & ? & ? & _)].
  - split; [|done]. intros _. left. by apply dec_stable.
Qed.

Lemma validateMachinePool_type_nil_app meta fldPath pool req allErrs :
  validateMachinePool_type meta fldPath pool req allErrs = [] ↔
  allErrs = [] ∧ type_fits meta pool req.
Proof.
  rewrite validateMachinePool_type_app, <-validateMachinePool_type_nil.
  split; [by intros [-> ->]%app_eq_nil|by intros [-> ->]].
Qed.

Lemma zones_diff_empty (zones : list string) (availableZones : gset string) :
  size (list_to_set zones ∖ availableZones : gset string) = 0%nat ↔
  ∀ z, z ∈ zones → z ∈ availableZones.
Proof.
  rewrite size_empty_iff. split.
  - intros Hd z Hz. destruct (decide (z ∈ availableZones)); [done|].
    assert (z ∈ (list_to_set zones ∖ availableZones : gset string)) as Hin
      by (apply elem_of_difference; split; [by apply elem_of_list_to_set|done]).
    rewrite Hd in Hin. by apply not_elem_of_empty in Hin.
  - intros Hall. apply set_equiv. intros z.
    rewrite elem_of_difference, elem_of_list_to_set. split.
    + intros [Hz Hn]. destruct Hn. by apply Hall.
    + by intros ?%not_elem_of_empty.
Qed.

(** A pool that fits gets no diagnostic. *)
Lemma validateMachinePool_fits order meta fldPath platform pool req :
  (∀ priv, PrivateSubnets meta = Found priv → ranges priv order) →
  pool_fits meta platform pool req →
  validateMachinePool order meta fldPath platform pool req = [].
Proof.
  intros Hord [Hz Hty]. unfold validateMachinePool.
  destruct (decide (0 < length (mp_Zones pool))%nat) as [Hlen|Hlen];
    [|by apply validateMachinePool_type_nil].
  destruct Hz as [Hnil|[[Hsub (priv & Hpriv & Hall)]|[Hsub (zs & Hzs & Hall)]]].
  - rewrite Hnil in Hlen. simpl in Hlen. lia.
  - rewrite decide_True by (destruct (pf_Subnets platform); simpl; [done|lia]).
    rewrite Hpriv, (zonesOf_ranges _ _ (Hord _ Hpriv)).
    rewrite decide_False; [by apply validateMachinePool_type_nil|].
    assert (size (list_to_set (mp_Zones pool) ∖ tier_zones priv : gset string)
            = 0%nat) as -> by (by apply zones_diff_empty).
    lia.
  - rewrite decide_False by (rewrite Hsub; simpl; lia).
    rewrite Hzs.
    rewrite decide_False; [by apply validateMachinePool_type_nil|].
    assert (size (list_to_set (mp_Zones pool) ∖ (list_to_set zs ∪ ∅)
                  : gset string) = 0%nat) as ->.
    { apply zones_diff_empty. intros z Hzin.
      apply elem_of_union. left. apply elem_of_list_to_set. by apply Hall. }
    lia.
Qed.

(** A pool that raises no diagnostic fits. *)
Lemma validateMachinePool_nil_inv order meta fldPath platform pool req :
  (∀ priv, PrivateSubnets meta = Found priv → ranges priv order) →
  validateMachinePool order meta fldPath platform pool req = [] →
  pool_fits meta platform pool req.
Proof.
  intros Hord.
  unfold validateMachinePool, pool_fits, zones_available.
  destruct (decide (0 < length (mp_Zones pool))%nat) as [Hlen|Hlen].
  - destruct (decide (0 < length (pf_Subnets platform))%nat) as [Hsub|Hsub].
    + destruct (PrivateSubnets meta) as [priv|err] eqn:Hpriv; [|done].
      rewrite (zonesOf_ranges _ _ (Hord _ eq_refl)).
      intros [Hd Hty]%validateMachinePool_type_nil_app. split; [|done].
      right. left. split; [by destruct (pf_Subnets platform); [simpl in Hsub; lia|]|].
      exists priv. split; [done|]. apply zones_diff_empty.
      destruct (decide (0 < size _)%nat); [done|lia].
    + destruct (AvailabilityZones meta) as [zs|err] eqn:Hzs; [|done].
      intros [Hd Hty]%validateMachinePool_type_nil_app. split; [|done].
      right. right.
      split; [destruct (pf_Subnets platform); [done|simpl in Hsub; lia]|].
      exists zs. split; [done|]. intros z Hz.
      assert (z ∈ (list_to_set zs ∪ ∅ : gset string)) as Hin.
      { revert z Hz. apply zones_diff_empty.
        destruct (decide (0 < size _)%nat); [done|lia]. }
      apply elem_of_union in Hin as [Hin|Hin]; [|by apply not_elem_of_empty in Hin].
      by apply elem_of_list_to_set in Hin.
  - intros Hty%validateMachinePool_type_nil. split; [|done].
    left. destruct (mp_Zones pool); [done|simpl in Hlen; lia].
Qed.

(** X9. [validateMachinePool] returns no diagnostic exactly for a pool that
    fits: its declared zones are all available (zones of private subnets
    when the platform declares subnets, zones of the region otherwise), and
    its declared instance type is in the catalog with at least the vCPUs and
    the memory that the role requires. *)
Theorem validateMachinePool_nil_iff order meta fldPath platform pool req :
  (∀ priv, PrivateSubnets meta = Found priv → ranges priv order) →
  validateMachinePool order meta fldPath platform pool req = []
  ↔ pool_fits meta platform pool req.
Proof.
  intros Hord. split.
  - by apply validateMachinePool_nil_inv.
  - by apply validateMachinePool_fits.
Qed.

End pools_pass.

(** ** The service endpoints *)

Section endpoints.
Context `{GoLib}.

(** The first loop of [validateServiceEndpoints] reports override by
    override. *)
Lemma validateServiceEndpoints_fold net fldPath ps errs ec2Endpoint :
  (foldl (validateServiceEndpoints_step net fldPath) (errs, ec2Endpoint) ps).1
  = errs ++ (ps ≫= url_diagnostic net fldPath).
Proof.
  revert errs ec2Endpoint. induction ps as [|p ps IH]; intros errs ec2Endpoint.
  - simpl. by rewrite app_nil_r.
  - cbn [foldl]. rewrite bind_cons.
    unfold validateServiceEndpoints_step at 2, url_diagnostic at 1.
    destruct (validateEndpointAccessibility net (se_URL p.2)) as [err|].
    + cbn [fst snd]. etrans; [apply IH|]. by rewrite <-app_assoc.
    + destruct (decide (se_Name p.2 = ec2_ServiceName)); cbn [fst snd];
        (etrans; [apply IH|done]).
Qed.

(** The diagnostics of the overrides come first, whatever the region. *)
Lemma validateServiceEndpoints_urls net fldPath region services :
  ∃ more,
    validateServiceEndpoints net fldPath region services =
    (imap pair services ≫= url_diagnostic net fldPath) ++ more
    ∧ (is_Some (PartitionForRegion region) → PartitionHasRegion region = true →
       more = []).
Proof.
  unfold validateServiceEndpoints. cbv zeta.
  set (st := foldl _ _ _).
  assert (st.1 = imap pair services ≫= url_diagnostic net fldPath) as Hst
    by (etrans; [apply validateServiceEndpoints_fold|done]).
  clearbody st. destruct st as [allErrs ec2Endpoint]. simpl in Hst.
  subst allErrs. cbn [fst snd].
  destruct (PartitionForRegion region) as [partition|].
  - destruct (PartitionHasRegion region); simpl.
    + exists []. by rewrite app_nil_r.
    + destruct (bool_decide _).
      * destruct (validateRegion net region) as [err|].
        -- eexists. split; [done|]. done.
        -- exists []. by rewrite app_nil_r.
      * exists []. by rewrite app_nil_r.
  - destruct (decide _).
    + eexists. split; [done|]. by intros [? ?].
    + exists []. rewrite app_nil_r. split; [done|]. by intros [? ?].
Qed.

Lemma url_diagnostics_nil net fldPath services :
  imap pair services ≫= url_diagnostic net fldPath = [] ↔
  Forall (accessible net) services.
Proof.
  rewrite Forall_lookup. split.
  - intros Hnil i s Hi. unfold accessible.
    destruct (validateEndpointAccessibility net (se_URL s)) as [err|] eqn:Hacc;
      [|done].
    assert (Invalid (Child (PIndex fldPath i) ["url"]) (VString (se_URL s)) err
            ∈ imap pair services ≫= url_diagnostic net fldPath) as Hin.
    { apply list_elem_of_bind. exists (i, s). split.
      - unfold url_diagnostic. simpl. rewrite Hacc. by left.
      - apply list_elem_of_lookup. exists i.
        by rewrite list_lookup_imap, Hi. }
    rewrite Hnil in Hin. by apply elem_of_nil in Hin.
  - intros Hall.
    destruct (imap pair services ≫= url_diagnostic net fldPath) as [|e l] eqn:Hb;
      [done|].
    assert (e ∈ imap pair services ≫= url_diagnostic net fldPath) as Hin
      by (rewrite Hb; by left).
    apply list_elem_of_bind in Hin as ([i s] & He & Hp).
    apply list_elem_of_lookup in Hp as [k Hk].
    rewrite list_lookup_imap in Hk.
    destruct (services !! k) as [s'|] eqn:Hs'; [|done].
    simpl in Hk. injection Hk as <- <-.
    unfold url_diagnostic in He. simpl in He.
    rewrite (Hall k s' Hs') in He. by apply elem_of_nil in He.
Qed.

(** X10. In a region that its partition lists, [validateServiceEndpoints]
    reports the overrides that fail the accessibility check and nothing
    else: one diagnostic for each, under the position of the override and
    its field url, with the URL as value and the error of the check as
    detail. *)
Theorem validateServiceEndpoints_listed_region
    net fldPath region services partition e :
  PartitionForRegion region = Some partition →
  PartitionHasRegion region = true →
  e ∈ validateServiceEndpoints net fldPath region services
  ↔ ∃ i service err,
      services !! i = Some service
      ∧ validateEndpointAccessibility net (se_URL service) = Some err
      ∧ e = Invalid (Child (PIndex fldPath i) ["url"])
              (VString (se_URL service)) err.
Proof.
  intros Hp Hr.
  destruct (validateServiceEndpoints_urls net fldPath region services)
    as (more & -> & Hmore).
  rewrite (Hmore (mk_is_Some _ _ Hp) Hr), app_nil_r, list_elem_of_bind.
  split.
  - intros ([i s] & He & Hin). apply list_elem_of_lookup in Hin as [k Hk].
    rewrite list_lookup_imap in Hk.
    destruct (services !! k) as [s'|] eqn:Hs'; [|done].
    simpl in Hk. injection Hk as <- <-.
    unfold url_diagnostic in He. simpl in He.
    destruct (validateEndpointAccessibility net (se_URL s')) as [err|] eqn:Hacc;
      [|by apply elem_of_nil in He].
    apply list_elem_of_singleton in He as ->. by exists k, s', err.
  - intros (i & s & err & Hi & Hacc & ->). exists (i, s). split.
    + unfold url_diagnostic. simpl. rewrite Hacc. by left.
    + apply list_elem_of_lookup. exists i. by rewrite list_lookup_imap, Hi.
Qed.

Lemma required_services_fold region services (l : list string) acc :
  ∃ more,
    foldl (λ (errs : list string) service,
             match EndpointFor region services service with
             | Some err =>
                 errs ++ ["failed to find endpoint for service " +:+
                          Quote service +:+ ": " +:+ err]
             | None => errs
             end) acc l = acc ++ more
    ∧ (more = [] ↔
       Forall (λ service, EndpointFor region services service = None) l).
Proof.
  revert acc. induction l as [|service l IH]; intros acc; simpl.
  - exists []. rewrite app_nil_r. split; [done|]. split; [by constructor|done].
  - destruct (EndpointFor region services service) as [err|] eqn:Hep.
    + destruct (IH (acc ++ ["failed to find endpoint for service " +:+
                            Quote service +:+ ": " +:+ err]))
        as (more & -> & _).
      eexists. split; [by rewrite <-app_assoc|].
      split; [done|]. intros Hall. apply Forall_cons in Hall as [Hn _].
      congruence.
    + destruct (IH acc) as (more & -> & Hiff). exists more. split; [done|].
      rewrite Hiff. split; [by constructor|]. by intros [_ ?]%Forall_cons.
Qed.

(** X11. In a region of no known partition, when every override passes the
    accessibility check, [validateServiceEndpoints] resolves each of the
    seven required services: it returns nothing when all resolve, and
    otherwise a single diagnostic for all the services that do not, filed
    under the service endpoints with the overrides as value. *)
Theorem validateServiceEndpoints_unknown_partition net fldPath region services :
  PartitionForRegion region = None →
  Forall (accessible net) services →
  (Forall (λ service, EndpointFor region services service = None)
          requiredServices
   ∧ validateServiceEndpoints net fldPath region services = [])
  ∨ (¬ Forall (λ service, EndpointFor region services service = None)
             requiredServices
     ∧ ∃ detail,
         validateServiceEndpoints net fldPath region services =
         [Invalid fldPath (VEndpoints services) detail]).
Proof.
  intros Hp Hacc. unfold validateServiceEndpoints. cbv zeta.
  set (st := foldl _ _ _).
  assert (st.1 = imap pair services ≫= url_diagnostic net fldPath) as Hst
    by (etrans; [apply validateServiceEndpoints_fold|done]).
  clearbody st. destruct st as [allErrs ec2Endpoint]. simpl in Hst.
  subst allErrs. cbn [fst snd].
  rewrite (proj2 (url_diagnostics_nil net fldPath services) Hacc), Hp.
  destruct (required_services_fold region services requiredServices [])
    as (more & -> & Hiff).
  simpl. destruct more as [|msg more].
  - left. split; [by apply Hiff|done].
  - right. split.
    + intros Hall. by apply Hiff in Hall.
    + simpl. by eexists.
Qed.

(** X12. Fail fast: as soon as one service-endpoint override fails the
    accessibility check, [validatePlatform] returns the diagnostics of the
    service endpoints alone; the subnets and the default machine pool are
    not validated and the inventory is not consulted. *)
Theorem validatePlatform_fail_fast
    sch net meta fldPath platform networking publish :
  ¬ Forall (accessible net) (pf_ServiceEndpoints platform) →
  validatePlatform sch net meta fldPath platform networking publish =
  validateServiceEndpoints net (Child fldPath ["serviceEndpoints"])
    (pf_Region platform) (pf_ServiceEndpoints platform).
Proof.
  intros Hbad. unfold validatePlatform. simpl.
  destruct (validateServiceEndpoints_urls net
              (Child fldPath ["serviceEndpoints"]) (pf_Region platform)
              (pf_ServiceEndpoints platform)) as (more & Heq & _).
  destruct (decide _) as [|Hlen]; [done|].
  destruct Hbad. eapply url_diagnostics_nil.
  destruct (validateServiceEndpoints _ _ _ _) as [|e l]; [|simpl in Hlen; lia].
  symmetry in Heq. by apply app_eq_nil in Heq as [? _].
Qed.

(** When every override is accessible, in a region that its partition
    lists, the service endpoints raise nothing. *)
Lemma validateServiceEndpoints_ok net fldPath region services :
  is_Some (PartitionForRegion region) → PartitionHasRegion region = true →
  Forall (accessible net) services →
  validateServiceEndpoints net fldPath region services = [].
Proof.
  intros Hp Hr Hacc.
  destruct (validateServiceEndpoints_urls net fldPath region services)
    as (more & -> & Hmore).
  rewrite (Hmore Hp Hr), app_nil_r. by apply url_diagnostics_nil.
Qed.

End endpoints.

(** ** Configurations that pass *)

Section accepting.
Context `{GoLib}.

Lemma validateSubnetCIDR_nil_inv fldPath order subnets idxMap networks :
  validateSubnetCIDR fldPath order subnets idxMap networks = [] →
  ∀ id, id ∈ order → cidr_inside networks (subnets !!! id).
Proof.
  rewrite validateSubnetCIDR_bind. intros Hnil id Hid.
  apply (validateSubnetCIDR_step_nil fldPath subnets idxMap).
  destruct (validateSubnetCIDR_step fldPath subnets idxMap networks [] id)
    as [|e l] eqn:Hs; [done|].
  assert (e ∈ order ≫= validateSubnetCIDR_step fldPath subnets idxMap networks [])
    as Hin.
  { apply list_elem_of_bind. exists id. split; [|done]. rewrite Hs. by left. }
  rewrite Hnil in Hin. by apply elem_of_nil in Hin.
Qed.

Lemma cidr_inside_ranges order (subnets : gmap string Subnet) networks :
  ranges subnets order →
  (∀ id, id ∈ order → cidr_inside networks (subnets !!! id))
  ↔ (∀ id s, subnets !! id = Some s → cidr_inside networks s).
Proof.
  intros Hr. split.
  - intros Hall id s Hs. rewrite <-(lookup_total_Some _ _ _ Hs). apply Hall.
    apply (ranges_elem_of _ _ _ Hr). by exists s.
  - intros Hall id Hid. apply (ranges_elem_of _ _ _ Hr) in Hid as [s Hs].
    rewrite (lookup_total_Some _ _ _ Hs). by eapply Hall.
Qed.

(** Subnets that fit raise no diagnostic. *)
Lemma validateSubnets_fit ro meta fldPath subnets networking publish :
  (∀ priv pub, PrivateSubnets meta = Found priv →
               PublicSubnets meta = Found pub → ranges_ok ro priv pub) →
  subnets_fit meta networking publish →
  validateSubnets ro meta fldPath subnets networking publish = [].
Proof.
  intros Hro (priv & pub & Hpriv & Hpub & Hsize & Hcp & Hcq & Hdp & Hdq & Hcov).
  destruct (Hro _ _ Hpriv Hpub) as (R1 & R2 & R3 & R4 & R5 & R6).
  rewrite (validateSubnets_Found _ _ _ _ _ _ _ _ Hpriv Hpub).
  rewrite decide_False by lia.
  rewrite (validateSubnetCIDR_nil _ (cidr_private ro))
    by (by apply (cidr_inside_ranges _ _ _ R1)).
  rewrite (validateSubnetCIDR_nil _ (cidr_public ro))
    by (by apply (cidr_inside_ranges _ _ _ R2)).
  rewrite (validateDuplicateSubnetZones_nil _ (dup_private ro)) by done.
  rewrite (validateDuplicateSubnetZones_nil _ (dup_public ro)) by done.
  rewrite (zonesOf_ranges _ _ R5), (zonesOf_ranges _ _ R6). simpl.
  destruct (bool_decide_reflect (publish = ExternalPublishingStrategy))
    as [Hext|Hext]; [|done].
  by rewrite (bool_decide_eq_true_2 _ (Hcov Hext)).
Qed.

(** Subnets that raise no diagnostic fit. *)
Lemma validateSubnets_nil_inv ro meta fldPath subnets networking publish :
  (∀ priv pub, PrivateSubnets meta = Found priv →
               PublicSubnets meta = Found pub → ranges_ok ro priv pub) →
  validateSubnets ro meta fldPath subnets networking publish = [] →
  subnets_fit meta networking publish.
Proof.
  intros Hro Hnil.
  destruct (PrivateSubnets meta) as [priv|err] eqn:Hpriv;
    [|unfold validateSubnets in Hnil; by rewrite Hpriv in Hnil].
  destruct (PublicSubnets meta) as [pub|err] eqn:Hpub.
  2:{ unfold validateSubnets in Hnil. rewrite Hpriv, Hpub in Hnil.
      simpl in Hnil. by destruct (decide (size priv = 0%nat)). }
  destruct (Hro _ _ eq_refl eq_refl) as (R1 & R2 & R3 & R4 & R5 & R6).
  rewrite (validateSubnets_Found _ _ _ _ _ _ _ _ Hpriv Hpub) in Hnil.
  rewrite (zonesOf_ranges _ _ R5), (zonesOf_ranges _ _ R6) in Hnil.
  apply app_eq_nil in Hnil as [Hsize Hnil].
  apply app_eq_nil in Hnil as [Hcp Hnil].
  apply app_eq_nil in Hnil as [Hcq Hnil].
  apply app_eq_nil in Hnil as [Hdp Hnil].
  apply app_eq_nil in Hnil as [Hdq Hcov].
  exists priv, pub. split_and!; [done|done| | | | | |].
  - destruct (decide (size priv = 0%nat)); [done|lia].
  - apply (cidr_inside_ranges _ _ _ R1). by eapply validateSubnetCIDR_nil_inv.
  - apply (cidr_inside_ranges _ _ _ R2). by eapply validateSubnetCIDR_nil_inv.
  - exact (validateDuplicateSubnetZones_nil_inv _ _ _ _ _ R3 Hdp).
  - exact (validateDuplicateSubnetZones_nil_inv _ _ _ _ _ R4 Hdq).
  - intros Hext. rewrite (bool_decide_eq_true_2 _ Hext) in Hcov.
    simpl in Hcov.
    destruct (bool_decide_reflect (tier_zones priv ⊆ tier_zones pub)); done.
Qed.

(** X13. [validateSubnets] returns no diagnostic exactly when the subnets
    fit: both lookups succeed, there is a private subnet, every CIDR parses
    to an address inside a machine network, the zones are pairwise distinct
    within each tier and, under the external strategy, every zone of a
    private subnet is the zone of a public one. The list of declared subnet
    ids plays no part. *)
Theorem validateSubnets_nil_iff ro meta fldPath subnets networking publish :
  (∀ priv pub, PrivateSubnets meta = Found priv →
               PublicSubnets meta = Found pub → ranges_ok ro priv pub) →
  validateSubnets ro meta fldPath subnets networking publish = []
  ↔ subnets_fit meta networking publish.
Proof.
  intros Hro. split.
  - by apply validateSubnets_nil_inv.
  - by apply validateSubnets_fit.
Qed.

(** Once a compute pool with replicas lacks an image, the loop of
    [validateAMI] never recovers. *)
Lemma validateAMI_step_false (l : list types_MachinePool) :
  foldl validateAMI_step false l = false.
Proof.
  induction l as [|c l IH]; simpl; [done|].
  replace (validateAMI_step false c) with false; [done|].
  unfold validateAMI_step. destruct (decide _); [done|].
  destruct (pool_AWS c) as [aws|]; [|done]. by destruct (decide _).
Qed.

Lemma validateAMI_step_true_inv (l : list types_MachinePool) :
  foldl validateAMI_step true l = true → Forall pool_has_AMI_or_no_replica l.
Proof.
  induction l as [|c l IH]; simpl; [by constructor|].
  destruct (validateAMI_step true c) eqn:Hc;
    [|by rewrite validateAMI_step_false].
  intros Hl. constructor; [|by apply IH].
  unfold validateAMI_step in Hc. unfold pool_has_AMI_or_no_replica.
  destruct (decide (pool_Replicas c = Some 0)); [by left|].
  destruct (pool_AWS c) as [aws|]; [|done].
  destruct (decide (mp_AMIID aws = "")); [done|]. right. by exists aws.
Qed.

(** The two results of [validateAMI] on a configuration with a control
    plane and a platform *)
Lemma validateAMI_cases config controlPlane platform :
  ic_ControlPlane config = Some controlPlane → ic_AWS config = Some platform →
  (ami_resolvable controlPlane platform (ic_Compute config)
   ∧ validateAMI config = Ret [])
  ∨ (¬ ami_resolvable controlPlane platform (ic_Compute config)
     ∧ validateAMI config =
       Ret [Required (NewPath ["platform"; "aws"; "amiID"])
                     "AMI must be provided"]).
Proof.
  intros Hcp Hpf. unfold validateAMI, ami_resolvable. rewrite Hcp, Hpf.
  cbn [deref obind].
  destruct (AMIRegionsHas _ _) eqn:Hreg; [left; split; [by left|done]|].
  destruct (decide (pf_AMIID platform ≠ "")) as [Hami|Hami];
    [left; split; [by right; left|done]|].
  apply dec_stable in Hami.
  destruct (pf_DefaultMachinePlatform platform) as [d|] eqn:Hd.
  - destruct (bool_decide_reflect (mp_AMIID d ≠ "")) as [Hdami|Hdami];
      [left; split; [right; right; left; by exists d|done]|].
    apply dec_stable in Hdami.
    destruct (pool_AWS controlPlane) as [aws|] eqn:Haws.
    + destruct (bool_decide_reflect (mp_AMIID aws ≠ "")) as [Hcami|Hcami].
      * destruct (foldl validateAMI_step true (ic_Compute config)) eqn:Hfold.
        -- left. split; [|done]. right. right. right. left.
           split; [by exists aws|by apply validateAMI_step_true_inv].
        -- cbn [andb].
           destruct (PartitionForRegion (pf_Region platform)) as [pid|] eqn:Hp.
           ++ destruct (decide (pid = AwsPartitionID)) as [->|Hpid];
                [left; split; [by do 4 right|done]|].
              right. split; [|done].
              intros [?|[?|[(d' & [= <-] & ?)|[[_ Hall]|[= ?]]]]];
                [congruence|done|done| |done].
              by rewrite (validateAMI_step_exempt _ _ Hall) in Hfold.
           ++ right. split; [|done].
              intros [?|[?|[(d' & [= <-] & ?)|[[_ Hall]|?]]]];
                [congruence|done|done| |done].
              by rewrite (validateAMI_step_exempt _ _ Hall) in Hfold.
      * apply dec_stable in Hcami. cbn [andb].
        destruct (PartitionForRegion (pf_Region platform)) as [pid|] eqn:Hp.
        -- destruct (decide (pid = AwsPartitionID)) as [->|Hpid];
             [left; split; [by do 4 right|done]|].
           right. split; [|done].
           intros [?|[?|[(d' & [= <-] & ?)|[[(a & [= <-] & ?) _]|[= ?]]]]];
             [congruence|done|done|done|done].
        -- right. split; [|done].
           intros [?|[?|[(d' & [= <-] & ?)|[[(a & [= <-] & ?) _]|?]]]];
             [congruence|done|done|done|done].
    + cbn [andb].
      destruct (PartitionForRegion (pf_Region platform)) as [pid|] eqn:Hp.
      * destruct (decide (pid = AwsPartitionID)) as [->|Hpid];
          [left; split; [by do 4 right|done]|].
        right. split; [|done].
        intros [?|[?|[(d' & [= <-] & ?)|[[(a & ? & ?) _]|[= ?]]]]];
          [congruence|done|done|done|done].
      * right. split; [|done].
        intros [?|[?|[(d' & [= <-] & ?)|[[(a & ? & ?) _]|?]]]];
          [congruence|done|done|done|done].
  - destruct (pool_AWS controlPlane) as [aws|] eqn:Haws.
    + destruct (bool_decide_reflect (mp_AMIID aws ≠ "")) as [Hcami|Hcami].
      * destruct (foldl validateAMI_step true (ic_Compute config)) eqn:Hfold.
        -- left. split; [|done]. right. right. right. left.
           split; [by exists aws|by apply validateAMI_step_true_inv].
        -- cbn [andb].
           destruct (PartitionForRegion (pf_Region platform)) as [pid|] eqn:Hp.
           ++ destruct (decide (pid = AwsPartitionID)) as [->|Hpid];
                [left; split; [by do 4 right|done]|].
              right. split; [|done].
              intros [?|[?|[(d' & ? & ?)|[[_ Hall]|[= ?]]]]];
                [congruence|done|done| |done].
              by rewrite (validateAMI_step_exempt _ _ Hall) in Hfold.
           ++ right. split; [|done].
              intros [?|[?|[(d' & ? & ?)|[[_ Hall]|?]]]];
                [congruence|done|done| |done].
              by rewrite (validateAMI_step_exempt _ _ Hall) in Hfold.
      * apply dec_stable in Hcami. cbn [andb].
        destruct (PartitionForRegion (pf_Region platform)) as [pid|] eqn:Hp.
        -- destruct (decide (pid = AwsPartitionID)) as [->|Hpid];
             [left; split; [by do 4 right|done]|].
           right. split; [|done].
           intros [?|[?|[(d' & ? & ?)|[[(a & [= <-] & ?) _]|[= ?]]]]];
             [congruence|done|done|done|done].
        -- right. split; [|done].
           intros [?|[?|[(d' & ? & ?)|[[(a & [= <-] & ?) _]|?]]]];
             [congruence|done|done|done|done].
    + cbn [andb].
      destruct (PartitionForRegion (pf_Region platform)) as [pid|] eqn:Hp.
      * destruct (decide (pid = AwsPartitionID)) as [->|Hpid];
          [left; split; [by do 4 right|done]|].
        right. split; [|done].
        intros [?|[?|[(d' & ? & ?)|[[(a & ? & ?) _]|[= ?]]]]];
          [congruence|done|done|done|done].
      * right. split; [|done].
        intros [?|[?|[(d' & ? & ?)|[[(a & ? & ?) _]|?]]]];
          [congruence|done|done|done|done].
Qed.

End accepting.

Section accepting_runs.
Context `{GoLib}.

(** X14. The results of [validateAMI]: it panics on a configuration without
    a control plane or without a platform; it returns no diagnostic exactly
    when some source provides an image; and whatever it returns is at most
    the one diagnostic that requires [platform.aws.amiID]. *)
Theorem validateAMI_result config :
  (validateAMI config = Panic
   ↔ ic_ControlPlane config = None ∨ ic_AWS config = None)
  ∧ (validateAMI config = Ret []
     ↔ ∃ controlPlane platform,
         ic_ControlPlane config = Some controlPlane
         ∧ ic_AWS config = Some platform
         ∧ ami_resolvable controlPlane platform (ic_Compute config))
  ∧ (∀ errs, validateAMI config = Ret errs →
       errs = []
       ∨ errs = [Required (NewPath ["platform"; "aws"; "amiID"])
                          "AMI must be provided"]).
Proof.
  destruct (ic_ControlPlane config) as [controlPlane|] eqn:Hcp.
  - destruct (ic_AWS config) as [platform|] eqn:Hpf.
    + destruct (validateAMI_cases config controlPlane platform Hcp Hpf)
        as [[Hres ->]|[Hres ->]]; split_and!.
      * split; [done|by intros [?|?]].
      * split; [intros _; by exists controlPlane, platform|done].
      * intros errs [= <-]. by left.
      * split; [done|by intros [?|?]].
      * split; [done|]. by intros (c & p & [= <-] & [= <-] & ?).
      * intros errs [= <-]. by right.
    + assert (validateAMI config = Panic) as ->
        by (unfold validateAMI; by rewrite Hcp, Hpf).
      split_and!; [split; [by right|done]| |done].
      split; [done|]. by intros (c & p & _ & ? & _).
  - assert (validateAMI config = Panic) as ->
      by (unfold validateAMI; by rewrite Hcp).
    split_and!; [split; [by left|done]| |done].
    split; [done|]. by intros (c & p & ? & _).
Qed.

(** X15. [Validate] panics on every configuration that has a platform and
    no control plane, whatever the schedule, the network and the inventory
    are: [validateAMI] runs before every other check and dereferences the
    nil control plane, so the missing control plane is never reported as a
    diagnostic. *)
Theorem Validate_panics_no_control_plane sch net meta config :
  is_Some (ic_AWS config) → ic_ControlPlane config = None →
  Validate sch net meta config = Panic.
Proof.
  intros [platform Hpf] Hcp. unfold Validate. rewrite Hpf.
  assert (validateAMI config = Panic) as ->
    by (unfold validateAMI; by rewrite Hcp).
  done.
Qed.

Lemma ToAggregate_None errs : ToAggregate errs = None ↔ errs = [].
Proof.
  unfold ToAggregate. destruct (decide (length errs = 0%nat)) as [Hl|Hl].
  - split; [intros _; by apply nil_length_inv|done].
  - split; [done|]. by intros ->.
Qed.

Lemma Forall_imap_pair {A} (P : A → Prop) (l : list A) :
  Forall (λ p : nat * A, P p.2) (imap pair l) ↔ Forall P l.
Proof.
  rewrite !Forall_lookup. split.
  - intros Hall i x Hi. apply (Hall i (i, x)). by rewrite list_lookup_imap, Hi.
  - intros Hall i [k x] Hi. rewrite list_lookup_imap in Hi.
    destruct (l !! i) as [y|] eqn:Hl; [|done].
    simpl in Hi. injection Hi as <- <-. by eapply Hall.
Qed.

(** The platform raises no diagnostic exactly when the service endpoints
    raise none, the declared subnets fit and the default machine pool fits. *)
Lemma validatePlatform_nil sch net meta fldPath platform networking publish :
  schedule_ok sch meta →
  validatePlatform sch net meta fldPath platform networking publish = []
  ↔ validateServiceEndpoints net (Child fldPath ["serviceEndpoints"])
      (pf_Region platform) (pf_ServiceEndpoints platform) = []
    ∧ (pf_Subnets platform = [] ∨ subnets_fit meta networking publish)
    ∧ (∀ d, pf_DefaultMachinePlatform platform = Some d →
            pool_fits meta platform d controlPlaneReq).
Proof.
  intros Hs.
  assert (∀ priv path, PrivateSubnets meta = Found priv →
            ranges priv (sch_pool sch path)) as Hpool
    by (intros priv path Hp; by apply (Hs priv Hp)).
  assert (∀ priv pub, PrivateSubnets meta = Found priv →
            PublicSubnets meta = Found pub →
            ranges_ok (sch_subnets sch) priv pub) as Hsub
    by (intros priv pub Hp Hq; by apply (Hs priv Hp)).
  unfold validatePlatform. cbv zeta. rewrite app_nil_l.
  destruct (validateServiceEndpoints _ _ _ _) as [|e l] eqn:Hse.
  2:{ rewrite decide_True by (simpl; lia). split; [done|by intros [? _]]. }
  rewrite decide_False by (simpl; lia).
  destruct (decide (0 < length (pf_Subnets platform))%nat) as [Hlen|Hlen].
  - assert (pf_Subnets platform ≠ []) as Hne
      by (intros Hnil; rewrite Hnil in Hlen; simpl in Hlen; lia).
    rewrite app_nil_l.
    destruct (pf_DefaultMachinePlatform platform) as [d|].
    + split.
      * intros [Hv Hm]%app_eq_nil. split_and!; [done| |].
        -- right. by eapply validateSubnets_nil_inv.
        -- intros d' [= <-]. eapply validateMachinePool_nil_inv; [|exact Hm].
           intros priv Hp. by apply Hpool.
      * intros (_ & [?|Hfit] & Hd); [done|].
        rewrite (validateSubnets_fit _ _ _ _ _ _ Hsub Hfit), app_nil_l.
        apply validateMachinePool_fits; [|by apply Hd].
        intros priv Hp. by apply Hpool.
    + split.
      * intros Hv. split_and!; [done| |done].
        right. by eapply validateSubnets_nil_inv.
      * intros (_ & [?|Hfit] & _); [done|]. by apply validateSubnets_fit.
  - assert (pf_Subnets platform = []) as Hnil
      by (destruct (pf_Subnets platform); [done|simpl in Hlen; lia]).
    destruct (pf_DefaultMachinePlatform platform) as [d|].
    + rewrite app_nil_l. split.
      * intros Hm. split_and!; [done|by left|].
        intros d' [= <-]. eapply validateMachinePool_nil_inv; [|exact Hm].
        intros priv Hp. by apply Hpool.
      * intros (_ & _ & Hd). apply validateMachinePool_fits; [|by apply Hd].
        intros priv Hp. by apply Hpool.
    + split; [|done]. intros _. split_and!; [done|by left|done].
Qed.

(** The loop of [Validate] over the compute pools ends without a diagnostic
    exactly when it starts without one and every pool fits. *)
Lemma Validate_step_fold_nil sch meta platform l allErrs :
  (∀ priv path, PrivateSubnets meta = Found priv →
                ranges priv (sch_pool sch path)) →
  foldl (Validate_step sch meta platform) allErrs l = []
  ↔ allErrs = []
    ∧ Forall (λ p, machine_pool_fits meta platform computeReq p.2) l.
Proof.
  intros Hpool. revert allErrs. induction l as [|p l IH]; intros allErrs; simpl.
  - split; [intros ->; split; [done|constructor]|by intros [-> _]].
  - rewrite IH, Forall_cons. unfold Validate_step, machine_pool_fits.
    destruct (pool_AWS p.2) as [aws|].
    + split.
      * intros [[-> Hv]%app_eq_nil Hall]. split_and!; [done| |done].
        intros a [= <-]. eapply validateMachinePool_nil_inv; [|exact Hv].
        intros priv Hp. by apply Hpool.
      * intros [-> [Hfit Hall]]. split; [|done]. rewrite app_nil_l.
        apply validateMachinePool_fits; [|by apply Hfit].
        intros priv Hp. by apply Hpool.
    + split.
      * intros [-> Hall]. by split_and!.
      * by intros [-> [_ Hall]].
Qed.

(** X16. [Validate] accepts a configuration, returning nil, exactly when
    the configuration has a platform and a control plane, some source
    provides an image, the service endpoints raise no diagnostic, the
    declared subnets (if any) fit, and the default machine pool, the
    control plane and every compute pool fit the zones and the catalog. *)
Theorem Validate_nil_iff sch net meta config :
  schedule_ok sch meta →
  Validate sch net meta config = Ret None
  ↔ ∃ platform controlPlane,
      ic_AWS config = Some platform
      ∧ ic_ControlPlane config = Some controlPlane
      ∧ ami_resolvable controlPlane platform (ic_Compute config)
      ∧ validateServiceEndpoints net
          (Child (NewPath ["platform"; "aws"]) ["serviceEndpoints"])
          (pf_Region platform) (pf_ServiceEndpoints platform) = []
      ∧ (pf_Subnets platform = []
         ∨ subnets_fit meta (ic_Networking config) (ic_Publish config))
      ∧ (∀ d, pf_DefaultMachinePlatform platform = Some d →
              pool_fits meta platform d controlPlaneReq)
      ∧ machine_pool_fits meta platform controlPlaneReq controlPlane
      ∧ Forall (machine_pool_fits meta platform computeReq)
               (ic_Compute config).
Proof.
  intros Hs.
  assert (∀ priv path, PrivateSubnets meta = Found priv →
            ranges priv (sch_pool sch path)) as Hpool
    by (intros priv path Hp; by apply (Hs priv Hp)).
  assert (∀ o : option error, Ret o = Ret None ↔ o = None) as Hret
    by (intros o; split; [by intros [= ->]|by intros ->]).
  unfold Validate. destruct (ic_AWS config) as [platform|] eqn:Hpf.
  2:{ split; [done|]. by intros (p & c & ? & _). }
  destruct (ic_ControlPlane config) as [controlPlane|] eqn:Hcp.
  2:{ assert (validateAMI config = Panic) as ->
        by (unfold validateAMI; by rewrite Hcp).
      cbn [obind]. split; [done|]. by intros (p & c & _ & ? & _). }
  destruct (validateAMI_cases config controlPlane platform Hcp Hpf)
    as [[Hres ->]|[Hres ->]]; cbn [obind].
  - rewrite Hret, fmap_None, ToAggregate_None.
    rewrite (Validate_step_fold_nil _ _ _ _ _ Hpool), Forall_imap_pair.
    rewrite !app_nil_l. split.
    + intros [Hm Hall].
      assert (validatePlatform sch net meta (NewPath ["platform"; "aws"])
                platform (ic_Networking config) (ic_Publish config) = []
              ∧ machine_pool_fits meta platform controlPlaneReq controlPlane)
        as [Hv Hc].
      { unfold machine_pool_fits.
        destruct (pool_AWS controlPlane) as [aws|]; [|done].
        apply app_eq_nil in Hm as [Hv Hm]. split; [done|].
        intros a [= <-]. eapply validateMachinePool_nil_inv; [|exact Hm].
        intros priv Hp. by apply Hpool. }
      apply (validatePlatform_nil _ _ _ _ _ _ _ Hs) in Hv as (Hse & Hsn & Hd).
      by exists platform, controlPlane.
    + intros (p & c & [= <-] & [= <-] & _ & Hse & Hsn & Hd & Hc & Hall).
      split; [|done].
      assert (validatePlatform sch net meta (NewPath ["platform"; "aws"])
                platform (ic_Networking config) (ic_Publish config) = [])
        as -> by (by apply (validatePlatform_nil _ _ _ _ _ _ _ Hs)).
      destruct (pool_AWS controlPlane) as [aws|] eqn:Haws; [|done].
      rewrite app_nil_l. apply validateMachinePool_fits; [|by apply Hc].
      intros priv Hp. by apply Hpool.
  - rewrite Hret, fmap_None, ToAggregate_None.
    rewrite (Validate_step_fold_nil _ _ _ _ _ Hpool). split.
    + intros [Hm _]. destruct (pool_AWS controlPlane);
        rewrite <-?app_assoc in Hm; simpl in Hm; discriminate.
    + by intros (p & c & [= <-] & [= <-] & ? & _).
Qed.

End accepting_runs.

(** ** The DNS checks before provisioning *)

Section dns_facts.
Context `{GoLib}.

(** The two results of [isHostedZoneDomainParentOfClusterDomain] on a zone
    that has a name *)
Lemma isHostedZoneDomainParentOfClusterDomain_cases hz name d :
  hz_Name hz = Some name →
  (parent_domain name d
   ∧ isHostedZoneDomainParentOfClusterDomain (Some hz) d = Ret true)
  ∨ (¬ parent_domain name d
     ∧ isHostedZoneDomainParentOfClusterDomain (Some hz) d = Ret false).
Proof.
  intros Hn. unfold isHostedZoneDomainParentOfClusterDomain, parent_domain.
  cbn [deref obind]. rewrite Hn. cbn [deref obind].
  destruct (decide (name = d)) as [->|Hne]; [left; split; [by left|done]|].
  destruct (HasSuffix d ("." +:+ name)) eqn:Hsuf.
  - left. split; [|done]. right. by apply HasSuffix_spec.
  - right. split; [|done]. intros [?|Hp]; [done|].
    apply HasSuffix_spec in Hp. congruence.
Qed.

(** X17. [isHostedZoneDomainParentOfClusterDomain] accepts the zone exactly
    when the dotted cluster domain is the name of the zone or ends with a
    dot and the name of the zone. *)
Theorem isHostedZoneDomainParentOfClusterDomain_iff hz name d :
  hz_Name hz = Some name →
  (isHostedZoneDomainParentOfClusterDomain (Some hz) d = Ret true
   ↔ parent_domain name d)
  ∧ (isHostedZoneDomainParentOfClusterDomain (Some hz) d = Ret false
     ↔ ¬ parent_domain name d).
Proof.
  intros Hn.
  destruct (isHostedZoneDomainParentOfClusterDomain_cases hz name d Hn)
    as [[Hp ->]|[Hp ->]]; split; split; done.
Qed.

(** X18. For a zone that is not a parent of the cluster domain,
    [getSubDomainDNSRecords] returns the error that says so and no record,
    whatever the client would list. *)
Theorem getSubDomainDNSRecords_not_parent client hz name ic :
  hz_Name hz = Some name →
  ¬ parent_domain name (ic_ClusterDomain ic +:+ ".") →
  getSubDomainDNSRecords client (Some hz) ic =
  Ret ([], Some ("hosted zone domain " +:+ Quote name +:+
                 " is not a parent of the cluster domain " +:+
                 Quote (ic_ClusterDomain ic +:+ "."))).
Proof.
  intros Hn Hp. unfold getSubDomainDNSRecords. cbv zeta.
  destruct (isHostedZoneDomainParentOfClusterDomain_cases hz name
              (ic_ClusterDomain ic +:+ ".") Hn) as [[Hq _]|[_ ->]]; [done|].
  cbn [obind deref negb]. by rewrite Hn.
Qed.

(** When an error ends the paging, no page is the last one: the callback
    asks for every page, and the error is the result. *)
Lemma eachPage_error dottedClusterDomain acc pages err :
  (eachPage (recordSets_page dottedClusterDomain) acc pages (Some err)).2
  = Some err.
Proof.
  revert acc. induction pages as [|out rest IH]; intros acc; [done|].
  cbn [eachPage]. destruct rest as [|out' rest]; cbn [recordSets_page negb snd fst];
    apply IH.
Qed.

(** X19. When an error ends the listing of the record sets,
    [getSubDomainDNSRecords] returns that error and drops the records that
    the pages delivered before it. *)
Theorem getSubDomainDNSRecords_listing_error client hz name ic pages err :
  hz_Name hz = Some name →
  parent_domain name (ic_ClusterDomain ic +:+ ".") →
  r53_ListResourceRecordSetsPages client (hz_Id hz) = (pages, Some err) →
  getSubDomainDNSRecords client (Some hz) ic = Ret ([], Some err).
Proof.
  intros Hn Hp Hlist. unfold getSubDomainDNSRecords. cbv zeta.
  destruct (isHostedZoneDomainParentOfClusterDomain_cases hz name
              (ic_ClusterDomain ic +:+ ".") Hn) as [[_ ->]|[Hq _]]; [|done].
  cbn [obind deref negb]. rewrite Hlist. cbn [fst snd].
  by rewrite eachPage_error.
Qed.

Lemma recordSet_step_elem dottedClusterDomain recordSet r :
  r ∈ recordSet_step dottedClusterDomain [] recordSet
  ↔ flagged dottedClusterDomain recordSet
    ∧ r = StringValue (rrs_Name recordSet) +:+ " (" +:+
          StringValue (rrs_Type recordSet) +:+ ")".
Proof.
  unfold flagged, recordSet_step.
  destruct (negb _); [split; [by intros ?%elem_of_nil|by intros [? _]]|].
  destruct (decide _); [split; [by intros ?%elem_of_nil|by intros [? _]]|].
  rewrite app_nil_l, list_elem_of_singleton. split; [done|by intros [_ ?]].
Qed.

(** X20. For a parent zone whose listing succeeds, [getSubDomainDNSRecords]
    reports exactly the record sets whose name is some non-empty text
    followed by the dotted cluster domain, each as its name and its type
    between parentheses. The test is on the characters: the text before the
    cluster domain need not end at a label. *)
Theorem getSubDomainDNSRecords_reports client hz name ic pages :
  hz_Name hz = Some name →
  parent_domain name (ic_ClusterDomain ic +:+ ".") →
  r53_ListResourceRecordSetsPages client (hz_Id hz) = (pages, None) →
  ∃ records,
    getSubDomainDNSRecords client (Some hz) ic = Ret (records, None)
    ∧ ∀ r, r ∈ records ↔
        ∃ recordSet p,
          recordSet ∈ pages ≫= page_ResourceRecordSets
          ∧ p ≠ ""
          ∧ StringValue (rrs_Name recordSet)
            = p +:+ ic_ClusterDomain ic +:+ "."
          ∧ r = StringValue (rrs_Name recordSet) +:+ " (" +:+
                StringValue (rrs_Type recordSet) +:+ ")".
Proof.
  intros Hn Hp Hlist. eexists. split.
  - apply (getSubDomainDNSRecords_records client hz name ic pages Hn);
      [|done].
    destruct Hp as [?|Hp]; [by left|]. right. by apply HasSuffix_spec.
  - intros r. rewrite list_elem_of_bind. split.
    + intros (recordSet & [(p & Hne & Heq)%flagged_iff ->]%recordSet_step_elem
              & Hin).
      by exists recordSet, p.
    + intros (recordSet & p & Hin & Hne & Heq & ->). exists recordSet.
      split; [|done]. apply recordSet_step_elem. split; [|done].
      apply flagged_iff. by exists p.
Qed.

(** X21. On the output of a zone lookup that succeeded, [validateHostedZone]
    returns no diagnostic exactly when the inventory knows the VPC, its id is
    not empty, and the zone lists a VPC of that id. *)
Theorem validateHostedZone_nil_iff out hostedZonePath hostedZoneName metadata :
  validateHostedZone (Some out) hostedZonePath hostedZoneName metadata = Ret []
  ↔ ∃ vpcID,
      VPC metadata = Found vpcID ∧ vpcID ≠ ""
      ∧ ∃ vpc, vpc ∈ out_VPCs out ∧ StringValue (vpc_VPCId vpc) = vpcID.
Proof.
  unfold validateHostedZone, isHostedZoneAssociatedWithVPC.
  destruct (VPC metadata) as [vpcID|err].
  - destruct (decide (vpcID = "")) as [->|Hne]; cbn [obind deref negb].
    + split; [done|]. by intros (v & [= <-] & ? & _).
    + destruct (existsb _ (out_VPCs out)) eqn:Hex; cbn [negb].
      * split; [|done]. intros _. exists vpcID. split_and!; [done|done|].
        apply existsb_exists in Hex as (vpc & Hin & Hv).
        exists vpc. split; [by apply list_elem_of_In|].
        by apply bool_decide_eq_true in Hv.
      * split; [done|]. intros (v & [= <-] & _ & vpc & Hin & Hv).
        assert (existsb (λ vpc, bool_decide (StringValue (vpc_VPCId vpc) = vpcID))
                        (out_VPCs out) = true) as Habs.
        { apply existsb_exists. exists vpc.
          split; [by apply list_elem_of_In|by apply bool_decide_eq_true]. }
        congruence.
  - split; [done|]. by intros (v & ? & _).
Qed.

(** X22. On the nil output of a zone lookup that failed,
    [validateHostedZone] panics exactly when the inventory knows a VPC with
    a non-empty id; otherwise it returns one diagnostic. *)
Theorem validateHostedZone_nil_output hostedZonePath hostedZoneName metadata :
  (validateHostedZone None hostedZonePath hostedZoneName metadata = Panic
   ↔ ∃ vpcID, VPC metadata = Found vpcID ∧ vpcID ≠ "")
  ∧ (∀ errs,
       validateHostedZone None hostedZonePath hostedZoneName metadata
       = Ret errs →
       ∃ detail, errs = [Invalid hostedZonePath (VString hostedZoneName) detail]).
Proof.
  unfold validateHostedZone, isHostedZoneAssociatedWithVPC.
  destruct (VPC metadata) as [vpcID|err].
  - destruct (decide (vpcID = "")) as [->|Hne]; cbn [obind deref negb].
    + split.
      * split; [done|]. by intros (v & [= <-] & ?).
      * intros errs [= <-]. by eexists.
    + split; [|done]. split; [|done]. intros _. by exists vpcID.
  - split.
    + split; [done|]. by intros (v & ? & _).
    + intros errs [= <-]. by eexists.
Qed.

End dns_facts.

Section provisioning_facts.
Context `{GoLib}.

(** [validateZoneRecords] returns only on a zone that is there and has a
    name, and files what it reports under the path and the name it is
    given. *)
Lemma validateZoneRecords_returns client zone zoneName zonePath ic errs :
  validateZoneRecords client zone zoneName zonePath ic = Ret errs →
  (∃ hz name, zone = Some hz ∧ hz_Name hz = Some name)
  ∧ ∀ e, e ∈ errs →
      Field e = zonePath ∧ (BadValue e = VString zoneName ∨ BadValue e = VNil).
Proof.
  unfold validateZoneRecords. cbv zeta.
  destruct (getSubDomainDNSRecords client zone ic) as [[records err]|] eqn:Hget;
    cbn [obind fst snd]; [|done].
  intros [= <-]. split.
  - unfold getSubDomainDNSRecords, isHostedZoneDomainParentOfClusterDomain
      in Hget.
    destruct zone as [hz|]; cbn [deref obind] in Hget; [|done].
    destruct (hz_Name hz) as [name|] eqn:Hname; cbn [deref obind] in Hget;
      [|done].
    by exists hz, name.
  - intros e He.
    destruct err as [err|]; destruct (decide (0 < length records)%nat);
      rewrite ?elem_of_app, ?list_elem_of_singleton, ?elem_of_nil in He;
      intuition (subst; simpl; auto).
Qed.

Lemma append_nonempty (allErrs errors : ErrorList) :
  (if decide (0 < length errors)%nat then allErrs ++ errors else allErrs)
  = allErrs ++ errors.
Proof.
  destruct (decide _) as [|Hl]; [done|].
  destruct errors; [by rewrite app_nil_r|simpl in Hl; lia].
Qed.

(** What a run of [ValidateForProvisioning] that returns has been through *)
Lemma ValidateForProvisioning_inv session ic metadata r :
  ic_Publish ic ≠ InternalPublishingStrategy →
  ValidateForProvisioning session ic metadata = Ret r →
  ∃ platform hz name zoneErrs recordErrs,
    ic_AWS ic = Some platform ∧ hz_Name hz = Some name
    ∧ validateZoneRecords (route53_New session) (Some hz) "" [] ic
      = Ret recordErrs
    ∧ r = ToAggregate (zoneErrs ++ recordErrs)
    ∧ ((pf_HostedZone platform = ""
        ∧ GetPublicZone session (ic_BaseDomain ic) = Found hz
        ∧ zoneErrs = [])
       ∨ (pf_HostedZone platform ≠ ""
          ∧ ∃ out,
              r53_GetHostedZone (route53_New session) (pf_HostedZone platform)
              = Found out
              ∧ out_HostedZone out = Some hz
              ∧ validateHostedZone (Some out) (NewPath ["aws"; "hostedZone"])
                  (pf_HostedZone platform) metadata = Ret zoneErrs)).
Proof.
  intros Hpub. unfold ValidateForProvisioning.
  rewrite decide_False by done. cbv zeta.
  destruct (ic_AWS ic) as [platform|]; cbn [deref obind]; [|done].
  destruct (decide (pf_HostedZone platform ≠ "")) as [Hz|Hz].
  - unfold getHostedZone.
    destruct (r53_GetHostedZone (route53_New session) (pf_HostedZone platform))
      as [out|err] eqn:Hlook; cbn [fst snd].
    + rewrite !append_nonempty.
      destruct (validateHostedZone (Some out) _ _ metadata)
        as [zoneErrs|] eqn:Hv; cbn [obind deref]; [|done].
      rewrite !append_nonempty.
      destruct (out_HostedZone out) as [hz|] eqn:Hhz;
        cbn [obind deref fst snd]; [|done].
      destruct (validateZoneRecords _ (Some hz) "" [] ic)
        as [recordErrs|] eqn:Hrec; cbn [obind]; [|done].
      rewrite !append_nonempty. intros [= <-].
      destruct (validateZoneRecords_returns _ _ _ _ _ _ Hrec)
        as [(hz' & name & [= <-] & Hname) _].
      exists platform, hz, name, zoneErrs, recordErrs.
      split_and!; [done|done|done|done|].
      right. split; [done|]. by exists out.
    + rewrite !append_nonempty.
      destruct (validateHostedZone None _ _ metadata); cbn [obind deref]; done.
  - apply dec_stable in Hz. unfold getBaseDomain.
    destruct (GetPublicZone session (ic_BaseDomain ic)) as [hz|err] eqn:Hlook;
      cbn [fst snd obind].
    + rewrite !append_nonempty.
      destruct (validateZoneRecords _ (Some hz) "" [] ic)
        as [recordErrs|] eqn:Hrec; cbn [obind]; [|done].
      rewrite !append_nonempty. intros [= <-].
      destruct (validateZoneRecords_returns _ _ _ _ _ _ Hrec)
        as [(hz' & name & [= <-] & Hname) _].
      exists platform, hz, name, [], recordErrs.
      split_and!; [done|done|done|done|]. by left.
    + rewrite !append_nonempty.
      destruct (validateZoneRecords _ None "" [] ic)
        as [recordErrs|] eqn:Hrec; cbn [obind]; [|done].
      by destruct (validateZoneRecords_returns _ _ _ _ _ _ Hrec)
        as [(hz' & name & ? & _) _].
Qed.

(** X23. [ValidateForProvisioning] returns, under a publishing strategy
    other than the internal one, only when the configuration has a platform
    and the lookup of the zone, by id or by base domain, succeeded with a
    zone that has a name; on every other run it panics. The diagnostics of
    a failed lookup are therefore never returned. *)
Theorem ValidateForProvisioning_returns session ic metadata r :
  ic_Publish ic ≠ InternalPublishingStrategy →
  ValidateForProvisioning session ic metadata = Ret r →
  ∃ platform hz name,
    ic_AWS ic = Some platform ∧ hz_Name hz = Some name
    ∧ ((pf_HostedZone platform = ""
        ∧ GetPublicZone session (ic_BaseDomain ic) = Found hz)
       ∨ (pf_HostedZone platform ≠ ""
          ∧ ∃ out,
              r53_GetHostedZone (route53_New session) (pf_HostedZone platform)
              = Found out
              ∧ out_HostedZone out = Some hz)).
Proof.
  intros Hpub Hret.
  destruct (ValidateForProvisioning_inv _ _ _ _ Hpub Hret)
    as (platform & hz & name & zoneErrs & recordErrs & Hpf & Hname & _ & _
        & [(Hz & Hlook & _)|(Hz & out & Hlook & Hhz & _)]);
    exists platform, hz, name; split_and!; [done|done| |done|done|].
  - by left.
  - right. split; [done|]. by exists out.
Qed.

Lemma ToAggregate_elem errs l e :
  ToAggregate errs = Some l → e ∈ l → e ∈ errs.
Proof.
  unfold ToAggregate. destruct (decide _); [done|]. intros [= <-].
  enough (∀ (st : list FieldError * gset string),
            e ∈ (foldl (λ (st : list FieldError * gset string) err,
                          let msg := ErrorString err in
                          if decide (msg ∈ st.2) then st
                          else (st.1 ++ [err], {[msg]} ∪ st.2))
                       st errs).1 →
            e ∈ st.1 ∨ e ∈ errs) as Hgen.
  { intros He. apply Hgen in He as [He|He]; [by apply elem_of_nil in He|done]. }
  clear. induction errs as [|err errs IH]; intros st; simpl; [by left|].
  intros He. apply IH in He as [He|He]; [|right; by right].
  destruct (decide _); [by left|]. simpl in He.
  apply elem_of_app in He as [He|He]; [by left|].
  apply list_elem_of_singleton in He as ->. right. by left.
Qed.

(** X24. Every diagnostic that [ValidateForProvisioning] returns is either
    one of [validateHostedZone], filed under [aws.hostedZone] with the id of
    the zone, or one about the record sets, and those are all filed under
    the nil path with the empty zone name or no value: the path and the name
    of the zone, assigned to shadowing variables, never reach
    [validateZoneRecords]. *)
Theorem ValidateForProvisioning_fields session ic metadata errs e :
  ValidateForProvisioning session ic metadata = Ret (Some errs) →
  e ∈ errs →
  (∃ platform,
     ic_AWS ic = Some platform ∧ pf_HostedZone platform ≠ ""
     ∧ Field e = NewPath ["aws"; "hostedZone"]
     ∧ BadValue e = VString (pf_HostedZone platform))
  ∨ (Field e = [] ∧ (BadValue e = VString "" ∨ BadValue e = VNil)).
Proof.
  intros Hret He.
  destruct (decide (ic_Publish ic = InternalPublishingStrategy)) as [Hpub|Hpub].
  { unfold ValidateForProvisioning in Hret. by rewrite decide_True in Hret. }
  destruct (ValidateForProvisioning_inv _ _ _ _ Hpub Hret)
    as (platform & hz & name & zoneErrs & recordErrs & Hpf & Hname & Hrec
        & Hagg & Hzone).
  symmetry in Hagg. apply (ToAggregate_elem _ _ _ Hagg) in He.
  apply elem_of_app in He as [He|He].
  - destruct Hzone as [(_ & _ & ->)|(Hz & out & _ & _ & Hv)];
      [by apply elem_of_nil in He|].
    left. exists platform. split_and!; [done|done| |].
    + unfold validateHostedZone in Hv.
      destruct (VPC metadata) as [vpcID|err].
      * destruct (isHostedZoneAssociatedWithVPC (Some out) vpcID)
          as [[|]|]; cbn [obind negb] in Hv; [| |done];
          injection Hv as <-; [by apply elem_of_nil in He|].
        by apply list_elem_of_singleton in He as ->.
      * injection Hv as <-. by apply list_elem_of_singleton in He as ->.
    + unfold validateHostedZone in Hv.
      destruct (VPC metadata) as [vpcID|err].
      * destruct (isHostedZoneAssociatedWithVPC (Some out) vpcID)
          as [[|]|]; cbn [obind negb] in Hv; [| |done];
          injection Hv as <-; [by apply elem_of_nil in He|].
        by apply list_elem_of_singleton in He as ->.
      * injection Hv as <-. by apply list_elem_of_singleton in He as ->.
  - right. by apply (validateZoneRecords_returns _ _ _ _ _ _ Hrec).
Qed.

End provisioning_facts.

(** ** The region check of the service endpoints *)

Section endpoints_region.
Context `{GoLib}.

(** The EC2 endpoint that the first loop of [validateServiceEndpoints]
    leaves behind is the one it started with, or the URL of an accessible
    override of EC2. *)
Lemma validateServiceEndpoints_fold_ec2 net fldPath ps errs ec2Endpoint :
  (foldl (validateServiceEndpoints_step net fldPath) (errs, ec2Endpoint) ps).2
  = ec2Endpoint
  ∨ ∃ p, p ∈ ps ∧ se_Name p.2 = ec2_ServiceName ∧ accessible net p.2
         ∧ (foldl (validateServiceEndpoints_step net fldPath)
                  (errs, ec2Endpoint) ps).2 = se_URL p.2.
Proof.
  revert errs ec2Endpoint. induction ps as [|p ps IH]; intros errs ec2Endpoint;
    [by left|].
  cbn [foldl].
  destruct (validateServiceEndpoints_step net fldPath (errs, ec2Endpoint) p)
    as [errs' ec2'] eqn:Hstep.
  destruct (IH errs' ec2') as [Heq|(q & Hq & Hn & Ha & Heq)].
  - unfold validateServiceEndpoints_step in Hstep. cbn [fst snd] in Hstep.
    destruct (validateEndpointAccessibility net (se_URL p.2)) as [err|] eqn:Hacc.
    + injection Hstep as <- <-. by left.
    + destruct (decide (se_Name p.2 = ec2_ServiceName)) as [Hn|Hn];
        injection Hstep as <- <-; [|by left].
      right. exists p. split_and!; [by left|done|done|done].
  - right. exists q. split_and!; [by right|done|done|done].
Qed.

Lemma validateServiceEndpoints_fold_ec2_some net fldPath ps errs ec2Endpoint q :
  q ∈ ps → se_Name q.2 = ec2_ServiceName → accessible net q.2 →
  ∃ p, p ∈ ps ∧ se_Name p.2 = ec2_ServiceName ∧ accessible net p.2
       ∧ (foldl (validateServiceEndpoints_step net fldPath)
                (errs, ec2Endpoint) ps).2 = se_URL p.2.
Proof.
  revert errs ec2Endpoint. induction ps as [|p ps IH]; intros errs ec2Endpoint;
    [by intros ?%elem_of_nil|].
  intros Hq Hn Ha. cbn [foldl].
  destruct (validateServiceEndpoints_step net fldPath (errs, ec2Endpoint) p)
    as [errs' ec2'] eqn:Hstep.
  destruct (validateServiceEndpoints_fold_ec2 net fldPath ps errs' ec2')
    as [Heq|(r & Hr & Hrn & Hra & Heq)].
  - apply elem_of_cons in Hq as [->|Hq].
    + exists p. split_and!; [by left|done|done|].
      rewrite Heq. unfold validateServiceEndpoints_step in Hstep.
      unfold accessible in Ha. rewrite Ha in Hstep.
      rewrite decide_True in Hstep by done. by injection Hstep as <- <-.
    + destruct (IH errs' ec2' Hq Hn Ha) as (r & Hr & Hrn & Hra & Hreq).
      exists r. split_and!; [by right|done|done|done].
  - exists r. split_and!; [by right|done|done|done].
Qed.

Lemma elem_of_imap_pair {A} (l : list A) (p : nat * A) :
  p ∈ imap pair l → p.2 ∈ l.
Proof.
  intros [i Hi]%list_elem_of_lookup. rewrite list_lookup_imap in Hi.
  destruct (l !! i) as [x|] eqn:Hl; [|done]. simpl in Hi.
  injection Hi as <-. simpl. by eapply list_elem_of_lookup_2.
Qed.

(** X27. In a region that its partition does not list, and without an
    accessible override of the EC2 endpoint, [validateServiceEndpoints]
    checks the region after the overrides: the diagnostics of the overrides
    come first, then the one of the region if its default EC2 endpoint
    cannot be reached. *)
Theorem validateServiceEndpoints_unlisted_region
    net fldPath region services partition :
  PartitionForRegion region = Some partition →
  PartitionHasRegion region = false →
  (∀ service, service ∈ services → se_Name service = ec2_ServiceName →
              ¬ accessible net service) →
  validateServiceEndpoints net fldPath region services =
  (imap pair services ≫= url_diagnostic net fldPath) ++
  match validateRegion net region with
  | Some err => [Invalid (Child fldPath ["region"]) (VString region) err]
  | None => []
  end.
Proof.
  intros Hp Hr Hnone. unfold validateServiceEndpoints. cbv zeta.
  set (st := foldl _ _ _).
  assert (st.1 = imap pair services ≫= url_diagnostic net fldPath) as Hst
    by (etrans; [apply validateServiceEndpoints_fold|done]).
  assert (st.2 = "") as Hec2.
  { destruct (validateServiceEndpoints_fold_ec2 net fldPath
                (imap pair services) [] "") as [Heq|(p & Hin & Hn & Ha & _)];
      [exact Heq|].
    destruct (Hnone p.2); [by apply elem_of_imap_pair|done|done]. }
  clearbody st. destruct st as [allErrs ec2Endpoint]. simpl in Hst, Hec2.
  subst allErrs ec2Endpoint. cbn [fst snd]. rewrite Hp, Hr.
  rewrite bool_decide_eq_true_2 by done. cbn [negb andb].
  destruct (validateRegion net region); [done|by rewrite app_nil_r].
Qed.

(** X28. An accessible override of the EC2 endpoint spares the region its
    check: in a region of a known partition, listed or not, with such an
    override and no EC2 override of an empty URL, [validateServiceEndpoints]
    returns the diagnostics of the overrides alone. *)
Theorem validateServiceEndpoints_ec2_override
    net fldPath region services partition service :
  PartitionForRegion region = Some partition →
  service ∈ services → se_Name service = ec2_ServiceName →
  accessible net service →
  (∀ s, s ∈ services → se_Name s = ec2_ServiceName → se_URL s ≠ "") →
  validateServiceEndpoints net fldPath region services =
  imap pair services ≫= url_diagnostic net fldPath.
Proof.
  intros Hp Hin Hn Ha Hurl. unfold validateServiceEndpoints. cbv zeta.
  set (st := foldl _ _ _).
  assert (st.1 = imap pair services ≫= url_diagnostic net fldPath) as Hst
    by (etrans; [apply validateServiceEndpoints_fold|done]).
  assert (st.2 ≠ "") as Hec2.
  { apply list_elem_of_lookup in Hin as [i Hi].
    destruct (validateServiceEndpoints_fold_ec2_some net fldPath
                (imap pair services) [] "" (i, service))
      as (p & Hpin & Hpn & _ & Heq); [|done|done|].
    - apply list_elem_of_lookup. exists i. by rewrite list_lookup_imap, Hi.
    - assert (st.2 = se_URL p.2) as -> by exact Heq.
      apply Hurl; [by apply elem_of_imap_pair|done]. }
  clearbody st. destruct st as [allErrs ec2Endpoint]. simpl in Hst, Hec2.
  subst allErrs. cbn [fst snd]. rewrite Hp.
  rewrite (bool_decide_eq_false_2 _ Hec2), andb_false_r. done.
Qed.

End endpoints_region.

(** ** The further properties at work *)

Lemma ranges_same_zone_pair : ranges same_zone_pair ["subnet-a"; "subnet-b"].
Proof. apply ranges_insert; [done|apply ranges_singleton]. Qed.

Lemma ranges_private_ab : ranges private_ab ["subnet-1"; "subnet-2"].
Proof. apply ranges_insert; [done|apply ranges_singleton]. Qed.

Lemma ranges_ok_run_ab : ranges_ok run_ab outside_pair ∅.
Proof.
  repeat split; simpl; first [apply ranges_outside_pair_ab | apply ranges_empty].
Qed.

Lemma ranges_ok_run_ba : ranges_ok run_ba outside_pair ∅.
Proof.
  repeat split; simpl;
    first [apply ranges_outside_pair_ba | apply ranges_outside_pair_ab
          | apply ranges_empty].
Qed.

Lemma schedule_ok_pool_ba : schedule_ok schedule_pool_ba (ex_meta outside_pair ∅).
Proof.
  intros priv [= <-]. split.
  - intros path. apply ranges_outside_pair_ba.
  - intros pub [= <-]. repeat split; simpl;
      first [apply ranges_outside_pair_ab | apply ranges_outside_pair_ba
            | apply ranges_empty].
Qed.

Lemma validateSubnets_field_witness :
  ("subnet-a" ∈ ["subnet-x"]
   ∧ (∃ i, Field (Invalid (PIndex subnets_path 0) (VString "subnet-a")
                          "invalid CIDR address: 10.0.0.0")
           = PIndex subnets_path i
           ∧ ["subnet-x"] !! i = Some "subnet-a"
           ∧ ∀ j, (i < j)%nat → ["subnet-x"] !! j ≠ Some "subnet-a"))
  ∨ (("subnet-a" ∉ ["subnet-x"])
     ∧ Field (Invalid (PIndex subnets_path 0) (VString "subnet-a")
                      "invalid CIDR address: 10.0.0.0")
       = PIndex subnets_path 0).
Proof.
  apply (validateSubnets_field (default_orders unparsable_private ∅)
           (ex_meta unparsable_private ∅) subnets_path ["subnet-x"]
           ex_networking InternalPublishingStrategy unparsable_private ∅).
  - reflexivity.
  - reflexivity.
  - apply ranges_ok_default.
  - vm_compute. left.
  - reflexivity.
Defined.

Lemma validateSubnetCIDR_once_witness :
  length (List.filter (λ e, bool_decide (BadValue e = VString "subnet-a"))
            (validateSubnetCIDR subnets_path ["subnet-a"; "subnet-b"]
               outside_pair ∅ (nw_MachineNetwork ex_networking)))
  = 1%nat.
Proof.
  etrans; [apply validateSubnetCIDR_once|].
  - apply (bool_decide_unpack _). vm_compute. exact I.
  - left.
  - vm_compute. reflexivity.
Defined.

Lemma validateSubnetCIDR_no_networks_witness :
  length (validateSubnetCIDR subnets_path ["subnet-a"; "subnet-b"]
            outside_pair ∅ [])
  = size outside_pair.
Proof.
  apply validateSubnetCIDR_no_networks. apply ranges_outside_pair_ab.
Defined.

Lemma validateDuplicateSubnetZones_count_witness :
  (length (validateDuplicateSubnetZones subnets_path ["subnet-a"; "subnet-b"]
             same_zone_pair ∅ "private")
   + size (tier_zones same_zone_pair) = size same_zone_pair)%nat.
Proof.
  apply validateDuplicateSubnetZones_count. apply ranges_same_zone_pair.
Defined.

Lemma validateDuplicateSubnetZones_nil_iff_witness :
  validateDuplicateSubnetZones subnets_path ["subnet-1"; "subnet-2"]
    private_ab ∅ "private" = []
  ↔ zones_distinct private_ab.
Proof.
  apply validateDuplicateSubnetZones_nil_iff. apply ranges_private_ab.
Defined.

Lemma validateDuplicateSubnetZones_attribution_witness :
  ∃ id c sid sc,
    same_zone_pair !! id = Some sid ∧ same_zone_pair !! c = Some sc
    ∧ c ≠ id ∧ Zone sc = Zone sid
    ∧ (∀ j sj, same_zone_pair !! j = Some sj → Zone sj = Zone sid →
               String.le c j)
    ∧ Invalid (PIndex subnets_path 0) (VString "subnet-b")
              "private subnet subnet-a is also in zone us-east-1a"
      = Invalid (PIndex subnets_path
                   (subnetsIdx ["subnet-b"; "subnet-a"] same_zone_pair !!! id))
                (VString id)
                ("private" +:+ " subnet " +:+ c +:+ " is also in zone " +:+
                 Zone sid).
Proof.
  apply (validateDuplicateSubnetZones_attribution subnets_path
           ["subnet-a"; "subnet-b"]).
  - apply ranges_same_zone_pair.
  - vm_compute. left.
Defined.

Lemma validateSubnets_coverage_witness :
  List.filter is_coverage_gap
    (validateSubnets (default_orders private_abc public_ab)
       (ex_meta private_abc public_ab) subnets_path
       ["subnet-1"; "subnet-2"; "subnet-3"; "subnet-4"; "subnet-5"]
       ex_networking ExternalPublishingStrategy)
  = if decide (ExternalPublishingStrategy = ExternalPublishingStrategy
               ∧ ¬ tier_zones private_abc ⊆ tier_zones public_ab)
    then [Invalid subnets_path
            (VStrings ["subnet-1"; "subnet-2"; "subnet-3"; "subnet-4";
                       "subnet-5"])
            ("No public subnet provided for zones " +:+
             fmt_slice (set_List (tier_zones private_abc
                                  ∖ tier_zones public_ab)))]
    else [].
Proof.
  apply (validateSubnets_coverage (default_orders private_abc public_ab)
           (ex_meta private_abc public_ab)).
  - reflexivity.
  - reflexivity.
  - apply ranges_ok_default.
Defined.

Lemma validateSubnets_no_private_witness :
  Invalid subnets_path (VStrings ["subnet-a"]) "No private subnets found"
  ∈ validateSubnets (default_orders ∅ ∅) (ex_meta ∅ ∅) subnets_path
      ["subnet-a"] ex_networking InternalPublishingStrategy
  ↔ (∅ : gmap string Subnet) = ∅.
Proof.
  apply (validateSubnets_no_private (default_orders ∅ ∅) (ex_meta ∅ ∅)
           subnets_path ["subnet-a"] ex_networking InternalPublishingStrategy
           ∅ ∅).
  - reflexivity.
  - reflexivity.
  - apply ranges_ok_default.
Defined.

Lemma validateMachinePool_nil_iff_witness :
  validateMachinePool [] (catalog_meta (Found ["us-east-1a"])) pool_path
    plain_platform small_pool controlPlaneReq = []
  ↔ pool_fits (catalog_meta (Found ["us-east-1a"])) plain_platform small_pool
      controlPlaneReq.
Proof.
  apply validateMachinePool_nil_iff.
  intros priv [= <-]. apply ranges_empty.
Defined.

Lemma validateServiceEndpoints_listed_region_witness :
  Invalid (Child (PIndex endpoints_path 0) ["url"])
          (VString "https://ec2.example.com") "dial tcp: i/o timeout"
  ∈ validateServiceEndpoints deaf_network endpoints_path "us-east-1"
      [ec2_override]
  ↔ ∃ i service err,
      [ec2_override] !! i = Some service
      ∧ validateEndpointAccessibility deaf_network (se_URL service) = Some err
      ∧ Invalid (Child (PIndex endpoints_path 0) ["url"])
                (VString "https://ec2.example.com") "dial tcp: i/o timeout"
        = Invalid (Child (PIndex endpoints_path i) ["url"])
                  (VString (se_URL service)) err.
Proof.
  apply (validateServiceEndpoints_listed_region deaf_network endpoints_path
           "us-east-1" [ec2_override] "aws").
  - reflexivity.
  - reflexivity.
Defined.

Lemma validateServiceEndpoints_unknown_partition_witness :
  (Forall (λ service, EndpointFor "mars-north-1" [] service = None)
          requiredServices
   ∧ validateServiceEndpoints quiet_network endpoints_path "mars-north-1" []
     = [])
  ∨ (¬ Forall (λ service, EndpointFor "mars-north-1" [] service = None)
             requiredServices
     ∧ ∃ detail,
         validateServiceEndpoints quiet_network endpoints_path "mars-north-1" []
         = [Invalid endpoints_path (VEndpoints []) detail]).
Proof.
  apply validateServiceEndpoints_unknown_partition.
  - reflexivity.
  - constructor.
Defined.

Lemma validatePlatform_fail_fast_witness :
  validatePlatform schedule_ab deaf_network (ex_meta outside_pair ∅)
    (NewPath ["platform"; "aws"]) override_platform ex_networking
    ExternalPublishingStrategy
  = validateServiceEndpoints deaf_network
      (Child (NewPath ["platform"; "aws"]) ["serviceEndpoints"])
      (pf_Region override_platform) (pf_ServiceEndpoints override_platform).
Proof.
  apply validatePlatform_fail_fast.
  intros Hall. apply Forall_cons in Hall as [Hacc _].
  vm_compute in Hacc. discriminate.
Defined.

Lemma validateSubnets_nil_iff_witness :
  validateSubnets (default_orders private_ab public_ab)
    (ex_meta private_ab public_ab) subnets_path
    ["subnet-1"; "subnet-2"; "subnet-4"; "subnet-5"] ex_networking
    ExternalPublishingStrategy = []
  ↔ subnets_fit (ex_meta private_ab public_ab) ex_networking
      ExternalPublishingStrategy.
Proof.
  apply validateSubnets_nil_iff.
  intros priv pub [= <-] [= <-]. apply ranges_ok_default.
Defined.

Lemma Validate_nil_iff_witness :
  Validate schedule_ab quiet_network (ex_meta outside_pair ∅)
    two_subnet_config = Ret None
  ↔ ∃ platform controlPlane,
      ic_AWS two_subnet_config = Some platform
      ∧ ic_ControlPlane two_subnet_config = Some controlPlane
      ∧ ami_resolvable controlPlane platform (ic_Compute two_subnet_config)
      ∧ validateServiceEndpoints quiet_network
          (Child (NewPath ["platform"; "aws"]) ["serviceEndpoints"])
          (pf_Region platform) (pf_ServiceEndpoints platform) = []
      ∧ (pf_Subnets platform = []
         ∨ subnets_fit (ex_meta outside_pair ∅)
             (ic_Networking two_subnet_config) (ic_Publish two_subnet_config))
      ∧ (∀ d, pf_DefaultMachinePlatform platform = Some d →
              pool_fits (ex_meta outside_pair ∅) platform d controlPlaneReq)
      ∧ machine_pool_fits (ex_meta outside_pair ∅) platform controlPlaneReq
          controlPlane
      ∧ Forall (machine_pool_fits (ex_meta outside_pair ∅) platform computeReq)
               (ic_Compute two_subnet_config).
Proof.
  apply Validate_nil_iff. apply schedule_ok_ab.
Defined.

Lemma isHostedZoneDomainParentOfClusterDomain_iff_witness :
  (isHostedZoneDomainParentOfClusterDomain (Some example_com)
     "cluster.example.com." = Ret true
   ↔ parent_domain "example.com." "cluster.example.com.")
  ∧ (isHostedZoneDomainParentOfClusterDomain (Some example_com)
       "cluster.example.com." = Ret false
     ↔ ¬ parent_domain "example.com." "cluster.example.com.").
Proof.
  apply isHostedZoneDomainParentOfClusterDomain_iff. reflexivity.
Defined.

Lemma example_org_not_parent :
  ¬ parent_domain "example.org." "cluster.example.com.".
Proof.
  destruct (isHostedZoneDomainParentOfClusterDomain_cases example_org
              "example.org." "cluster.example.com." eq_refl)
    as [[_ Hc]|[Hn _]]; [|exact Hn].
  vm_compute in Hc. discriminate.
Qed.

Lemma example_com_parent :
  parent_domain "example.com." (ic_ClusterDomain (cluster_config "") +:+ ".").
Proof. right. by exists "cluster". Qed.

Lemma getSubDomainDNSRecords_not_parent_witness :
  getSubDomainDNSRecords (dns_with []) (Some example_org) (cluster_config "")
  = Ret ([], Some ("hosted zone domain " +:+ Quote "example.org." +:+
                   " is not a parent of the cluster domain " +:+
                   Quote (ic_ClusterDomain (cluster_config "") +:+ "."))).
Proof.
  apply getSubDomainDNSRecords_not_parent.
  - reflexivity.
  - apply example_org_not_parent.
Defined.

Lemma getSubDomainDNSRecords_listing_error_witness :
  getSubDomainDNSRecords
    (failing_dns [record "api.cluster.example.com." "A"])
    (Some example_com) (cluster_config "")
  = Ret ([], Some "Throttling: Rate exceeded").
Proof.
  apply (getSubDomainDNSRecords_listing_error _ _ "example.com." _
           [mk_route53_Page [record "api.cluster.example.com." "A"]]).
  - reflexivity.
  - apply example_com_parent.
  - reflexivity.
Defined.

Lemma getSubDomainDNSRecords_reports_witness :
  ∃ records,
    getSubDomainDNSRecords
      (dns_with [record "api.cluster.example.com." "A";
                 record "example.com." "NS"])
      (Some example_com) (cluster_config "") = Ret (records, None)
    ∧ ∀ r, r ∈ records ↔
        ∃ recordSet p,
          recordSet ∈ [mk_route53_Page [record "api.cluster.example.com." "A";
                                        record "example.com." "NS"]]
                      ≫= page_ResourceRecordSets
          ∧ p ≠ ""
          ∧ StringValue (rrs_Name recordSet)
            = p +:+ ic_ClusterDomain (cluster_config "") +:+ "."
          ∧ r = StringValue (rrs_Name recordSet) +:+ " (" +:+
                StringValue (rrs_Type recordSet) +:+ ")".
Proof.
  apply (getSubDomainDNSRecords_reports _ _ "example.com.").
  - reflexivity.
  - apply example_com_parent.
  - reflexivity.
Defined.

Lemma ValidateForProvisioning_returns_witness :
  ∃ platform hz name,
    ic_AWS (cluster_config "") = Some platform ∧ hz_Name hz = Some name
    ∧ ((pf_HostedZone platform = ""
        ∧ GetPublicZone (ex_session [record "example.com." "NS"])
            (ic_BaseDomain (cluster_config "")) = Found hz)
       ∨ (pf_HostedZone platform ≠ ""
          ∧ ∃ out,
              r53_GetHostedZone
                (route53_New (ex_session [record "example.com." "NS"]))
                (pf_HostedZone platform) = Found out
              ∧ out_HostedZone out = Some hz)).
Proof.
  apply (ValidateForProvisioning_returns
           (ex_session [record "example.com." "NS"]) (cluster_config "")
           (ex_meta ∅ ∅) None).
  - discriminate.
  - vm_compute. reflexivity.
Defined.

Lemma ValidateForProvisioning_fields_witness :
  (∃ platform,
     ic_AWS (cluster_config "") = Some platform ∧ pf_HostedZone platform ≠ ""
     ∧ Field (Invalid [] (VString "")
        "the zone already has record sets for the domain of the cluster: [api.cluster.example.com. (A)]")
       = NewPath ["aws"; "hostedZone"]
     ∧ BadValue (Invalid [] (VString "")
        "the zone already has record sets for the domain of the cluster: [api.cluster.example.com. (A)]")
       = VString (pf_HostedZone platform))
  ∨ (Field (Invalid [] (VString "")
        "the zone already has record sets for the domain of the cluster: [api.cluster.example.com. (A)]")
     = []
     ∧ (BadValue (Invalid [] (VString "")
          "the zone already has record sets for the domain of the cluster: [api.cluster.example.com. (A)]")
        = VString ""
        ∨ BadValue (Invalid [] (VString "")
            "the zone already has record sets for the domain of the cluster: [api.cluster.example.com. (A)]")
          = VNil)).
Proof.
  apply (ValidateForProvisioning_fields
           (ex_session [record "api.cluster.example.com." "A";
                        record "example.com." "NS"])
           (cluster_config "") (ex_meta ∅ ∅)
           [Invalid [] (VString "")
              "the zone already has record sets for the domain of the cluster: [api.cluster.example.com. (A)]"]).
  - vm_compute. reflexivity.
  - left.
Defined.

Lemma validateSubnets_Permutation_witness :
  validateSubnets run_ab (ex_meta outside_pair ∅) subnets_path
    ["subnet-a"; "subnet-b"] ex_networking InternalPublishingStrategy
  ≡ₚ validateSubnets run_ba (ex_meta outside_pair ∅) subnets_path
       ["subnet-a"; "subnet-b"] ex_networking InternalPublishingStrategy.
Proof.
  apply (validateSubnets_Permutation run_ab run_ba (ex_meta outside_pair ∅)
           subnets_path ["subnet-a"; "subnet-b"] ex_networking
           InternalPublishingStrategy outside_pair ∅).
  - reflexivity.
  - reflexivity.
  - apply ranges_ok_run_ab.
  - apply ranges_ok_run_ba.
Defined.

Lemma Validate_order_witness :
  Validate schedule_ab quiet_network (ex_meta outside_pair ∅)
    zoned_pools_config
  = Validate schedule_pool_ba quiet_network (ex_meta outside_pair ∅)
      zoned_pools_config
  ∧ Validate schedule_pool_ba quiet_network (ex_meta outside_pair ∅)
      zoned_pools_config
    = Ret (Some (Aggregate
        [Invalid (PIndex subnets_path 0) (VString "subnet-a")
           "subnet's CIDR range start 192.168.0.0 is outside of the specified machine networks";
         Invalid (PIndex subnets_path 1) (VString "subnet-b")
           "subnet's CIDR range start 192.168.1.0 is outside of the specified machine networks";
         Invalid (Child pool_path ["zones"]) (VStrings ["a"; "c"])
           "No subnets provided for zones [c]";
         Invalid (Child (Child (PIndex (NewPath ["compute"]) 0)
                           ["platform"; "aws"]) ["zones"])
           (VStrings ["b"; "d"]) "No subnets provided for zones [d]"])).
Proof.
  split.
  - apply Validate_order.
    + apply schedule_ok_ab.
    + apply schedule_ok_pool_ba.
    + reflexivity.
    + reflexivity.
  - vm_compute. reflexivity.
Defined.

Lemma validateServiceEndpoints_unlisted_region_witness :
  validateServiceEndpoints deaf_network endpoints_path "us-east-2" []
  = (imap pair [] ≫= url_diagnostic deaf_network endpoints_path) ++
    match validateRegion deaf_network "us-east-2" with
    | Some err =>
        [Invalid (Child endpoints_path ["region"]) (VString "us-east-2") err]
    | None => []
    end.
Proof.
  apply (validateServiceEndpoints_unlisted_region deaf_network endpoints_path
           "us-east-2" [] "aws").
  - reflexivity.
  - reflexivity.
  - intros service Hin. by apply elem_of_nil in Hin.
Defined.

Lemma validateServiceEndpoints_ec2_override_witness :
  validateServiceEndpoints quiet_network endpoints_path "us-east-2"
    [ec2_override]
  = imap pair [ec2_override] ≫= url_diagnostic quiet_network endpoints_path.
Proof.
  apply (validateServiceEndpoints_ec2_override quiet_network endpoints_path
           "us-east-2" [ec2_override] "aws" ec2_override).
  - reflexivity.
  - left.
  - reflexivity.
  - reflexivity.
  - intros s Hs _. apply list_elem_of_singleton in Hs as ->. discriminate.
Defined.

Lemma Validate_panics_no_control_plane_witness :
  Validate schedule_ab quiet_network (ex_meta outside_pair ∅)
    (cluster_config "") = Panic.
Proof.
  apply Validate_panics_no_control_plane.
  - by eexists.
  - reflexivity.
Defined.
